(** * ElasticsearchDocumentStore (haystack/database/elasticsearch.py)

    A shallow embedding of the document store that sits between an
    application and an Elasticsearch cluster, and the properties of its
    query translation, bulk write pipeline and embedding refresh.

    Python dictionaries are finite maps with string keys ([gmap string _]),
    Python exceptions are the [Raise] results of an error monad, and every
    call on [self.client] is recorded, in order, in a trace of requests; the
    engine's answers are taken from an [Engine] oracle. *)

From Stdlib Require Import Floats.PrimFloat Numbers.Cyclic.Int63.Uint63 Strings.Ascii.
From stdpp Require Import gmap strings list fin_maps pretty.

Local Open Scope string_scope.
Local Open Scope list_scope.
Local Open Scope Z_scope.

(** ** Python values *)

(** The values that travel between the store and the engine: JSON data as
    Python holds it ([None], [bool], [int], [float], [str], [list], and
    [dict] with string keys). *)
#[warnings="-register-all"]
Inductive value : Type :=
| VNone
| VBool (b : bool)
| VInt (z : Z)
| VFloat (f : float)
| VStr (s : string)
| VList (l : list value)
| VDict (d : gmap string value).

Abbreviation dict := (gmap string value).

Global Instance value_inhabited : Inhabited value := populate VNone.

(** [v is None] *)
Definition is_None (v : value) : bool :=
  match v with VNone => true | _ => false end.

(** [type(v) == list] *)
Definition is_list (v : value) : bool :=
  match v with VList _ => true | _ => false end.

(** The double quote character, for the messages and templates that
    contain one. *)
Definition dq : string := String (Ascii.ascii_of_nat 34) EmptyString.

(** ** Exceptions and the error monad *)

Inductive exn : Type :=
| KeyError (key : string)
| ValueError (msg : string)
| RuntimeError (msg : string)
| TypeError (msg : string)
| AttributeError (msg : string)
| AssertionError
| IndexError
| JSONDecodeError
| TransportError (msg : string).

Inductive result (A : Type) : Type :=
| Ok (a : A)
| Raise (e : exn).
Global Arguments Ok {A} a.
Global Arguments Raise {A} e.

Global Instance result_ret : MRet result := λ A a, Ok a.
Global Instance result_bind : MBind result := λ A B f m,
  match m with Ok a => f a | Raise e => Raise e end.
Global Instance result_fmap : FMap result := λ A B f m,
  match m with Ok a => Ok (f a) | Raise e => Raise e end.

(** A loop whose body may raise: the elements are visited in order and the
    first exception ends the loop. *)
Fixpoint for_each {A B : Type} (f : A → result B) (l : list A) : result (list B) :=
  match l with
  | [] => Ok []
  | x :: l' => y ← f x; ys ← for_each f l'; Ok (y :: ys)
  end.

(** ** Truthiness

    [if x:] on the kinds of value the store tests: the empty string, the
    empty dict, the empty list, [None] and zero are false. *)
Class Truthy (A : Type) := truthy : A → bool.

Global Instance truthy_string : Truthy string := λ s,
  match s with EmptyString => false | _ => true end.
Global Instance truthy_dict {V} : Truthy (gmap string V) := λ d,
  bool_decide (d ≠ ∅).
Global Instance truthy_list {A} : Truthy (list A) := λ l,
  match l with [] => false | _ => true end.
Global Instance truthy_float : Truthy float := λ f,
  negb (PrimFloat.eqb f 0%float).
Global Instance truthy_option {A} `{Truthy A} : Truthy (option A) := λ o,
  match o with Some a => truthy a | None => false end.

(** ** Dictionary operations that can raise *)

(** [d[k]] *)
Definition getitem (d : dict) (k : string) : result value :=
  match d !! k with Some v => Ok v | None => Raise (KeyError k) end.

(** [d.get(k)] *)
Definition get (d : dict) (k : string) : value := default VNone (d !! k).

(** [d.pop(k)]: the value and the dictionary without the key. *)
Definition pop (d : dict) (k : string) : result (value * dict) :=
  match d !! k with
  | Some v => Ok (v, delete k d)
  | None => Raise (KeyError k)
  end.

(** [d.pop(k, None)] *)
Definition pop_default (d : dict) (k : string) : value * dict :=
  (default VNone (d !! k), delete k d).

(** A value used as a dictionary: [v[k]] and [v[k] = x] raise [TypeError]
    on the values that are no dictionaries. *)
Definition as_dict (v : value) : result dict :=
  match v with
  | VDict d => Ok d
  | _ => Raise (TypeError "not a dict")
  end.

(** [v.items()] *)
Definition items (v : value) : result dict :=
  match v with
  | VDict d => Ok d
  | _ => Raise (AttributeError "items")
  end.

(** [v[k] = x] *)
Definition setitem (v : value) (k : string) (x : value) : result dict :=
  d ← as_dict v; Ok (<[k := x]> d).

(** An optional value that is set and true: [if o:] binds it. *)
Definition if_truthy {A : Type} `{Truthy A} (o : option A) : option A :=
  match o with
  | Some a => if truthy a then Some a else None
  | None => None
  end.

(** [d.get(k)] where the key itself may be [None] (no entry has that
    key). *)
Definition get_opt (d : dict) (k : option string) : value :=
  match k with Some k => get d k | None => VNone end.

(** An argument with a default other than [None]: left out, or given. *)
Inductive arg (A : Type) : Type :=
| Omitted
| Given (a : A).
Global Arguments Omitted {A}.
Global Arguments Given {A} a.

(** [body[k1][k2] ... [k] = x]: the dictionaries along the path are looked
    up ([KeyError] when one is missing) and the innermost one is updated;
    the outer ones hold it by reference, so the update shows in [body]. *)
Fixpoint setitem_path (body : dict) (path : list string) (k : string) (x : value)
  : result dict :=
  match path with
  | [] => Ok (<[k := x]> body)
  | p :: path' =>
      inner ← getitem body p;
      d ← as_dict inner;
      d' ← setitem_path d path' k x;
      Ok (<[p := VDict d']> body)
  end.

(** [int + float] arithmetic first turns the [int] into a [float]; exact
    for the integers of magnitude below 2^53. *)
Definition float_of_int (z : Z) : float :=
  if z <? 0 then PrimFloat.opp (PrimFloat.of_uint63 (Uint63.of_Z (- z)))
  else PrimFloat.of_uint63 (Uint63.of_Z z).

(** ** [string.Template.substitute]

    Python's template engine, as the standard library defines it: [$$] is
    an escaped delimiter, [$name] and [${name}] are placeholders whose name
    matches [[_a-zA-Z][_a-zA-Z0-9]*], and any other use of [$] is an
    invalid placeholder. The template is read left to right and the first
    exception ends the substitution. *)

Definition is_id_start (c : ascii) : bool :=
  let n := nat_of_ascii c in
  ((n =? 95) || ((97 <=? n) && (n <=? 122)) || ((65 <=? n) && (n <=? 90)))%nat.

Definition is_id_char (c : ascii) : bool :=
  let n := nat_of_ascii c in
  is_id_start c || ((48 <=? n) && (n <=? 57))%nat.

Definition is_delimiter (c : ascii) : bool := (nat_of_ascii c =? 36)%nat.
Definition is_open_brace (c : ascii) : bool := (nat_of_ascii c =? 123)%nat.
Definition is_close_brace (c : ascii) : bool := (nat_of_ascii c =? 125)%nat.

Definition invalid_placeholder : exn := ValueError "Invalid placeholder in string".

(** [str(mapping[named])] *)
Definition placeholder (mapping : gmap string string) (named : string) : result string :=
  match mapping !! named with
  | Some s => Ok s
  | None => Raise (KeyError named)
  end.

(** Where the scanner is: in plain text, just after a [$], inside [$name],
    or inside [${name]. *)
Inductive scan_state : Type :=
| InText
| AfterDelimiter
| InNamed (named : string)
| InBraced (braced : string).

Fixpoint substitute_from (mapping : gmap string string) (st : scan_state) (s : string)
  : result string :=
  match s with
  | EmptyString =>
      match st with
      | InText => Ok EmptyString
      | InNamed named => placeholder mapping named
      | AfterDelimiter | InBraced _ => Raise invalid_placeholder
      end
  | String c s' =>
      match st with
      | InText =>
          if is_delimiter c then substitute_from mapping AfterDelimiter s'
          else rest ← substitute_from mapping InText s'; Ok (String c rest)
      | AfterDelimiter =>
          if is_delimiter c then
            rest ← substitute_from mapping InText s'; Ok (String c rest)
          else if is_id_start c then
            substitute_from mapping (InNamed (String c EmptyString)) s'
          else if is_open_brace c then
            substitute_from mapping (InBraced EmptyString) s'
          else Raise invalid_placeholder
      | InNamed named =>
          if is_id_char c then
            substitute_from mapping (InNamed (named +:+ String c EmptyString)) s'
          else
            v ← placeholder mapping named;
            rest ← (if is_delimiter c then substitute_from mapping AfterDelimiter s'
                    else rest ← substitute_from mapping InText s'; Ok (String c rest));
            Ok (v +:+ rest)
      | InBraced braced =>
          if (if truthy braced then is_id_char c else is_id_start c) then
            substitute_from mapping (InBraced (braced +:+ String c EmptyString)) s'
          else if truthy braced && is_close_brace c then
            v ← placeholder mapping braced;
            rest ← substitute_from mapping InText s';
            Ok (v +:+ rest)
          else Raise invalid_placeholder
      end
  end.

(** [Template(template).substitute] with the keyword arguments [mapping] *)
Definition Template_substitute (template : string) (mapping : gmap string string)
  : result string :=
  substitute_from mapping InText template.

(** A placeholder name: [[_a-zA-Z][_a-zA-Z0-9]*]. *)
Fixpoint all_id_chars (s : string) : bool :=
  match s with
  | EmptyString => true
  | String c s' => is_id_char c && all_id_chars s'
  end.

Definition is_identifier (s : string) : bool :=
  match s with
  | EmptyString => false
  | String c s' => is_id_start c && all_id_chars s'
  end.

(** Text without a delimiter. *)
Fixpoint is_plain (s : string) : bool :=
  match s with
  | EmptyString => true
  | String c s' => negb (is_delimiter c) && is_plain s'
  end.

(** ** The rest of Python's standard library

    [json.dumps], [json.loads] and [repr] are taken as they are: the store
    only passes values through them. [json.dumps] is total on [value]
    (every such value is JSON serialisable); [json.loads] raises on text
    that is no JSON. *)
Class PyLib : Type := {
  json_dumps : value → string;
  json_loads : string → result value;
  repr : value → string;
}.

(** [str(v)] *)
Definition str `{PyLib} (v : value) : string :=
  match v with
  | VStr s => s
  | VInt z => pretty z
  | VNone => "None"
  | VBool true => "True"
  | VBool false => "False"
  | _ => repr v
  end.

(** ** Documents and labels (haystack.database.base) *)

Module Document.
(** Modelled from the spec: the Document class of haystack.database.base,
    which is not part of this file. Its attributes are the ones the spec's
    data model lists: [id] (a string), [text], [meta] (a mapping, or
    [None]), [embedding], [question], [tags], and [query_score] (a float
    set on retrieval only). *)
Record t : Type := mk {
  text : value;
  id : string;
  query_score : option float;
  question : value;
  meta : option (gmap string value);
  tags : value;
  embedding : value;
}.

(** Modelled from the spec: [doc.to_dict()], the attributes of the
    document by name. *)
Definition to_dict (doc : t) : dict :=
  <["text" := text doc]> (
  <["id" := VStr (id doc)]> (
  <["query_score" := from_option VFloat VNone (query_score doc)]> (
  <["question" := question doc]> (
  <["meta" := from_option VDict VNone (meta doc)]> (
  <["tags" := tags doc]> (
  <["embedding" := embedding doc]> ∅)))))).
End Document.

Module Label.
(** Modelled from the spec: the Label class of haystack.database.base,
    with the attributes the spec's data model lists. *)
Record t : Type := mk {
  question : string;
  answer : string;
  is_correct_answer : bool;
  is_correct_document : bool;
  origin : string;
  document_id : string;
  offset_start_in_doc : Z;
  no_answer : bool;
  model_id : string;
  type : string;
}.

(** Modelled from the spec: [label.to_dict()]. *)
Definition to_dict (label : t) : dict :=
  <["question" := VStr (question label)]> (
  <["answer" := VStr (answer label)]> (
  <["is_correct_answer" := VBool (is_correct_answer label)]> (
  <["is_correct_document" := VBool (is_correct_document label)]> (
  <["origin" := VStr (origin label)]> (
  <["document_id" := VStr (document_id label)]> (
  <["offset_start_in_doc" := VInt (offset_start_in_doc label)]> (
  <["no_answer" := VBool (no_answer label)]> (
  <["model_id" := VStr (model_id label)]> (
  <["type" := VStr (type label)]> ∅))))))))).
End Label.

(** Modelled from the spec: [Document.from_dict] and [Label.from_dict], which
    parse a generic key-value mapping into the canonical form and are not
    part of this file. *)
Class BaseModel : Type := {
  Document_from_dict : dict → result Document.t;
  Label_from_dict : dict → result Label.t;
}.

(** ** The engine

    The requests the store sends through [self.client], with the keyword
    arguments it passes, and the engine's answers. *)
Inductive request : Type :=
| IndicesExists (index : string)
| IndicesCreate (index : string) (ignore : Z) (body : dict)
| Search (index : string) (body : dict) (request_timeout : option Z)
| Scan (index : string) (query : dict)
| Bulk (actions : list dict) (request_timeout : option Z) (refresh : option string).

(** One entry of [result["hits"]["hits"]]. *)
Record hit : Type := mk_hit {
  _id : string;
  _score : option float;
  _source : gmap string value;
}.

Record Engine : Type := {
  indices_exists : string → result bool;
  indices_create : string → Z → dict → result unit;
  search : string → dict → option Z → result (list hit);
  scan : string → dict → result (list hit);
  bulk : list dict → option Z → option string → result unit;
}.

(** The embedding provider: [retriever.embed_passages(passages)] returns
    one vector per passage. *)
Record Retriever : Type := {
  embed_passages : list value → result (list (list float));
}.

(** A method of the store: it reads the trace of the requests sent so far
    and returns its result, or the exception it raised, with the trace
    extended by the requests it sent. *)
Record M (A : Type) : Type := mkM { run : list request → result A * list request }.
Global Arguments mkM {A} _.
Global Arguments run {A} _ _.

Global Instance M_ret : MRet M := λ A a, mkM (λ tr, (Ok a, tr)).
Global Instance M_bind : MBind M := λ A B f m, mkM (λ tr,
  match run m tr with
  | (Ok a, tr') => run (f a) tr'
  | (Raise e, tr') => (Raise e, tr')
  end).

(** [raise e] *)
Definition raise {A : Type} (e : exn) : M A := mkM (λ tr, (Raise e, tr)).

(** A computation that sends nothing. *)
Definition lift {A : Type} (r : result A) : M A := mkM (λ tr, (r, tr)).

(** Sending a request: it is appended to the trace, and the engine's answer
    (or the transport's exception) is the result. *)
Definition send {A : Type} (rq : request) (answer : result A) : M A :=
  mkM (λ tr, (answer, tr ++ [rq])).

(** ** The store *)

Module Store.
(** The attributes [__init__] sets on [self]. [embedding_field] and
    [faq_question_field] may be [None]. *)
Record t : Type := mk {
  client : Engine;
  search_fields : list string;
  text_field : string;
  name_field : string;
  embedding_field : option string;
  embedding_dim : Z;
  excluded_meta_data : option (list string);
  faq_question_field : option string;
  custom_mapping : option (gmap string value);
  index : string;
  label_index : string;
}.
End Store.

Section ElasticsearchDocumentStore.
Context `{PyLib} `{BaseModel}.

Definition _create_document_index (self : Store.t) (index_name : string) : M unit :=
  let mapping :=
    match if_truthy (Store.custom_mapping self) with
    | Some custom_mapping => custom_mapping
    | None =>
        let properties : dict :=
          <[Store.text_field self := VDict {["type" := VStr "text"]}]> (
          <[Store.name_field self := VDict {["type" := VStr "text"]}]> ∅) in
        let properties :=
          match if_truthy (Store.embedding_field self) with
          | Some embedding_field =>
              <[embedding_field :=
                  VDict (<["type" := VStr "dense_vector"]> (
                         <["dims" := VInt (Store.embedding_dim self)]> ∅))]> properties
          | None => properties
          end in
        {["mappings" := VDict {["properties" := VDict properties]}]}
    end in
  send (IndicesCreate index_name 400 mapping)
       (indices_create (Store.client self) index_name 400 mapping).

(** The fixed mapping of a label index. *)
Definition label_mapping : dict :=
  let text := VDict {["type" := VStr "text"]} in
  let boolean := VDict {["type" := VStr "boolean"]} in
  let keyword := VDict {["type" := VStr "keyword"]} in
  let long := VDict {["type" := VStr "long"]} in
  let properties : dict :=
    <["question" := text]> (
    <["answer" := text]> (
    <["is_correct_answer" := boolean]> (
    <["is_correct_document" := boolean]> (
    <["origin" := keyword]> (
    <["document_id" := keyword]> (
    <["offset_start_in_doc" := long]> (
    <["no_answer" := boolean]> (
    <["model_id" := keyword]> (
    <["type" := keyword]> ∅))))))))) in
  {["mappings" := VDict {["properties" := VDict properties]}]}.

Definition _create_label_index (self : Store.t) (index_name : string) : M unit :=
  let mapping := label_mapping in
  send (IndicesCreate index_name 400 mapping)
       (indices_create (Store.client self) index_name 400 mapping).

Definition __init__ (client : Engine) (index label_index : string)
    (search_fields : string + list string) (text_field name_field : string)
    (embedding_field : option string) (embedding_dim : Z)
    (custom_mapping : option dict) (excluded_meta_data : option (list string))
    (faq_question_field : option string) (create_index : bool) : M Store.t :=
  let search_fields :=
    match search_fields with inl s => [s] | inr l => l end in
  let self := {|
    Store.client := client;
    Store.search_fields := search_fields;
    Store.text_field := text_field;
    Store.name_field := name_field;
    Store.embedding_field := embedding_field;
    Store.embedding_dim := embedding_dim;
    Store.excluded_meta_data := excluded_meta_data;
    Store.faq_question_field := faq_question_field;
    Store.custom_mapping := custom_mapping;
    Store.index := index;
    Store.label_index := label_index |} in
  _ ← (if create_index then _create_document_index self index else mret tt);
  _ ← _create_label_index self label_index;
  mret self.

Definition _convert_es_hit_to_document (self : Store.t) (hit : hit)
    (score_adjustment : Z) : Document.t :=
  let reserved : list (option string) :=
    [Some (Store.text_field self); Store.faq_question_field self;
     Store.embedding_field self; Some "tags"] in
  let meta_data : dict :=
    filter (λ kv, Some kv.1 ∉ reserved) (_source hit) in
  let '(name, meta_data) := pop_default meta_data (Store.name_field self) in
  let meta_data := <["name" := name]> meta_data in
  {| Document.id := _id hit;
     Document.text := get (_source hit) (Store.text_field self);
     Document.meta := Some meta_data;
     Document.query_score :=
       match _score hit with
       | Some score =>
           if truthy score
           then Some (PrimFloat.add score (float_of_int score_adjustment))
           else None
       | None => None
       end;
     Document.question := get_opt (_source hit) (Store.faq_question_field self);
     Document.tags := get (_source hit) "tags";
     Document.embedding := get_opt (_source hit) (Store.embedding_field self) |}.

(** The body of the loops [for key, values in filters.items():
    filter_clause.append({"terms": {key: values}})]. *)
Definition terms (kv : string * value) : value :=
  VDict {["terms" := VDict {[kv.1 := kv.2]}]}.

(** [{"query": {"bool": {"must": {"match_all": {}}}}}] *)
Definition match_all_body : dict :=
  {["query" := VDict {["bool" := VDict {["must" := VDict {["match_all" := VDict ∅]}]}]}]}.

(** [if self.excluded_meta_data: body["_source"] = {"excludes": ...}] *)
Definition exclude_meta_data (self : Store.t) (body : dict) : dict :=
  match if_truthy (Store.excluded_meta_data self) with
  | Some excluded_meta_data =>
      <["_source" := VDict {["excludes" := VList (VStr <$> excluded_meta_data)]}]> body
  | None => body
  end.

Definition get_all_documents_in_index (self : Store.t) (index : string)
    (filters : option dict) : M (list hit) :=
  let body := match_all_body in
  body ← lift (
    match if_truthy filters with
    | Some filters =>
        let filter_clause := terms <$> map_to_list filters in
        setitem_path body ["query"; "bool"] "filter" (VList filter_clause)
    | None => Ok body
    end);
  send (Scan index body) (scan (Store.client self) index body).

Definition get_all_documents (self : Store.t) (index : option string)
    (filters : option dict) : M (list Document.t) :=
  let index := default (Store.index self) index in
  result ← get_all_documents_in_index self index filters;
  mret (map (λ hit, _convert_es_hit_to_document self hit 0) result).

(** The record [write_documents] builds for one document (the body of its
    loop). *)
Definition _doc (index : string) (doc : Document.t) : result dict :=
  let _doc : dict :=
    Document.to_dict doc ∪
    (<["_op_type" := VStr "create"]> (<["_index" := VStr index]> ∅)) in
  (* rename id for elastic *)
  '(id, _doc) ← pop _doc "id";
  let _doc := <["_id" := VStr (str id)]> _doc in
  (* don't index query score and empty fields *)
  let _doc := delete "query_score" _doc in
  let _doc : dict := filter (λ kv, is_None kv.2 = false) _doc in
  (* "unnest" all value within "meta" *)
  match _doc !! "meta" with
  | Some meta =>
      meta ← items meta;
      let _doc := map_fold (λ k v (_doc : dict), <[k := v]> _doc) _doc meta in
      Ok (delete "meta" _doc)
  | None => Ok _doc
  end.

Definition write_documents (self : Store.t) (documents : list (dict + Document.t))
    (index : option string) : M unit :=
  _ ← match if_truthy index with
      | Some index =>
          exists_ ← send (IndicesExists index)
                         (indices_exists (Store.client self) index);
          if negb exists_ then _create_document_index self index else mret tt
      | None => mret tt
      end;
  let index := default (Store.index self) index in
  (* Make sure we comply to Document class format *)
  documents_objects ← lift (for_each
    (λ d, match d with inl d => Document_from_dict d | inr d => Ok d end)
    documents);
  documents_to_index ← lift (for_each (_doc index) documents_objects);
  send (Bulk documents_to_index (Some 300) (Some "wait_for"))
       (bulk (Store.client self) documents_to_index (Some 300) (Some "wait_for")).

(** The record [write_labels] builds for one label. *)
Definition _label (index : option string) (label : Label.t) : dict :=
  Label.to_dict label ∪
  (<["_op_type" := VStr "create"]> (<["_index" := from_option VStr VNone index]> ∅)).

Definition write_labels (self : Store.t) (labels : list (dict + Label.t))
    (index : arg (option string)) : M unit :=
  let index := match index with Omitted => Some "label" | Given index => index end in
  _ ← match if_truthy index with
      | Some index =>
          exists_ ← send (IndicesExists index)
                         (indices_exists (Store.client self) index);
          if negb exists_ then _create_label_index self index else mret tt
      | None => mret tt
      end;
  (* Make sure we comply to Label class format *)
  label_objects ← lift (for_each
    (λ l, match l with inl l => Label_from_dict l | inr l => Ok l end)
    labels);
  let labels_to_index := map (_label index) label_objects in
  send (Bulk labels_to_index (Some 300) (Some "wait_for"))
       (bulk (Store.client self) labels_to_index (Some 300) (Some "wait_for")).

Definition wrong_filter_format (key : string) : exn :=
  ValueError (
    "Wrong filter format for key " +:+ dq +:+ key +:+ dq +:+
    ": Please provide a list of allowed values for each key. " +:+
    "Example: {" +:+ dq +:+ "name" +:+ dq +:+ ": [" +:+ dq +:+ "some" +:+ dq +:+
    ", " +:+ dq +:+ "more" +:+ dq +:+ "], " +:+ dq +:+ "category" +:+ dq +:+
    ": [" +:+ dq +:+ "only_one" +:+ dq +:+ "]} ").

Definition query (self : Store.t) (query : option string) (filters : option dict)
    (top_k : Z) (custom_query : option string) (index : option string)
    : M (list Document.t) :=
  let index := default (Store.index self) index in
  body ← lift (
    match query with
    | None =>
        (* Naive retrieval without BM25, only filtering *)
        let body := match_all_body in
        match if_truthy filters with
        | Some filters =>
            let filter_clause := map terms (map_to_list filters) in
            setitem_path body ["query"; "bool"] "filter" (VList filter_clause)
        | None => Ok body
        end
    | Some query =>
        match if_truthy custom_query with
        | Some custom_query =>
            (* Retrieval via custom query *)
            let substitutions : gmap string string := {["question" := query]} in
            let substitutions :=
              match if_truthy filters with
              | Some filters =>
                  map_fold (λ key values (substitutions : gmap string string),
                              let values_str := json_dumps values in
                              <[key := values_str]> substitutions)
                           substitutions filters
              | None => substitutions
              end in
            custom_query_json ← Template_substitute custom_query substitutions;
            body ← json_loads custom_query_json;
            (* add top_k *)
            setitem body "size" (VStr (str (VInt top_k)))
        | None =>
            (* Default Retrieval via BM25 using the user query on
               self.search_fields *)
            let body : dict :=
              <["size" := VStr (str (VInt top_k))]> (
              <["query" := VDict {["bool" := VDict {["should" := VList [
                  VDict {["multi_match" := VDict (
                    <["query" := VStr query]> (
                    <["type" := VStr "most_fields"]> (
                    <["fields" := VList (VStr <$> Store.search_fields self)]> ∅)))]}
                ]]}]}]> ∅) in
            match if_truthy filters with
            | Some filters =>
                filter_clause ← for_each
                  (λ kv : string * value,
                     if negb (is_list kv.2) then Raise (wrong_filter_format kv.1)
                     else Ok (terms kv))
                  (map_to_list filters);
                setitem_path body ["query"; "bool"] "filter" (VList filter_clause)
            | None => Ok body
            end
        end
    end);
  let body := exclude_meta_data self body in
  result ← send (Search index body None)
                (search (Store.client self) index body None);
  mret (map (λ hit, _convert_es_hit_to_document self hit 0) result).

Definition query_by_embedding (self : Store.t) (query_emb : list float)
    (filters : option dict) (top_k : Z) (index : option string)
    : M (list Document.t) :=
  let index := default (Store.index self) index in
  match if_truthy (Store.embedding_field self) with
  | None =>
      raise (RuntimeError
        "Please specify arg `embedding_field` in ElasticsearchDocumentStore()")
  | Some embedding_field =>
      (* +1 in cosine similarity to avoid negative numbers *)
      let body : dict :=
        <["size" := VInt top_k]> (
        <["query" := VDict {["script_score" := VDict (
            <["query" := VDict {["match_all" := VDict ∅]}]> (
            <["script" := VDict (
                <["source" := VStr ("cosineSimilarity(params.query_vector,doc['" +:+
                                    embedding_field +:+ "']) + 1.0")]> (
                <["params" := VDict {["query_vector" := VList (VFloat <$> query_emb)]}]>
                ∅))]> ∅))]}]> ∅) in
      body ← lift (
        match if_truthy filters with
        | Some filters =>
            let filter_clause := map terms (map_to_list filters) in
            setitem_path body ["query"; "bool"] "filter" (VList filter_clause)
        | None => Ok body
        end);
      let body := exclude_meta_data self body in
      result ← send (Search index body (Some 300))
                    (search (Store.client self) index body (Some 300));
      mret (map (λ hit, _convert_es_hit_to_document self hit (-1)) result)
  end.

Definition embedding_dim_mismatch (model_dim documentstore_dim : Z) : exn :=
  RuntimeError (
    "Embedding dim. of model (" +:+ str (VInt model_dim) +:+ ")" +:+
    " doesn't match embedding dim. in documentstore (" +:+
    str (VInt documentstore_dim) +:+ ")." +:+
    "Specify the arg `embedding_dim` when initializing ElasticsearchDocumentStore()").

Definition update_embeddings (self : Store.t) (retriever : Retriever)
    (index : option string) : M unit :=
  let index := default (Store.index self) index in
  match if_truthy (Store.embedding_field self) with
  | None =>
      raise (RuntimeError
        "Specify the arg `embedding_field` when initializing ElasticsearchDocumentStore()")
  | Some embedding_field =>
      docs ← get_all_documents self (Some index) None;
      let passages := map Document.text docs in
      embeddings ← lift (embed_passages retriever passages);
      if negb (length docs =? length embeddings)%nat then raise AssertionError
      else
        match embeddings with
        | [] => raise IndexError
        | emb0 :: _ =>
            if negb (Z.of_nat (length emb0) =? Store.embedding_dim self) then
              raise (embedding_dim_mismatch (Z.of_nat (length emb0))
                                            (Store.embedding_dim self))
            else
              let doc_updates :=
                zip_with (λ (doc : Document.t) (emb : list float),
                  (<["_op_type" := VStr "update"]> (
                   <["_index" := VStr index]> (
                   <["_id" := VStr (Document.id doc)]> (
                   <["doc" := VDict {[embedding_field := VList (VFloat <$> emb)]}]>
                   ∅))) : dict))
                  docs embeddings in
              send (Bulk doc_updates (Some 300) None)
                   (bulk (Store.client self) doc_updates (Some 300) None)
        end
  end.
End ElasticsearchDocumentStore.

(** ** The other methods of the store

    Reading one document, the labels and the statistics of an index, and
    loading evaluation data. *)

(** Modelled from the spec: [eval_data_from_file] of haystack.indexing.utils,
    the file-based ingestion of evaluation data, which is not part of this
    file. It reads a file into documents and labels, or raises. *)
Class IndexingUtils : Type := {
  eval_data_from_file :
    string → result (list (dict + Document.t) * list (dict + Label.t));
}.

(** [np.mean] and [np.median] of a list of integers, taken as they are: on
    the empty list both warn and return [nan], and neither raises. *)
Class NumPy : Type := {
  np_mean : list Z → float;
  np_median : list Z → float;
}.

(** [type(v).__name__] *)
Definition type_name (v : value) : string :=
  match v with
  | VNone => "NoneType"
  | VBool _ => "bool"
  | VInt _ => "int"
  | VFloat _ => "float"
  | VStr _ => "str"
  | VList _ => "list"
  | VDict _ => "dict"
  end.

(** [len(v)]: the values with a length are the strings (their characters
    are the characters of [string]), the lists and the dictionaries. *)
Definition len (v : value) : result Z :=
  match v with
  | VStr s => Ok (Z.of_nat (String.length s))
  | VList l => Ok (Z.of_nat (length l))
  | VDict d => Ok (Z.of_nat (size d))
  | _ => Raise (TypeError ("object of type '" +:+ type_name v +:+ "' has no len()"))
  end.

(** [max(l)] and [min(l)] of a list of integers. *)
Definition max_ (l : list Z) : result Z :=
  match l with
  | [] => Raise (ValueError "max() arg is an empty sequence")
  | x :: l' => Ok (foldl Z.max x l')
  end.

Definition min_ (l : list Z) : result Z :=
  match l with
  | [] => Raise (ValueError "min() arg is an empty sequence")
  | x :: l' => Ok (foldl Z.min x l')
  end.

Section OtherMethods.
Context `{PyLib} `{BaseModel} `{IndexingUtils} `{NumPy}.

Definition get_document_by_id (self : Store.t) (id : string) (index : option string)
    : M (option Document.t) :=
  let index := default (Store.index self) index in
  let query : dict :=
    {["query" := VDict {["ids" := VDict {["values" := VList [VStr id]]}]}]} in
  result ← send (Search index query None)
                (search (Store.client self) index query None);
  let document :=
    match result with
    | hit :: _ => Some (_convert_es_hit_to_document self hit 0)
    | [] => None
    end in
  mret document.

Definition get_all_labels (self : Store.t) (index : arg string)
    (filters : option dict) : M (list Label.t) :=
  let index := match index with Omitted => "label" | Given index => index end in
  result ← get_all_documents_in_index self index filters;
  lift (for_each (λ hit, Label_from_dict (_source hit)) result).

Definition describe_documents (self : Store.t) (index : option string) : M dict :=
  let index := default (Store.index self) index in
  docs ← get_all_documents self (Some index) None;
  l ← lift (for_each (λ d, len (Document.text d)) docs);
  lift (
    let count := VInt (Z.of_nat (length docs)) in
    let chars_mean := VFloat (np_mean l) in
    chars_max ← max_ l;
    chars_min ← min_ l;
    let chars_median := VFloat (np_median l) in
    Ok (<["count" := count]> (
        <["chars_mean" := chars_mean]> (
        <["chars_max" := VInt chars_max]> (
        <["chars_min" := VInt chars_min]> (
        <["chars_median" := chars_median]> ∅)))))).

Definition add_eval_data (self : Store.t) (filename : string)
    (doc_index label_index : arg string) : M unit :=
  let doc_index :=
    match doc_index with Omitted => "eval_document" | Given index => index end in
  let label_index :=
    match label_index with Omitted => "label" | Given index => index end in
  data ← lift (eval_data_from_file filename);
  let '(docs, labels) := data in
  _ ← write_documents self docs (Some doc_index);
  write_labels self labels (Given (Some label_index)).
End OtherMethods.

(** ** The other operations of the client

    [get_document_ids_by_tags], [update_document_meta], the counts and
    [delete_all_documents] call operations of [self.client] that no other
    method uses: a search with a size, [update], [count] and
    [delete_by_query]. These calls, and the pause of
    [delete_all_documents], are recorded in a trace of their own, and the
    answers are those of the same client, seen through these operations. *)
Inductive call : Type :=
| SearchSized (index : string) (body : dict) (size : Z)
| Update (index doc_type id : string) (body : dict) (refresh : string)
| Count (index : string)
| DeleteByQuery (index : string) (body : dict) (ignore : list Z)
| Sleep (secs : Z).

Module Client.
Record t : Type := {
  search : string → dict → Z → result (list hit);
  update : string → string → string → dict → string → result unit;
  count : string → result dict;
  delete_by_query : string → dict → list Z → result unit;
}.
End Client.

Record MC (A : Type) : Type := mkMC { run_calls : list call → result A * list call }.
Global Arguments mkMC {A} _.
Global Arguments run_calls {A} _ _.

Global Instance MC_ret : MRet MC := λ A a, mkMC (λ tr, (Ok a, tr)).
Global Instance MC_bind : MBind MC := λ A B f m, mkMC (λ tr,
  match run_calls m tr with
  | (Ok a, tr') => run_calls (f a) tr'
  | (Raise e, tr') => (Raise e, tr')
  end).

(** A call: it is appended to the trace and the client's answer is the
    result. *)
Definition invoke {A : Type} (c : call) (answer : result A) : MC A :=
  mkMC (λ tr, (answer, tr ++ [c])).

(** [time.sleep(secs)] *)
Definition sleep (secs : Z) : MC unit := invoke (Sleep secs) (Ok tt).

(** A computation that calls nothing. *)
Definition lift_calls {A : Type} (r : result A) : MC A := mkMC (λ tr, (r, tr)).

Definition get_document_ids_by_tags (self : Store.t) (client : Client.t) (tags : dict)
    (index : option string) : MC (list string) :=
  let index := default (Store.index self) (if_truthy index) in
  let term_queries := map terms (map_to_list tags) in
  let query : dict :=
    {["query" := VDict {["bool" := VDict {["must" := VList term_queries]}]}]} in
  result ← invoke (SearchSized index query 10000)
                  (Client.search client index query 10000);
  let doc_ids := map _id result in
  mret doc_ids.

Definition update_document_meta (self : Store.t) (client : Client.t) (id : string)
    (meta : dict) : MC unit :=
  let body : dict := {["doc" := VDict meta]} in
  invoke (Update (Store.index self) "_doc" id body "wait_for")
         (Client.update client (Store.index self) "_doc" id body "wait_for").

Definition get_document_count (self : Store.t) (client : Client.t)
    (index : option string) : MC value :=
  let index := default (Store.index self) index in
  result ← invoke (Count index) (Client.count client index);
  count ← lift_calls (getitem result "count");
  mret count.

Definition get_label_count (self : Store.t) (client : Client.t)
    (index : option string) : MC value :=
  get_document_count self client index.

Definition delete_all_documents (self : Store.t) (client : Client.t) (index : string)
    : MC unit :=
  let body : dict := {["query" := VDict {["match_all" := VDict ∅]}]} in
  _ ← invoke (DeleteByQuery index body [404])
             (Client.delete_by_query client index body [404]);
  (* We want to be sure that all docs are deleted before continuing *)
  sleep 1.

(** ** A reference library for the float-free fragment

    An instance of [PyLib] on which the store can be run: a JSON writer and
    reader for [None], booleans, integers, strings, lists and dictionaries,
    with [json.dumps]'s default separators. Floats are outside the fragment:
    the writer prints them as [NaN] and the reader rejects a number with a
    fraction or an exponent; [\u] escapes are rejected too, and a dictionary
    is written in an order fixed by its keys, not in the order of
    insertion. *)
Module Reference.

Definition chr (n : nat) : ascii := ascii_of_nat n.
Definition is_chr (n : nat) (c : ascii) : bool := (nat_of_ascii c =? n)%nat.

(** [s.join(l)] *)
Fixpoint join (sep : string) (l : list string) : string :=
  match l with
  | [] => ""
  | [x] => x
  | x :: l' => x +:+ sep +:+ join sep l'
  end.

(** The body of a JSON string literal: quotes, backslashes and the usual
    control characters are escaped. *)
Fixpoint escape (s : string) : string :=
  match s with
  | EmptyString => EmptyString
  | String c s' =>
      let n := nat_of_ascii c in
      (if (n =? 34)%nat then String (chr 92) (String (chr 34) EmptyString)
       else if (n =? 92)%nat then String (chr 92) (String (chr 92) EmptyString)
       else if (n =? 10)%nat then String (chr 92) "n"
       else if (n =? 13)%nat then String (chr 92) "r"
       else if (n =? 9)%nat then String (chr 92) "t"
       else String c EmptyString) +:+ escape s'
  end.

Definition quote (s : string) : string := dq +:+ escape s +:+ dq.

Fixpoint dumps (v : value) : string :=
  match v with
  | VNone => "null"
  | VBool true => "true"
  | VBool false => "false"
  | VInt z => pretty z
  | VFloat _ => "NaN"
  | VStr s => quote s
  | VList l => "[" +:+ join ", " (map dumps l) +:+ "]"
  | VDict d =>
      "{" +:+
      join ", " (map_fold (λ k v acc, (quote k +:+ ": " +:+ dumps v) :: acc) [] d)
      +:+ "}"
  end.

(** Python's [repr], on the same fragment. *)
Fixpoint py_repr (v : value) : string :=
  match v with
  | VNone => "None"
  | VBool true => "True"
  | VBool false => "False"
  | VInt z => pretty z
  | VFloat _ => "nan"
  | VStr s => "'" +:+ s +:+ "'"
  | VList l => "[" +:+ join ", " (map py_repr l) +:+ "]"
  | VDict d =>
      "{" +:+
      join ", " (map_fold (λ k v acc, ("'" +:+ k +:+ "': " +:+ py_repr v) :: acc) [] d)
      +:+ "}"
  end.

Definition is_ws (c : ascii) : bool :=
  is_chr 32 c || is_chr 9 c || is_chr 10 c || is_chr 13 c.

Definition is_digit (c : ascii) : bool :=
  let n := nat_of_ascii c in ((48 <=? n) && (n <=? 57))%nat.

Fixpoint skip_ws (s : string) : string :=
  match s with
  | String c s' => if is_ws c then skip_ws s' else s
  | EmptyString => s
  end.

(** [s] without the prefix [p], when it starts with it. *)
Fixpoint strip_prefix (p s : string) : option string :=
  match p, s with
  | EmptyString, _ => Some s
  | String a p', String b s' => if Ascii.eqb a b then strip_prefix p' s' else None
  | String _ _, EmptyString => None
  end.

(** After the opening quote: the decoded string and the text after the
    closing quote. *)
Fixpoint read_string (s : string) : result (string * string) :=
  match s with
  | EmptyString => Raise JSONDecodeError
  | String c s' =>
      if is_chr 34 c then Ok (EmptyString, s')
      else if is_chr 92 c then
        match s' with
        | String e s'' =>
            let decoded :=
              if is_chr 34 e then Some (chr 34)
              else if is_chr 92 e then Some (chr 92)
              else if is_chr 47 e then Some (chr 47)
              else if is_chr 110 e then Some (chr 10)
              else if is_chr 114 e then Some (chr 13)
              else if is_chr 116 e then Some (chr 9)
              else if is_chr 98 e then Some (chr 8)
              else if is_chr 102 e then Some (chr 12)
              else None in
            match decoded with
            | Some d => '(r, rest) ← read_string s''; Ok (String d r, rest)
            | None => Raise JSONDecodeError
            end
        | EmptyString => Raise JSONDecodeError
        end
      else if (nat_of_ascii c <? 32)%nat then Raise JSONDecodeError
      else '(r, rest) ← read_string s'; Ok (String c r, rest)
  end.

(** The digits at the start of [s], read after [acc]. *)
Fixpoint read_digits (acc : Z) (s : string) : Z * string :=
  match s with
  | String c s' =>
      if is_digit c then read_digits (10 * acc + Z.of_nat (nat_of_ascii c - 48)) s'
      else (acc, s)
  | EmptyString => (acc, s)
  end.

(** An integer literal: no leading zeros, no fraction, no exponent. *)
Definition read_int (s : string) : result (Z * string) :=
  let '(negative, s) :=
    match s with
    | String c s' => if is_chr 45 c then (true, s') else (false, s)
    | EmptyString => (false, s)
    end in
  match s with
  | String c s' =>
      if is_digit c then
        let '(n, rest) :=
          if is_chr 48 c then (0, s') else read_digits 0 s in
        match rest with
        | String d _ =>
            if is_chr 46 d || is_chr 101 d || is_chr 69 d then Raise JSONDecodeError
            else Ok (if negative then - n else n, rest)
        | EmptyString => Ok (if negative then - n else n, rest)
        end
      else Raise JSONDecodeError
  | EmptyString => Raise JSONDecodeError
  end.

(** A JSON value at the start of [s] (after white space) and the text
    after it; [read_elements] and [read_members] read the rest of a list
    and of a dictionary after its first bracket. *)
Fixpoint read_value (fuel : nat) (s : string) : result (value * string) :=
  match fuel with
  | O => Raise JSONDecodeError
  | S fuel =>
      match skip_ws s with
      | EmptyString => Raise JSONDecodeError
      | String c s' =>
          if is_chr 34 c then
            '(r, rest) ← read_string s'; Ok (VStr r, rest)
          else if is_chr 91 c then
            match skip_ws s' with
            | String d rest =>
                if is_chr 93 d then Ok (VList [], rest)
                else '(l, rest) ← read_elements fuel s'; Ok (VList l, rest)
            | EmptyString => Raise JSONDecodeError
            end
          else if is_chr 123 c then
            match skip_ws s' with
            | String d rest =>
                if is_chr 125 d then Ok (VDict ∅, rest)
                else '(m, rest) ← read_members fuel ∅ s'; Ok (VDict m, rest)
            | EmptyString => Raise JSONDecodeError
            end
          else
            match strip_prefix "null" (String c s'),
                  strip_prefix "true" (String c s'),
                  strip_prefix "false" (String c s') with
            | Some rest, _, _ => Ok (VNone, rest)
            | _, Some rest, _ => Ok (VBool true, rest)
            | _, _, Some rest => Ok (VBool false, rest)
            | None, None, None =>
                '(n, rest) ← read_int (String c s'); Ok (VInt n, rest)
            end
      end
  end
with read_elements (fuel : nat) (s : string) : result (list value * string) :=
  match fuel with
  | O => Raise JSONDecodeError
  | S fuel =>
      '(v, rest) ← read_value fuel s;
      match skip_ws rest with
      | String c rest' =>
          if is_chr 93 c then Ok ([v], rest')
          else if is_chr 44 c then
            '(l, rest'') ← read_elements fuel rest'; Ok (v :: l, rest'')
          else Raise JSONDecodeError
      | EmptyString => Raise JSONDecodeError
      end
  end
with read_members (fuel : nat) (acc : gmap string value) (s : string)
    : result (gmap string value * string) :=
  match fuel with
  | O => Raise JSONDecodeError
  | S fuel =>
      match skip_ws s with
      | String q s' =>
          if is_chr 34 q then
            '(k, rest) ← read_string s';
            match skip_ws rest with
            | String c rest' =>
                if is_chr 58 c then
                  '(v, rest'') ← read_value fuel rest';
                  let acc := <[k := v]> acc in
                  match skip_ws rest'' with
                  | String e rest3 =>
                      if is_chr 125 e then Ok (acc, rest3)
                      else if is_chr 44 e then read_members fuel acc rest3
                      else Raise JSONDecodeError
                  | EmptyString => Raise JSONDecodeError
                  end
                else Raise JSONDecodeError
            | EmptyString => Raise JSONDecodeError
            end
          else Raise JSONDecodeError
      | EmptyString => Raise JSONDecodeError
      end
  end.

Definition loads (s : string) : result value :=
  '(v, rest) ← read_value (S (String.length s)) s;
  match skip_ws rest with
  | EmptyString => Ok v
  | String _ _ => Raise JSONDecodeError
  end.

Definition lib : PyLib :=
  {| json_dumps := dumps; json_loads := loads; repr := py_repr |}.

Definition get_bool (d : dict) (k : string) : bool :=
  match d !! k with Some (VBool b) => b | _ => false end.

Definition get_int (d : dict) (k : string) : Z :=
  match d !! k with Some (VInt z) => z | _ => 0 end.

Definition get_str (d : dict) (k : string) : string := @str lib (get d k).

(** A reading of [from_dict] for the examples: the attributes are taken
    by name from the mapping. *)
Definition model : BaseModel := {|
  Document_from_dict d :=
    Ok {| Document.text := get d "text";
          Document.id := get_str d "id";
          Document.query_score := None;
          Document.question := get d "question";
          Document.meta :=
            match d !! "meta" with Some (VDict m) => Some m | _ => None end;
          Document.tags := get d "tags";
          Document.embedding := get d "embedding" |};
  Label_from_dict d :=
    Ok {| Label.question := get_str d "question";
          Label.answer := get_str d "answer";
          Label.is_correct_answer := get_bool d "is_correct_answer";
          Label.is_correct_document := get_bool d "is_correct_document";
          Label.origin := get_str d "origin";
          Label.document_id := get_str d "document_id";
          Label.offset_start_in_doc := get_int d "offset_start_in_doc";
          Label.no_answer := get_bool d "no_answer";
          Label.model_id := get_str d "model_id";
          Label.type := get_str d "type" |} |}.
End Reference.

(** ** What the claims speak of *)

Section Observations.
Context `{PyLib} `{BaseModel}.

(** A search that reaches the engine: the request is appended to the
    trace and every hit of the answer is converted with the given score
    adjustment. *)
Definition searched (self : Store.t) (index : string) (body : dict)
    (request_timeout : option Z) (score_adjustment : Z) (tr : list request)
    : result (list Document.t) * list request :=
  (map (λ hit, _convert_es_hit_to_document self hit score_adjustment) <$>
     search (Store.client self) index body request_timeout,
   tr ++ [Search index body request_timeout]).

(** The entry [filters] adds to the [bool] query: one [terms] clause per
    key under [filter], or nothing when there are no filters. *)
Definition filter_entry (filters : option dict) : dict :=
  match if_truthy filters with
  | Some filters => {["filter" := VList (terms <$> map_to_list filters)]}
  | None => ∅
  end.

(** The spec's shape 1, match-all, filtered only. *)
Definition match_all_shape (filters : option dict) : dict :=
  {["query" := VDict {["bool" := VDict (
      <["must" := VDict {["match_all" := VDict ∅]}]> (filter_entry filters))]}]}.

(** The spec's shape 3, a multi-field most-fields-match query over the
    searchable fields with the result count capped at [top_k]. *)
Definition keyword_shape (self : Store.t) (query : string) (filters : option dict)
    (top_k : Z) : dict :=
  <["size" := VStr (pretty top_k)]> (
  <["query" := VDict {["bool" := VDict (
      <["should" := VList [VDict {["multi_match" := VDict (
          <["query" := VStr query]> (
          <["type" := VStr "most_fields"]> (
          <["fields" := VList (VStr <$> Store.search_fields self)]> ∅)))]}]]> (
      filter_entry filters))]}]> ∅).

(** The placeholders of the spec's shape 2: the text placeholder holds
    the raw query string and each filter key's placeholder holds the JSON
    encoding of the key's value. *)
Definition placeholders (query : string) (filters : option dict) : gmap string string :=
  <["question" := query]> (json_dumps <$> default ∅ filters).

(** The mapping the templated shape is built with: the text placeholder
    and one placeholder per filter key, the filter's standing when both
    have the same name. *)
Definition substitutions (query : string) (filters : option dict) : gmap string string :=
  (json_dumps <$> default ∅ filters) ∪ {["question" := query]}.

(** The spec's shape 2: the template with its placeholders replaced,
    parsed, and the size parameter set to [top_k]. *)
Definition templated_shape (mapping : gmap string string) (template : string)
    (top_k : Z) : result dict :=
  custom_query_json ← Template_substitute template mapping;
  body ← json_loads custom_query_json;
  setitem body "size" (VStr (pretty top_k)).

(** What a retrieved document's score is to be: the engine's score plus
    the adjustment of the query shape, and absent when the engine's score
    is missing or zero. *)
Definition adjusted_score (adjustment : float) (score : option float) : option float :=
  match score with
  | Some score =>
      if PrimFloat.eqb score 0%float then None
      else Some (PrimFloat.add score adjustment)
  | None => None
  end.

(** Every value of the filters is a list. *)
Definition well_formed (filters : option dict) : Prop :=
  ∀ filters', filters = Some filters' →
  ∀ key values, filters' !! key = Some values → is_list values = true.

(** The record of a document before its meta mapping is unnested: the
    operation type, the index, the identity under [_id], and the
    attributes that are set, [query_score] apart. *)
Definition top_level (index : string) (doc : Document.t) : dict :=
  filter (λ kv, is_None kv.2 = false) (
    delete "query_score" (
      <["_id" := VStr (Document.id doc)]> (
        delete "id" (
          Document.to_dict doc ∪
          (<["_op_type" := VStr "create"]> (<["_index" := VStr index]> ∅)))))).

(** The attributes of a document, by name (the keys of [to_dict]). *)
Definition attributes : list string :=
  ["text"; "id"; "query_score"; "question"; "meta"; "tags"; "embedding"].

(** What the spec says of the record built for a document: (1) tagged
    insert-only, (2) the identity moved to the engine's [_id] field, (3)
    no [query_score], (4) no attribute whose value is absent, (5) every
    pair of the meta mapping at the top level and no [meta] container.
    Item (4) speaks of the attributes of the document: a pair of the meta
    mapping is hoisted with the value it has. *)
Definition write_record_spec (doc : Document.t) (record : dict) : Prop :=
  record !! "_op_type" = Some (VStr "create") ∧
  (record !! "id" = None ∧ record !! "_id" = Some (VStr (Document.id doc))) ∧
  record !! "query_score" = None ∧
  (∀ k, k ∈ attributes → record !! k ≠ Some VNone) ∧
  ((∀ meta k v, Document.meta doc = Some meta → meta !! k = Some v →
                record !! k = Some v) ∧
   record !! "meta" = None).

(** The keys of a record that an entry of the meta mapping would take
    over or be lost under. *)
Definition record_keys : list string :=
  ["_op_type"; "_id"; "id"; "query_score"; "meta"].

(** A meta mapping that can be unnested as it is: none of its keys is a
    key of the record, and it holds no absent value under the name of an
    attribute. *)
Definition plain_meta (doc : Document.t) : Prop :=
  ∀ meta, Document.meta doc = Some meta →
    (∀ k, k ∈ record_keys → meta !! k = None) ∧
    (∀ k, k ∈ attributes → meta !! k ≠ Some VNone).

(** The fields of a hit that are no metadata: the text field, the FAQ
    question field, the embedding field and [tags]. *)
Definition reserved_fields (self : Store.t) : list (option string) :=
  [Some (Store.text_field self); Store.faq_question_field self;
   Store.embedding_field self; Some "tags"].

(** What the spec says the meta mapping of a converted hit is: exactly
    the stored fields that are not reserved, with the stored name field
    under the key [name]. *)
Definition meta_spec (self : Store.t) (source : dict) : dict :=
  let stored : dict := filter (λ kv, Some kv.1 ∉ reserved_fields self) source in
  match stored !! Store.name_field self with
  | Some name => <["name" := name]> (delete (Store.name_field self) stored)
  | None => stored
  end.

(** The value stored under the name field, when the hit has one and the
    name field is not reserved. *)
Definition stored_name (self : Store.t) (source : dict) : option value :=
  if decide (Some (Store.name_field self) ∈ reserved_fields self) then None
  else source !! Store.name_field self.

(** A message names a number when the number's decimal form stands in
    it. *)
Definition names (msg : string) (n : Z) : Prop :=
  ∃ before after, msg = before +:+ pretty n +:+ after.

(** The update [update_embeddings] builds for a document and its new
    embedding. *)
Definition embedding_update (index embedding_field : string)
    (doc : Document.t) (emb : list float) : dict :=
  <["_op_type" := VStr "update"]> (
  <["_index" := VStr index]> (
  <["_id" := VStr (Document.id doc)]> (
  <["doc" := VDict {[embedding_field := VList (VFloat <$> emb)]}]> ∅))).
End Observations.

(** ** Concrete inputs

    A store built with the defaults of [__init__] over an engine that
    answers every search and scan with the given hits, the spec's custom
    query template, and the filters of the spec's examples. *)
Module Example.
Definition engine (hits : list hit) : Engine := {|
  indices_exists _ := Ok true;
  indices_create _ _ _ := Ok tt;
  search _ _ _ := Ok hits;
  scan _ _ := Ok hits;
  bulk _ _ _ := Ok tt |}.

Definition store_with (embedding_dim : Z) (label_index : string) (hits : list hit)
    : Store.t := {|
  Store.client := engine hits;
  Store.search_fields := ["text"];
  Store.text_field := "text";
  Store.name_field := "name";
  Store.embedding_field := Some "embedding";
  Store.embedding_dim := embedding_dim;
  Store.excluded_meta_data := None;
  Store.faq_question_field := None;
  Store.custom_mapping := None;
  Store.index := "document";
  Store.label_index := label_index |}.

Definition store (hits : list hit) : Store.t := store_with 768 "label" hits.

(** An embedding provider whose vectors all have the length [dim]. *)
Definition retriever (dim : nat) : Retriever :=
  {| embed_passages passages := Ok (map (λ _, repeat 0%float dim) passages) |}.

(** The query vector [[0.5, 0.25]], and a hit with that embedding which
    the engine of the examples reports with the score 2.0. *)
Definition query_emb : list float := [0.5%float; 0.25%float].
Definition same_vector_hit : hit := {|
  _id := "doc-1";
  _score := Some 2%float;
  _source :=
    <["text" := VStr "cats purr"]> (
    <["embedding" := VList (VFloat <$> query_emb)]> ∅) |}.

(** A document as a scan returns it, with no score. *)
Definition scanned_hit : hit := {|
  _id := "doc-1";
  _score := None;
  _source := <["text" := VStr "cats purr"]> (<["name" := VStr "cats.txt"]> ∅) |}.

(** [{"query": {"bool": {"must": {"match": {"text": "${question}"}},
     "filter": {"terms": {"year": ${year}}}}}}] *)
Definition template : string :=
  "{" +:+ dq +:+ "query" +:+ dq +:+ ": {" +:+ dq +:+ "bool" +:+ dq +:+ ": {" +:+
  dq +:+ "must" +:+ dq +:+ ": {" +:+ dq +:+ "match" +:+ dq +:+ ": {" +:+
  dq +:+ "text" +:+ dq +:+ ": " +:+ dq +:+ "${question}" +:+ dq +:+ "}}, " +:+
  dq +:+ "filter" +:+ dq +:+ ": {" +:+ dq +:+ "terms" +:+ dq +:+ ": {" +:+
  dq +:+ "year" +:+ dq +:+ ": ${year}}}}}}".

(** [{"year": [2020]}] *)
Definition year_list : dict := {["year" := VList [VInt 2020]]}.

(** [{"year": 2020}] *)
Definition year_scalar : dict := {["year" := VInt 2020]}.

(** What the spec's template is parsed to for the text [cats] and a
    filter on [year], before the size is set. *)
Definition cats_year (year : value) : dict :=
  {["query" := VDict {["bool" := VDict (
      <["must" := VDict {["match" := VDict {["text" := VStr "cats"]}]}]> (
      <["filter" := VDict {["terms" := VDict {["year" := year]}]}]> ∅))]}]}.

Definition cats_2020 : dict := cats_year (VList [VInt 2020]).

(** [{"query": {"match": {"text": "${question}"}}}] *)
Definition match_template : string :=
  "{" +:+ dq +:+ "query" +:+ dq +:+ ": {" +:+ dq +:+ "match" +:+ dq +:+ ": {" +:+
  dq +:+ "text" +:+ dq +:+ ": " +:+ dq +:+ "${question}" +:+ dq +:+ "}}}".

(** What [match_template] is parsed to for a text. *)
Definition match_text (text : string) : dict :=
  {["query" := VDict {["match" := VDict {["text" := VStr text]}]}]}.

(** The text a trace of one search request with a [match] query asks
    for. *)
Definition sent_text (tr : list request) : option value :=
  match tr with
  | [Search _ body _] =>
      match body !! "query" with
      | Some (VDict q) =>
          match q !! "match" with
          | Some (VDict m) => m !! "text"
          | _ => None
          end
      | _ => None
      end
  | _ => None
  end.

(** [{"question": [2020]}]: a filter on a field named like the text
    placeholder. *)
Definition question_filter : dict := {["question" := VList [VInt 2020]]}.

(** A hit for a document that was written with no name. *)
Definition unnamed_hit : hit := {|
  _id := "doc-2";
  _score := Some 1%float;
  _source := {["text" := VStr "cats purr"]} |}.

(** The default mapping of a document index, for the field names of
    [store_with]. *)
Definition document_mapping (embedding_dim : Z) : dict :=
  {["mappings" := VDict {["properties" := VDict (
      <["name" := VDict {["type" := VStr "text"]}]> (
      <["text" := VDict {["type" := VStr "text"]}]> (
      <["embedding" := VDict (<["type" := VStr "dense_vector"]> (
                              <["dims" := VInt embedding_dim]> ∅))]> ∅)))]}]}.

(** A label of the evaluation data. *)
Definition label : Label.t := {|
  Label.question := "do cats purr?";
  Label.answer := "yes";
  Label.is_correct_answer := true;
  Label.is_correct_document := true;
  Label.origin := "gold_label";
  Label.document_id := "doc-1";
  Label.offset_start_in_doc := 0;
  Label.no_answer := false;
  Label.model_id := "";
  Label.type := "" |}.

(** A document whose meta mapping has an entry with no value, under a key
    that is no attribute of the document. *)
Definition anonymous_doc : Document.t := {|
  Document.text := VStr "cats purr";
  Document.id := "doc-1";
  Document.query_score := None;
  Document.question := VNone;
  Document.meta := Some {["author" := VNone]};
  Document.tags := VNone;
  Document.embedding := VNone |}.

(** A document with a name and a year in its meta mapping, as retrieved
    (it has a score). *)
Definition cats_doc : Document.t := {|
  Document.text := VStr "cats purr";
  Document.id := "doc-1";
  Document.query_score := Some 1%float;
  Document.question := VNone;
  Document.meta := Some (<["name" := VStr "cats.txt"]> {["year" := VInt 2020]});
  Document.tags := VNone;
  Document.embedding := VNone |}.

(** A document with the given meta mapping. *)
Definition meta_doc (meta : dict) : Document.t := {|
  Document.text := VStr "cats purr";
  Document.id := "doc-1";
  Document.query_score := None;
  Document.question := VNone;
  Document.meta := Some meta;
  Document.tags := VNone;
  Document.embedding := VNone |}.
End Example.

(** ** What the further properties speak of *)

(** The body of the similarity query for an embedding field. *)
Definition similarity_shape (embedding_field : string) (query_emb : list float)
    (top_k : Z) : dict :=
  <["size" := VInt top_k]> (
  <["query" := VDict {["script_score" := VDict (
      <["query" := VDict {["match_all" := VDict ∅]}]> (
      <["script" := VDict (
          <["source" := VStr ("cosineSimilarity(params.query_vector,doc['" +:+
                              embedding_field +:+ "']) + 1.0")]> (
          <["params" := VDict {["query_vector" := VList (VFloat <$> query_emb)]}]>
          ∅))]> ∅))]}]> ∅).

(** The [_source] entry of a body that excludes fields from the hits. *)
Definition excludes (fields : list string) : value :=
  VDict {["excludes" := VList (VStr <$> fields)]}.

(** The mapping of a document index: the custom mapping when the store has
    one, else the text field, the name field and the embedding field. *)
Definition index_mapping (self : Store.t) : dict :=
  match if_truthy (Store.custom_mapping self) with
  | Some custom_mapping => custom_mapping
  | None =>
      let properties : dict :=
        <[Store.text_field self := VDict {["type" := VStr "text"]}]> (
        <[Store.name_field self := VDict {["type" := VStr "text"]}]> ∅) in
      let properties :=
        match if_truthy (Store.embedding_field self) with
        | Some embedding_field =>
            <[embedding_field :=
                VDict (<["type" := VStr "dense_vector"]> (
                       <["dims" := VInt (Store.embedding_dim self)]> ∅))]> properties
        | None => properties
        end in
      {["mappings" := VDict {["properties" := VDict properties]}]}
  end.

(** How a field is mapped when the store has no custom mapping: the
    embedding field as a dense vector of the configured dimension, the text
    field and the name field as text, and no other field. *)
Definition field_mapping (self : Store.t) (field : string) : option value :=
  if decide (if_truthy (Store.embedding_field self) = Some field) then
    Some (VDict (<["type" := VStr "dense_vector"]> (
                 <["dims" := VInt (Store.embedding_dim self)]> ∅)))
  else if decide (field = Store.text_field self ∨ field = Store.name_field self) then
    Some (VDict {["type" := VStr "text"]})
  else None.

(** The query of [get_document_by_id]. *)
Definition ids_query (id : string) : dict :=
  {["query" := VDict {["ids" := VDict {["values" := VList [VStr id]]}]}]}.

(** The record of a document: its set attributes with the entries of its
    meta mapping stored over them and the [meta] container removed. *)
Definition record_of (index : string) (doc : Document.t) : dict :=
  match Document.meta doc with
  | Some meta => delete "meta" (meta ∪ top_level index doc)
  | None => top_level index doc
  end.

(** An attribute that is set: [None] is stored under no key. *)
Definition set_value (v : value) : option value :=
  if is_None v then None else Some v.

(** The keys of a record that are none of the document's metadata: the
    attributes and the fields of the bulk action. *)
Definition attribute_keys : list string :=
  ["text"; "question"; "embedding"; "tags"; "meta"; "_op_type"; "_index"; "_id"].

(** What an index keeps of a bulk record as the document's source: the
    fields other than the action's own [_op_type], [_index] and [_id]. *)
Definition stored_source (record : dict) : dict :=
  delete "_op_type" (delete "_index" (delete "_id" record)).

(** The query of [get_document_ids_by_tags]: one [terms] clause per tag,
    all of which must match. *)
Definition tags_query (tags : dict) : dict :=
  {["query" := VDict {["bool" := VDict {["must" := VList (map terms (map_to_list tags))]}]}]}.

(** The query of [delete_all_documents]. *)
Definition match_all_query : dict := {["query" := VDict {["match_all" := VDict ∅]}]}.

(** The lengths of the texts of the hits of a store. *)
Definition text_lengths (texts : list string) : list Z :=
  map (λ s, Z.of_nat (String.length s)) texts.

(** A method that has sent no bulk request: every bulk request of the
    trace it leaves was in the trace it found. *)
Definition sends_no_bulk (tr tr' : list request) : Prop :=
  ∀ actions request_timeout refresh,
    Bulk actions request_timeout refresh ∈ tr' → Bulk actions request_timeout refresh ∈ tr.

(** The source of the script of a similarity body:
    [body["query"]["script_score"]["script"]["source"]]. *)
Definition script_source (body : dict) : option value :=
  match body !! "query" with
  | Some (VDict query) =>
      match query !! "script_score" with
      | Some (VDict script_score) =>
          match script_score !! "script" with
          | Some (VDict script) => script !! "source"
          | _ => None
          end
      | _ => None
      end
  | _ => None
  end.

(** The script of the similarity body for an embedding field: the cosine
    similarity of the query vector and the field, plus the offset 1.0. *)
Definition similarity_script (embedding_field : string) : string :=
  "cosineSimilarity(params.query_vector,doc['" +:+ embedding_field +:+ "']) + 1.0".

(** What the script evaluates to on a document for which the cosine
    similarity is [cosine]. *)
Definition script_score (cosine : float) : float := PrimFloat.add cosine 1.

(** What [write_documents] and [write_labels] do for a named index before
    they write: the check, and the creation of a missing index. *)
Definition made_to_exist (client : Engine) (index : string) (mapping : dict)
    : result unit * list request :=
  match indices_exists client index with
  | Ok true => (Ok tt, [IndicesExists index])
  | Ok false =>
      (indices_create client index 400 mapping,
       [IndicesExists index; IndicesCreate index 400 mapping])
  | Raise e => (Raise e, [IndicesExists index])
  end.

(** ** More concrete inputs

    Stores with other configurations than [Example.store], templates
    without the text placeholder, and instances of the evaluation data
    reader and of the statistics to run the store on. *)
Module Sample.
(** A store built with the defaults of [__init__]: no embedding field. *)
Definition plain_store (hits : list hit) : Store.t := {|
  Store.client := Example.engine hits;
  Store.search_fields := ["text"];
  Store.text_field := "text";
  Store.name_field := "name";
  Store.embedding_field := None;
  Store.embedding_dim := 768;
  Store.excluded_meta_data := None;
  Store.faq_question_field := None;
  Store.custom_mapping := None;
  Store.index := "document";
  Store.label_index := "label" |}.

(** A store that keeps the embeddings out of its results. *)
Definition excluding_store (hits : list hit) : Store.t := {|
  Store.client := Example.engine hits;
  Store.search_fields := ["text"];
  Store.text_field := "text";
  Store.name_field := "name";
  Store.embedding_field := Some "embedding";
  Store.embedding_dim := 768;
  Store.excluded_meta_data := Some ["embedding"];
  Store.faq_question_field := None;
  Store.custom_mapping := None;
  Store.index := "document";
  Store.label_index := "label" |}.

(** [{"query": {"match_all": {}}}] *)
Definition match_all_template : string :=
  "{" +:+ dq +:+ "query" +:+ dq +:+ ": {" +:+ dq +:+ "match_all" +:+ dq +:+ ": {}}}".

(** An embedding provider that returns the same vectors whatever the
    passages are. *)
Definition fixed_retriever (embeddings : list (list float)) : Retriever :=
  {| embed_passages _ := Ok embeddings |}.

(** A document of a FAQ: it has a question. *)
Definition faq_doc : Document.t := {|
  Document.text := VStr "yes";
  Document.id := "faq-1";
  Document.query_score := None;
  Document.question := VStr "do cats purr?";
  Document.meta := Some {["year" := VInt 2020]};
  Document.tags := VNone;
  Document.embedding := VNone |}.

(** The hit an index returns for a record it was sent. *)
Definition stored_hit (id : string) (record : dict) : hit :=
  {| _id := id; _score := None; _source := stored_source record |}.

(** A reader of evaluation data that finds one document and one label in
    every file. *)
Definition utils : IndexingUtils :=
  {| eval_data_from_file _ := Ok ([inr Example.cats_doc], [inr Example.label]) |}.

(** The mean and the median of a list of integers, exact while the sum is
    below 2^53; [nan] on the empty list. *)
Definition mean (l : list Z) : float :=
  PrimFloat.div (float_of_int (foldr Z.add 0 l)) (float_of_int (Z.of_nat (length l))).

Fixpoint insert_sorted (x : Z) (l : list Z) : list Z :=
  match l with
  | [] => [x]
  | y :: l' => if x <=? y then x :: l else y :: insert_sorted x l'
  end.

Definition median (l : list Z) : float :=
  let sorted := foldr insert_sorted [] l in
  let n := length l in
  if Nat.even n then
    mean (take 2 (drop (n / 2 - 1) sorted))
  else float_of_int (default 0 (sorted !! (n / 2)%nat)).

Definition numpy : NumPy := {| np_mean := mean; np_median := median |}.

(** A reading of [from_dict] that insists on the text of a document and on
    the question of a label. *)
Definition strict_model : BaseModel := {|
  Document_from_dict d :=
    _ ← getitem d "text"; Document_from_dict (BaseModel := Reference.model) d;
  Label_from_dict d :=
    _ ← getitem d "question"; Label_from_dict (BaseModel := Reference.model) d |}.

(** An engine on which no index exists yet. *)
Definition fresh_engine : Engine := {|
  indices_exists _ := Ok false;
  indices_create _ _ _ := Ok tt;
  search _ _ _ := Ok [];
  scan _ _ := Ok [];
  bulk _ _ _ := Ok tt |}.

Definition fresh_store : Store.t := {|
  Store.client := fresh_engine;
  Store.search_fields := ["text"];
  Store.text_field := "text";
  Store.name_field := "name";
  Store.embedding_field := None;
  Store.embedding_dim := 768;
  Store.excluded_meta_data := None;
  Store.faq_question_field := None;
  Store.custom_mapping := None;
  Store.index := "document";
  Store.label_index := "label" |}.

(** A hit for a document that has a name and no text. *)
Definition textless_hit : hit := {|
  _id := "doc-3";
  _score := None;
  _source := {["name" := VStr "cats.txt"]} |}.
End Sample.

(** ** An engine that scores

    The engine's side of the similarity query, to run [query_by_embedding]
    on stored vectors. *)
Module Scoring.
(** An engine that evaluates the similarity script in binary64 on the
    documents it holds: the cosine similarity of two vectors is their dot
    product over the product of their magnitudes. *)
Definition dot (a b : list float) : float :=
  foldl PrimFloat.add 0%float (zip_with PrimFloat.mul a b).

Definition cosine_similarity (a b : list float) : float :=
  PrimFloat.div (dot a b)
                (PrimFloat.mul (PrimFloat.sqrt (dot a a)) (PrimFloat.sqrt (dot b b))).

(** A list of floats. *)
Fixpoint floats_of (l : list value) : option (list float) :=
  match l with
  | [] => Some []
  | VFloat f :: l' => fs ← floats_of l'; Some (f :: fs)
  | _ => None
  end.

Definition floats (v : value) : option (list float) :=
  match v with VList l => floats_of l | _ => None end.

(** [body["query"]["script_score"]["script"]["params"]["query_vector"]] *)
Definition query_vector (body : dict) : option (list float) :=
  match body !! "query" with
  | Some (VDict query) =>
      match query !! "script_score" with
      | Some (VDict script_score) =>
          match script_score !! "script" with
          | Some (VDict script) =>
              match script !! "params" with
              | Some (VDict params) => params !! "query_vector" ≫= floats
              | _ => None
              end
          | _ => None
          end
      | _ => None
      end
  | _ => None
  end.

(** The vector of the field that a script names, in a stored document. *)
Definition named_vector (source : string) (stored : dict) : option (list float) :=
  head (omap (λ kv : string * value,
                if decide (source = similarity_script kv.1) then floats kv.2 else None)
             (map_to_list stored)).

(** The hit of a stored document for a similarity body, when the script
    of the body is the similarity script on a vector field of the
    document. *)
Definition scored (body : dict) (stored : string * dict) : option hit :=
  match script_source body with
  | Some (VStr source) =>
      query_emb ← query_vector body;
      emb ← named_vector source stored.2;
      Some {| _id := stored.1;
              _score := Some (script_score (cosine_similarity query_emb emb));
              _source := stored.2 |}
  | _ => None
  end.

Fixpoint hits_of (body : dict) (documents : list (string * dict)) : option (list hit) :=
  match documents with
  | [] => Some []
  | stored :: documents' =>
      hit ← scored body stored; hits ← hits_of body documents'; Some (hit :: hits)
  end.

Definition engine (documents : list (string * dict)) : Engine := {|
  indices_exists _ := Ok true;
  indices_create _ _ _ := Ok tt;
  search _ body _ :=
    match hits_of body documents with
    | Some hits => Ok hits
    | None => Raise (TransportError "script_exception")
    end;
  scan _ _ :=
    Ok (map (λ stored : string * dict,
               {| _id := stored.1; _score := None; _source := stored.2 |}) documents);
  bulk _ _ _ := Ok tt |}.

(** The store of [Example.store] over this engine. *)
Definition store (documents : list (string * dict)) : Store.t := {|
  Store.client := engine documents;
  Store.search_fields := ["text"];
  Store.text_field := "text";
  Store.name_field := "name";
  Store.embedding_field := Some "embedding";
  Store.embedding_dim := 2;
  Store.excluded_meta_data := None;
  Store.faq_question_field := None;
  Store.custom_mapping := None;
  Store.index := "document";
  Store.label_index := "label" |}.

(** A stored document with the given embedding. *)
Definition stored (emb : list float) : string * dict :=
  ("doc-1", <["text" := VStr "cats purr"]> {["embedding" := VList (VFloat <$> emb)]}).
End Scoring.

(** ** The monad's equations *)

Lemma run_bind {A B : Type} (m : M A) (f : A → M B) (tr : list request) :
  run (m ≫= f) tr =
  match run m tr with
  | (Ok a, tr') => run (f a) tr'
  | (Raise e, tr') => (Raise e, tr')
  end.
Proof. reflexivity. Qed.

Lemma run_ret {A : Type} (a : A) (tr : list request) : run (mret a) tr = (Ok a, tr).
Proof. reflexivity. Qed.

Lemma run_lift {A : Type} (r : result A) (tr : list request) : run (lift r) tr = (r, tr).
Proof. reflexivity. Qed.

Lemma run_raise {A : Type} (e : exn) (tr : list request) :
  run (raise e : M A) tr = (Raise e, tr).
Proof. reflexivity. Qed.

Lemma run_send {A : Type} (rq : request) (answer : result A) (tr : list request) :
  run (send rq answer) tr = (answer, tr ++ [rq]).
Proof. reflexivity. Qed.

Lemma run_lift_bind {A B : Type} (r : result A) (f : A → M B) (tr : list request) :
  run (lift r ≫= f) tr =
  match r with Ok a => run (f a) tr | Raise e => (Raise e, tr) end.
Proof. rewrite run_bind, run_lift. reflexivity. Qed.

Lemma bind_Ok {A B : Type} (a : A) (f : A → result B) : Ok a ≫= f = f a.
Proof. reflexivity. Qed.

(** ** Dictionaries *)

Lemma if_truthy_Some {A : Type} `{Truthy A} (o : option A) (a : A) :
  if_truthy o = Some a → o = Some a ∧ truthy a = true.
Proof.
  destruct o as [a'|]; simpl; [|discriminate].
  destruct (truthy a') eqn:E; [|discriminate].
  intros [= ->]. done.
Qed.

Lemma if_truthy_None_string (o : option string) :
  if_truthy o = None ↔ o = None ∨ o = Some "".
Proof.
  destruct o as [[|c s]|]; simpl; split; try done; intros; auto.
  - destruct H as [|]; discriminate.
Qed.

(** A loop that stores every entry of [m] into [d] leaves the entries of
    [m] over those of [d]. *)
Lemma map_fold_insert_union {V W : Type} (f : V → W) (m : gmap string V)
    (d : gmap string W) :
  map_fold (λ k v acc, <[k := f v]> acc) d m = (f <$> m) ∪ d.
Proof.
  induction m as [|k v m Hk Hfold IH] using map_first_key_ind.
  - rewrite map_fold_empty, fmap_empty, (left_id_L ∅ (∪)). done.
  - rewrite map_fold_insert_first_key by done.
    rewrite IH, fmap_insert, insert_union_l. done.
Qed.

(** ** Query shapes *)

Section Query.
Context `{PyLib} `{BaseModel}.
Implicit Types (self : Store.t) (filters : option dict) (tr : list request).

Lemma run_search self index body request_timeout score_adjustment tr :
  run (result ← send (Search index body request_timeout)
                     (search (Store.client self) index body request_timeout);
       mret (map (λ hit, _convert_es_hit_to_document self hit score_adjustment) result)) tr
  = searched self index body request_timeout score_adjustment tr.
Proof.
  rewrite run_bind, run_send. unfold searched.
  destruct (search _ _ _ _); reflexivity.
Qed.

Lemma setitem_match_all (x : value) :
  setitem_path match_all_body ["query"; "bool"] "filter" x =
  Ok {["query" := VDict {["bool" := VDict (
        <["must" := VDict {["match_all" := VDict ∅]}]> {["filter" := x]})]}]}.
Proof. vm_compute. reflexivity. Qed.

Lemma match_all_body_shape filters :
  match if_truthy filters with
  | Some fs =>
      setitem_path match_all_body ["query"; "bool"] "filter"
                   (VList (map terms (map_to_list fs)))
  | None => Ok match_all_body
  end = Ok (match_all_shape filters).
Proof.
  unfold match_all_shape, filter_entry.
  destruct (if_truthy filters) as [fs|].
  - apply setitem_match_all.
  - reflexivity.
Qed.

(** The check in the default shape's loop passes on lists. *)
Lemma for_each_terms_lists (l : list (string * value)) :
  Forall (λ kv, is_list kv.2 = true) l →
  for_each (λ kv : string * value,
              if negb (is_list kv.2) then Raise (wrong_filter_format kv.1)
              else Ok (terms kv)) l
  = Ok (map terms l).
Proof.
  induction 1 as [|kv l Hkv _ IH]; simpl; [done|].
  rewrite Hkv. simpl. rewrite IH. reflexivity.
Qed.

(** It raises on the first value that is no list. *)
Lemma for_each_terms_non_list (l : list (string * value)) :
  Exists (λ kv, is_list kv.2 = false) l →
  ∃ kv, kv ∈ l ∧ is_list kv.2 = false ∧
    for_each (λ kv : string * value,
                if negb (is_list kv.2) then Raise (wrong_filter_format kv.1)
                else Ok (terms kv)) l
    = Raise (wrong_filter_format kv.1).
Proof.
  induction l as [|kv l IH]; intros Hex; [by apply Exists_nil in Hex|].
  destruct (is_list kv.2) eqn:Hkv.
  - apply Exists_cons in Hex as [Hex|Hex]; [congruence|].
    destruct (IH Hex) as (kv' & Hin & Hnl & Heq).
    exists kv'. split; [by right|]. split; [done|].
    simpl. rewrite Hkv. simpl. rewrite Heq. reflexivity.
  - exists kv. split; [by left|]. split; [done|].
    simpl. rewrite Hkv. reflexivity.
Qed.

Lemma well_formed_Forall filters fs :
  well_formed filters → filters = Some fs →
  Forall (λ kv : string * value, is_list kv.2 = true) (map_to_list fs).
Proof.
  intros Hwf ->. apply Forall_forall. intros [k v] Hin.
  apply elem_of_map_to_list in Hin. simpl. by eapply Hwf.
Qed.

Lemma keyword_body_shape self (q : string) filters (top_k : Z) (x : value) :
  setitem_path
    (<["size" := VStr (str (VInt top_k))]> (
     <["query" := VDict {["bool" := VDict {["should" := VList [
         VDict {["multi_match" := VDict (
           <["query" := VStr q]> (
           <["type" := VStr "most_fields"]> (
           <["fields" := VList (VStr <$> Store.search_fields self)]> ∅)))]}
       ]]}]}]> ∅))
    ["query"; "bool"] "filter" x
  = Ok (<["size" := VStr (pretty top_k)]> (
        <["query" := VDict {["bool" := VDict (
            <["should" := VList [VDict {["multi_match" := VDict (
                <["query" := VStr q]> (
                <["type" := VStr "most_fields"]> (
                <["fields" := VList (VStr <$> Store.search_fields self)]> ∅)))]}]]>
            {["filter" := x]})]}]> ∅)).
Proof.
  change (str (VInt top_k)) with (pretty top_k).
  generalize (VStr <$> Store.search_fields self) as fields.
  generalize (pretty top_k) as size. intros size fields.
  vm_compute. reflexivity.
Qed.

Lemma if_truthy_None_dict filters : if_truthy filters = None → default ∅ filters = ∅.
Proof.
  destruct filters as [fs|]; simpl; [|done].
  unfold truthy, truthy_dict. case_bool_decide as Hfs; [done|].
  intros _. destruct (decide (fs = ∅)) as [|Hne]; [done|by destruct Hfs].
Qed.

Lemma substitutions_fold (q : string) filters :
  match if_truthy filters with
  | Some fs =>
      map_fold (λ key values (substitutions : gmap string string),
                  let values_str := json_dumps values in
                  <[key := values_str]> substitutions)
               {["question" := q]} fs
  | None => {["question" := q]}
  end = substitutions q filters.
Proof.
  unfold substitutions.
  destruct (if_truthy filters) as [fs|] eqn:Hfs.
  - apply if_truthy_Some in Hfs as [-> _]. simpl.
    apply (map_fold_insert_union json_dumps).
  - rewrite (if_truthy_None_dict _ Hfs), fmap_empty, (left_id_L ∅ (∪)). done.
Qed.

(** The filters are well formed, or one of their values is no list. *)
Lemma well_formed_dec filters :
  well_formed filters ∨
  ∃ fs key values, filters = Some fs ∧ fs !! key = Some values ∧ is_list values = false.
Proof.
  destruct filters as [fs|]; [|left; intros fs Hfs; discriminate Hfs].
  destruct (decide (Forall (λ kv : string * value, is_list kv.2 = true) (map_to_list fs)))
    as [Hall|Hsome].
  - left. intros fs' Hfs key values Hkey. injection Hfs as <-.
    rewrite Forall_forall in Hall.
    apply (Hall (key, values)). by apply elem_of_map_to_list.
  - right. apply not_Forall_Exists in Hsome; [|apply _].
    apply Exists_exists in Hsome as ([key values] & Hin & Hvalues).
    exists fs, key, values. split; [done|].
    split; [by apply elem_of_map_to_list|].
    simpl in Hvalues. by destruct (is_list values).
Qed.

Lemma query_match_all self filters (top_k : Z) (custom_query index : option string) tr :
  run (query self None filters top_k custom_query index) tr =
  searched self (default (Store.index self) index)
           (exclude_meta_data self (match_all_shape filters)) None 0 tr.
Proof.
  unfold query. rewrite run_lift_bind, match_all_body_shape.
  apply run_search.
Qed.

Lemma query_templated self (q : string) filters (top_k : Z) (template : string)
    (index : option string) tr :
  truthy template = true →
  run (query self (Some q) filters top_k (Some template) index) tr =
  match templated_shape (substitutions q filters) template top_k with
  | Ok body =>
      searched self (default (Store.index self) index)
               (exclude_meta_data self body) None 0 tr
  | Raise e => (Raise e, tr)
  end.
Proof.
  intros Ht. unfold query. rewrite run_lift_bind.
  unfold if_truthy at 1. rewrite Ht.
  rewrite substitutions_fold.
  change (str (VInt top_k)) with (pretty top_k).
  fold (templated_shape (substitutions q filters) template top_k).
  destruct (templated_shape _ _ _); [apply run_search|reflexivity].
Qed.

Lemma query_keyword self (q : string) filters (top_k : Z)
    (custom_query index : option string) tr :
  if_truthy custom_query = None →
  well_formed filters →
  run (query self (Some q) filters top_k custom_query index) tr =
  searched self (default (Store.index self) index)
           (exclude_meta_data self (keyword_shape self q filters top_k)) None 0 tr.
Proof.
  intros Hc Hwf. unfold query. rewrite run_lift_bind, Hc.
  unfold keyword_shape, filter_entry.
  destruct (if_truthy filters) as [fs|] eqn:Hfs.
  - apply if_truthy_Some in Hfs as [Hfs _].
    rewrite (for_each_terms_lists _ (well_formed_Forall _ _ Hwf Hfs)).
    rewrite bind_Ok, keyword_body_shape by exact filters. apply run_search.
  - change (str (VInt top_k)) with (pretty top_k). apply run_search.
Qed.

(** In the default shape a filter value that is no list is rejected
    before anything is sent. *)
Lemma query_keyword_rejects self (q : string) (fs : dict) (top_k : Z)
    (custom_query index : option string) tr :
  if_truthy custom_query = None →
  (∃ key values, fs !! key = Some values ∧ is_list values = false) →
  ∃ key values, fs !! key = Some values ∧ is_list values = false ∧
    run (query self (Some q) (Some fs) top_k custom_query index) tr =
    (Raise (wrong_filter_format key), tr).
Proof.
  intros Hc (key & values & Hkey & Hnl).
  assert (Hne : truthy fs = true).
  { unfold truthy, truthy_dict. apply bool_decide_eq_true.
    intros ->. by rewrite lookup_empty in Hkey. }
  destruct (for_each_terms_non_list (map_to_list fs)) as ([k v] & Hin & Hv & Heq).
  { apply Exists_exists. exists (key, values).
    split; [by apply elem_of_map_to_list|done]. }
  exists k, v. split; [by apply elem_of_map_to_list|]. split; [done|].
  unfold query. rewrite run_lift_bind, Hc. simpl if_truthy. rewrite Hne.
  rewrite Heq. reflexivity.
Qed.
End Query.

(** ** Claims about the query engine *)

(** C8. The query shape is selected in priority order. A call with no
    query text builds the match-all shape with the filters, whatever the
    custom query and [top_k] are; a call with a query text and a custom
    query template (a non-empty string) builds the templated shape, and
    raises without sending anything when the substitution or the parsing
    fails; a call with a query text and no template ([None] or the empty
    string) builds the multi-field keyword-relevance shape whose size is
    [top_k], with the filters, and raises without sending anything when a
    filter value is no list. In each case one search request with that
    body is sent, with the excluded fields the store is configured with. *)
Theorem query_shape_selection `{PyLib} (self : Store.t) :
  (∀ (filters : option dict) (top_k : Z) (custom_query index : option string)
     (tr : list request),
     run (query self None filters top_k custom_query index) tr =
     searched self (default (Store.index self) index)
              (exclude_meta_data self (match_all_shape filters)) None 0 tr) ∧
  (∀ (q : string) (filters : option dict) (top_k : Z) (template : string)
     (index : option string) (tr : list request),
     truthy template = true →
     run (query self (Some q) filters top_k (Some template) index) tr =
     match templated_shape (substitutions q filters) template top_k with
     | Ok body =>
         searched self (default (Store.index self) index)
                  (exclude_meta_data self body) None 0 tr
     | Raise e => (Raise e, tr)
     end) ∧
  (∀ (q : string) (filters : option dict) (top_k : Z) (custom_query index : option string)
     (tr : list request),
     if_truthy custom_query = None →
     (well_formed filters ∧
      run (query self (Some q) filters top_k custom_query index) tr =
      searched self (default (Store.index self) index)
               (exclude_meta_data self (keyword_shape self q filters top_k)) None 0 tr) ∨
     (∃ fs key values,
        filters = Some fs ∧ fs !! key = Some values ∧ is_list values = false ∧
        run (query self (Some q) filters top_k custom_query index) tr =
        (Raise (wrong_filter_format key), tr))).
Proof.
  split; [|split].
  - intros. apply query_match_all.
  - intros. by apply query_templated.
  - intros q filters top_k custom_query index tr Hcustom.
    destruct (well_formed_dec filters) as [Hwf|(fs & key & values & -> & Hkey & Hvalues)].
    + left. split; [exact Hwf|]. by apply query_keyword.
    + right.
      destruct (query_keyword_rejects self q fs top_k custom_query index tr Hcustom)
        as (key' & values' & Hkey' & Hvalues' & Hrun); [by exists key, values|].
      by exists fs, key', values'.
Qed.

Lemma well_formed_year_list : well_formed (Some Example.year_list).
Proof.
  intros fs [= <-] key values Hkey. unfold Example.year_list in Hkey.
  apply lookup_singleton_Some in Hkey as [_ <-]. reflexivity.
Qed.

(** The three shapes on the spec's example: the same filters and template,
    without a text, with a text, and with a text and no template. *)
Lemma query_shape_selection_witness :
  let self := Example.store [] in
  run (query (H := Reference.lib) self None (Some Example.year_list) 10
             (Some Example.template) None) [] =
    (Ok [], [Search "document" (match_all_shape (Some Example.year_list)) None]) ∧
  run (query (H := Reference.lib) self (Some "cats") (Some Example.year_list) 10
             (Some Example.template) None) [] =
    (Ok [], [Search "document" (<["size" := VStr "10"]> Example.cats_2020) None]) ∧
  run (query (H := Reference.lib) self (Some "cats") (Some Example.year_list) 10
             None None) [] =
    (Ok [], [Search "document"
               (keyword_shape self "cats" (Some Example.year_list) 10) None]).
Proof.
  intros self.
  destruct (query_shape_selection (H := Reference.lib) self) as (Hnone & Htemplate & Hdefault).
  split; [|split].
  - rewrite Hnone. reflexivity.
  - rewrite Htemplate by reflexivity. vm_compute. reflexivity.
  - destruct (Hdefault "cats" (Some Example.year_list) 10 None None [] eq_refl)
      as [[_ Hrun]|(fs & key & values & Hfs & Hkey & Hvalues & _)].
    + exact Hrun.
    + rewrite (well_formed_year_list fs Hfs key values Hkey) in Hvalues.
      discriminate Hvalues.
Defined.

(** A call of [query] raises before it sends anything, or sends one search
    request and converts the hits with no score adjustment. *)
Lemma query_cases `{PyLib} (self : Store.t) (q : option string) (filters : option dict)
    (top_k : Z) (custom_query index : option string) (tr : list request) :
  (∃ e, run (query self q filters top_k custom_query index) tr = (Raise e, tr)) ∨
  (∃ body, run (query self q filters top_k custom_query index) tr =
           searched self (default (Store.index self) index) body None 0 tr).
Proof.
  unfold query. rewrite run_lift_bind.
  match goal with |- context [match ?r with Ok _ => _ | Raise _ => _ end] =>
    destruct r as [body|e] end.
  - right. eexists. apply run_search.
  - left. by exists e.
Qed.

(** [query_by_embedding] raises before it sends anything, or sends one
    search request with a request timeout and converts the hits with the
    score adjustment -1. *)
Lemma query_by_embedding_cases (self : Store.t) (query_emb : list float)
    (filters : option dict) (top_k : Z) (index : option string) (tr : list request) :
  (∃ e, run (query_by_embedding self query_emb filters top_k index) tr = (Raise e, tr)) ∨
  (∃ body, run (query_by_embedding self query_emb filters top_k index) tr =
           searched self (default (Store.index self) index) body (Some 300) (-1) tr).
Proof.
  unfold query_by_embedding.
  destruct (if_truthy (Store.embedding_field self)) as [embedding_field|].
  - rewrite run_lift_bind.
    match goal with |- context [match ?r with Ok _ => _ | Raise _ => _ end] =>
      destruct r as [body|e] end.
    + right. eexists. apply run_search.
    + left. by exists e.
  - left. eexists. apply run_raise.
Qed.

Lemma searched_Ok (self : Store.t) (index : string) (body : dict)
    (request_timeout : option Z) (adj : Z) (tr tr' : list request)
    (docs : list Document.t) :
  searched self index body request_timeout adj tr = (Ok docs, tr') →
  tr' = tr ++ [Search index body request_timeout] ∧
  ∃ hits, search (Store.client self) index body request_timeout = Ok hits ∧
          docs = map (λ hit, _convert_es_hit_to_document self hit adj) hits.
Proof.
  unfold searched. intros [= Hdocs <-]. split; [done|].
  destruct (search _ _ _ _) as [hits|]; [|discriminate].
  exists hits. split; [done|]. by injection Hdocs as <-.
Qed.

(** With filters, [query_by_embedding] looks for a [bool] query that its
    body does not have. *)
Lemma query_by_embedding_filters_KeyError (self : Store.t) (query_emb : list float)
    (fs : dict) (top_k : Z) (index : option string) (tr : list request) :
  is_Some (if_truthy (Store.embedding_field self)) →
  fs ≠ ∅ →
  run (query_by_embedding self query_emb (Some fs) top_k index) tr =
  (Raise (KeyError "bool"), tr).
Proof.
  intros [ef Hef] Hfs. unfold query_by_embedding. rewrite Hef.
  rewrite run_lift_bind. simpl if_truthy.
  replace (truthy fs) with true
    by (symmetry; unfold truthy, truthy_dict; by apply bool_decide_eq_true).
  generalize (VList (map terms (map_to_list fs))) as filter_clause.
  generalize (VList (VFloat <$> query_emb)) as query_vector.
  generalize ("cosineSimilarity(params.query_vector,doc['" +:+ ef +:+ "']) + 1.0").
  intros source query_vector filter_clause. vm_compute. reflexivity.
Qed.

(** C1. A filter value that is no list is rejected with the filter format
    error in the keyword-relevance shape only. On [{"year": 2020}] the
    match-all shape and the templated shape send their search request with
    the value as it is, and [query_by_embedding] raises the [KeyError] it
    raises on any filters. *)
Lemma non_list_filter_evaluation :
  let self := Example.store [] in
  let filters := Some Example.year_scalar in
  run (query (H := Reference.lib) self None filters 10 None None) [] =
    (Ok [], [Search "document" (match_all_shape filters) None]) ∧
  run (query (H := Reference.lib) self (Some "cats") filters 10
             (Some Example.template) None) [] =
    (Ok [], [Search "document"
               (<["size" := VStr "10"]> (Example.cats_year (VInt 2020))) None]) ∧
  run (query (H := Reference.lib) self (Some "cats") filters 10 None None) [] =
    (Raise (wrong_filter_format "year"), []) ∧
  run (query_by_embedding self Example.query_emb filters 10 None) [] =
    (Raise (KeyError "bool"), []).
Proof.
  intros self filters. split; [|split; [|split]].
  - rewrite query_match_all. reflexivity.
  - rewrite query_templated by reflexivity. vm_compute. reflexivity.
  - vm_compute. reflexivity.
  - apply query_by_embedding_filters_KeyError; [by eexists|].
    intros Hempty. discriminate (f_equal (.!! "year") Hempty).
Qed.

(** C5. With the well-formed filters [{"year": [2020]}], for which the
    keyword-relevance shape sends its request with one [terms] clause,
    [query_by_embedding] raises [KeyError] and sends nothing. *)
Lemma query_by_embedding_filters_evaluation :
  let self := Example.store [Example.same_vector_hit] in
  let filters := Some Example.year_list in
  run (query_by_embedding self Example.query_emb filters 10 None) [] =
    (Raise (KeyError "bool"), []) ∧
  snd (run (query (H := Reference.lib) self (Some "cats") filters 10 None None) []) =
    [Search "document" (keyword_shape self "cats" filters 10) None] ∧
  filter_entry filters =
    {["filter" := VList [VDict {["terms" := VDict {["year" := VList [VInt 2020]]}]}]]}.
Proof.
  intros self filters. split; [|split].
  - apply query_by_embedding_filters_KeyError; [by eexists|].
    intros Hempty. discriminate (f_equal (.!! "year") Hempty).
  - rewrite query_keyword; [reflexivity..|exact well_formed_year_list].
  - reflexivity.
Qed.

(** A call of [query_by_embedding] that returns has sent one search whose
    script is the similarity script on the embedding field, and has
    converted the hits with the adjustment -1. *)
Lemma query_by_embedding_Ok (self : Store.t) (query_emb : list float)
    (filters : option dict) (top_k : Z) (index : option string)
    (tr tr' : list request) (docs : list Document.t) :
  run (query_by_embedding self query_emb filters top_k index) tr = (Ok docs, tr') →
  ∃ embedding_field body hits,
    if_truthy (Store.embedding_field self) = Some embedding_field ∧
    script_source body = Some (VStr (similarity_script embedding_field)) ∧
    tr' = tr ++ [Search (default (Store.index self) index) body (Some 300)] ∧
    search (Store.client self) (default (Store.index self) index) body (Some 300)
      = Ok hits ∧
    docs = map (λ hit, _convert_es_hit_to_document self hit (-1)) hits.
Proof.
  intros Hrun.
  destruct (if_truthy (Store.embedding_field self)) as [ef|] eqn:Hef.
  2: { unfold query_by_embedding in Hrun. rewrite Hef, run_raise in Hrun.
       discriminate Hrun. }
  assert (Hsource : ∀ body0 : dict,
            body0 = similarity_shape ef query_emb top_k →
            script_source (exclude_meta_data self body0) =
            Some (VStr (similarity_script ef))).
  { intros body0 ->. unfold exclude_meta_data.
    destruct (if_truthy (Store.excluded_meta_data self)) as [excluded|].
    - unfold script_source. rewrite lookup_insert_ne by done.
      unfold similarity_shape, similarity_script.
      generalize ("cosineSimilarity(params.query_vector,doc['" +:+ ef +:+ "']) + 1.0").
      generalize (VList (VFloat <$> query_emb)). intros. vm_compute. reflexivity.
    - unfold script_source, similarity_shape, similarity_script.
      generalize ("cosineSimilarity(params.query_vector,doc['" +:+ ef +:+ "']) + 1.0").
      generalize (VList (VFloat <$> query_emb)). intros. vm_compute. reflexivity. }
  assert (Hfalsy : if_truthy filters = None →
            ∃ hits,
              tr' = tr ++ [Search (default (Store.index self) index)
                             (exclude_meta_data self (similarity_shape ef query_emb top_k))
                             (Some 300)] ∧
              search (Store.client self) (default (Store.index self) index)
                (exclude_meta_data self (similarity_shape ef query_emb top_k)) (Some 300)
                = Ok hits ∧
              docs = map (λ hit, _convert_es_hit_to_document self hit (-1)) hits).
  { intros Hfs. unfold query_by_embedding in Hrun.
    rewrite Hef, run_lift_bind, Hfs in Hrun.
    fold (similarity_shape ef query_emb top_k) in Hrun.
    rewrite run_search in Hrun.
    apply searched_Ok in Hrun as (-> & hits & Hs & ->). by exists hits. }
  destruct (if_truthy filters) as [fs|] eqn:Hfs.
  - apply if_truthy_Some in Hfs as [-> Hfs].
    rewrite query_by_embedding_filters_KeyError in Hrun; [discriminate Hrun|by eexists|].
    by apply bool_decide_eq_true in Hfs.
  - destruct (Hfalsy eq_refl) as (hits & Htr & Hsearch & Hdocs).
    exists ef, (exclude_meta_data self (similarity_shape ef query_emb top_k)), hits.
    split; [done|]. split; [by apply Hsource|]. done.
Qed.




(** ** The write pipeline *)

Section Write.
Context `{PyLib} `{BaseModel}.

Lemma header_lookup_id (index : string) (doc : Document.t) :
  (Document.to_dict doc ∪
   (<["_op_type" := VStr "create"]> (<["_index" := VStr index]> ∅) : dict)) !! "id"
  = Some (VStr (Document.id doc)).
Proof. apply lookup_union_Some_l. unfold Document.to_dict. by simplify_map_eq. Qed.

Lemma top_level_meta (index : string) (doc : Document.t) :
  top_level index doc !! "meta" = VDict <$> Document.meta doc.
Proof.
  unfold top_level. rewrite map_lookup_filter.
  rewrite lookup_delete_ne, lookup_insert_ne, lookup_delete_ne by done.
  rewrite lookup_union, lookup_insert_ne, lookup_insert_ne, lookup_empty by done.
  unfold Document.to_dict. simplify_map_eq.
  destruct (Document.meta doc); reflexivity.
Qed.

(** The record of a document: the entries of its meta mapping over the
    top-level attributes, without the [meta] container. *)
Lemma _doc_eq (index : string) (doc : Document.t) :
  _doc index doc =
  Ok (match Document.meta doc with
      | Some meta => delete "meta" (meta ∪ top_level index doc)
      | None => top_level index doc
      end).
Proof.
  unfold _doc, pop. rewrite header_lookup_id. rewrite bind_Ok.
  cbv beta iota. change (str (VStr (Document.id doc))) with (Document.id doc).
  fold (top_level index doc). rewrite top_level_meta.
  destruct (Document.meta doc) as [meta|]; simpl; [|reflexivity].
  by rewrite (map_fold_insert_union (λ v, v)), map_fmap_id.
Qed.

Lemma top_level_not_None (index : string) (doc : Document.t) (k : string) :
  top_level index doc !! k ≠ Some VNone.
Proof.
  unfold top_level. intros Hk.
  apply map_lookup_filter_Some in Hk as [_ Hk]. done.
Qed.

Lemma top_level_op_type (index : string) (doc : Document.t) :
  top_level index doc !! "_op_type" = Some (VStr "create").
Proof.
  unfold top_level. apply map_lookup_filter_Some. split; [|done].
  rewrite lookup_delete_ne, lookup_insert_ne, lookup_delete_ne by done.
  rewrite lookup_union_r; [by simplify_map_eq|].
  unfold Document.to_dict. by simplify_map_eq.
Qed.

Lemma top_level_id (index : string) (doc : Document.t) :
  top_level index doc !! "id" = None ∧
  top_level index doc !! "_id" = Some (VStr (Document.id doc)) ∧
  top_level index doc !! "query_score" = None.
Proof.
  unfold top_level. split; [|split].
  - apply map_lookup_filter_None. left. by simplify_map_eq.
  - apply map_lookup_filter_Some. split; [|done]. by simplify_map_eq.
  - apply map_lookup_filter_None. left. by simplify_map_eq.
Qed.

(** Unnesting a meta mapping that takes none of the record's keys and
    holds no absent value keeps what holds of the top level. *)
Lemma unnest_spec (doc : Document.t) (base : dict) :
  base !! "_op_type" = Some (VStr "create") →
  base !! "id" = None →
  base !! "_id" = Some (VStr (Document.id doc)) →
  base !! "query_score" = None →
  base !! "meta" = VDict <$> Document.meta doc →
  (∀ k, base !! k ≠ Some VNone) →
  plain_meta doc →
  write_record_spec doc
    (match Document.meta doc with
     | Some meta => delete "meta" (meta ∪ base)
     | None => base
     end).
Proof.
  intros Hop Hid H_id Hscore Hmeta Hnn Hplain. unfold write_record_spec.
  destruct (Document.meta doc) as [meta|] eqn:Hdoc.
  - destruct (Hplain meta Hdoc) as [Hkeys Hvalues].
    assert (Hfresh : ∀ k, k ∈ record_keys → k ≠ "meta" →
              (delete "meta" (meta ∪ base)) !! k = base !! k).
    { intros k Hk Hne. rewrite lookup_delete_ne by (apply not_eq_sym; exact Hne).
      apply lookup_union_r, Hkeys, Hk. }
    rewrite (Hfresh "_op_type"), (Hfresh "id"), (Hfresh "_id"),
      (Hfresh "query_score")
      by (discriminate || (apply list_elem_of_In; simpl; tauto)).
    split; [exact Hop|]. split; [split; [exact Hid|exact H_id]|].
    split; [exact Hscore|]. split; [|split].
    + intros k Hin. destruct (decide (k = "meta")) as [->|Hk].
      * rewrite lookup_delete_eq. discriminate.
      * rewrite lookup_delete_ne by (apply not_eq_sym; exact Hk). intros Hnone.
        apply lookup_union_Some_raw in Hnone as [Hnone|[_ Hnone]].
        -- exact (Hvalues k Hin Hnone).
        -- exact (Hnn k Hnone).
    + intros meta' k v Heq Hk. injection Heq as <-.
      assert (Hne : k ≠ "meta").
      { intros ->. rewrite Hkeys in Hk; [discriminate|].
        apply list_elem_of_In; simpl; tauto. }
      rewrite lookup_delete_ne by (apply not_eq_sym; exact Hne).
      apply lookup_union_Some_l, Hk.
    + apply lookup_delete_eq.
  - split; [exact Hop|]. split; [split; [exact Hid|exact H_id]|].
    split; [exact Hscore|]. split; [intros k _; apply Hnn|]. split; [|exact Hmeta].
    intros meta k v Heq. discriminate.
Qed.

(** The record of a document whose meta mapping can be unnested as it is
    is what the spec says. *)
Lemma _doc_spec (index : string) (doc : Document.t) :
  plain_meta doc →
  ∃ record, _doc index doc = Ok record ∧ write_record_spec doc record.
Proof.
  intros Hplain. eexists. split; [apply _doc_eq|].
  destruct (top_level_id index doc) as (Hid & H_id & Hscore).
  apply unnest_spec; [apply top_level_op_type|exact Hid|exact H_id|exact Hscore|
                      apply top_level_meta|apply top_level_not_None|exact Hplain].
Qed.

Lemma for_each_typed {A : Type} (from_dict : dict → result A) (l : list A) :
  for_each (λ d : dict + A, match d with inl d => from_dict d | inr d => Ok d end)
           (inr <$> l) = Ok l.
Proof.
  induction l as [|x l IH]; [done|].
  rewrite fmap_cons. cbn [for_each]. rewrite IH. reflexivity.
Qed.

End Write.

(** The requests of [write_documents]. *)
Lemma run_create_document_index (self : Store.t) (index_name : string)
    (tr : list request) :
  run (_create_document_index self index_name) tr =
  (indices_create (Store.client self) index_name 400 (index_mapping self),
   tr ++ [IndicesCreate index_name 400 (index_mapping self)]).
Proof. reflexivity. Qed.

Section WriteTrace.
Context `{PyLib} `{BaseModel}.

Lemma for_each_record_of (index : string) (documents : list Document.t) :
  for_each (_doc index) documents = Ok (map (record_of index) documents).
Proof.
  induction documents as [|doc documents IH]; [reflexivity|].
  cbn [for_each map]. rewrite _doc_eq, IH. reflexivity.
Qed.

Lemma run_bulk_documents (self : Store.t) (documents : list Document.t)
    (index : option string) (tr : list request) :
  let records := map (record_of (default (Store.index self) index)) documents in
  run (documents_objects ← lift (for_each
         (λ d, match d with inl d => Document_from_dict d | inr d => Ok d end)
         (inr <$> documents));
       documents_to_index ← lift (for_each (_doc (default (Store.index self) index))
                                           documents_objects);
       send (Bulk documents_to_index (Some 300) (Some "wait_for"))
            (bulk (Store.client self) documents_to_index (Some 300) (Some "wait_for"))) tr =
  (bulk (Store.client self) records (Some 300) (Some "wait_for"),
   tr ++ [Bulk records (Some 300) (Some "wait_for")]).
Proof.
  intros records.
  rewrite run_lift_bind, for_each_typed, run_lift_bind, for_each_record_of.
  apply run_send.
Qed.

Lemma record_of_index (index : string) (doc : Document.t) :
  (∀ meta, Document.meta doc = Some meta → meta !! "_index" = None) →
  record_of index doc !! "_index" = Some (VStr index).
Proof.
  intros Hmeta.
  assert (Htop : top_level index doc !! "_index" = Some (VStr index)).
  { unfold top_level. apply map_lookup_filter_Some. split; [|done].
    rewrite lookup_delete_ne, lookup_insert_ne, lookup_delete_ne by done.
    rewrite lookup_union_r by (unfold Document.to_dict; by simplify_map_eq).
    by simplify_map_eq. }
  unfold record_of. destruct (Document.meta doc) as [meta|] eqn:Hdoc; [|done].
  rewrite lookup_delete_ne by done.
  rewrite lookup_union_r by (by apply Hmeta). done.
Qed.
End WriteTrace.

Lemma run_write_documents `{PyLib} `{BaseModel} (self : Store.t)
    (documents : list Document.t) (index : option string) (tr : list request) :
  let index' := default (Store.index self) index in
  let records := map (record_of index') documents in
  let bulk_request := Bulk records (Some 300) (Some "wait_for") in
  let answer := bulk (Store.client self) records (Some 300) (Some "wait_for") in
  run (write_documents self (inr <$> documents) index) tr =
    match if_truthy index with
    | None => (answer, tr ++ [bulk_request])
    | Some index =>
        match indices_exists (Store.client self) index with
        | Ok true => (answer, tr ++ [IndicesExists index; bulk_request])
        | Ok false =>
            match indices_create (Store.client self) index 400 (index_mapping self) with
            | Ok _ =>
                (answer, tr ++ [IndicesExists index;
                                IndicesCreate index 400 (index_mapping self);
                                bulk_request])
            | Raise e =>
                (Raise e, tr ++ [IndicesExists index;
                                 IndicesCreate index 400 (index_mapping self)])
            end
        | Raise e => (Raise e, tr ++ [IndicesExists index])
        end
    end.
Proof.
  intros index' records bulk_request answer.
  unfold write_documents. rewrite run_bind.
  destruct (if_truthy index) as [name|] eqn:Hname.
  - rewrite run_bind, run_send.
    destruct (indices_exists (Store.client self) name) as [[]|e];
      simpl negb; cbv iota.
    + rewrite run_ret, run_bulk_documents. by rewrite <- (assoc_L (++)).
    + rewrite run_create_document_index.
      destruct (indices_create _ _ _ _) as [[]|e].
      * rewrite run_bulk_documents. by rewrite <- !(assoc_L (++)).
      * by rewrite <- !(assoc_L (++)).
    + reflexivity.
  - rewrite run_ret. apply run_bulk_documents.
Qed.


Lemma plain_meta_cats_doc : plain_meta Example.cats_doc.
Proof.
  intros meta [= <-]. split.
  - intros k Hk. apply list_elem_of_In in Hk. simpl in Hk.
    destruct Hk as [<-|[<-|[<-|[<-|[<-|[]]]]]]; reflexivity.
  - intros k _ Hk. apply lookup_insert_Some in Hk as [[_ Hk]|[_ Hk]]; [done|].
    apply lookup_singleton_Some in Hk as [_ Hk]. done.
Qed.

Lemma plain_meta_anonymous_doc : plain_meta Example.anonymous_doc.
Proof.
  intros meta [= <-]. split.
  - intros k Hk. apply list_elem_of_In in Hk. simpl in Hk.
    destruct Hk as [<-|[<-|[<-|[<-|[<-|[]]]]]]; reflexivity.
  - intros k Hk. apply list_elem_of_In in Hk. simpl in Hk.
    destruct Hk as [<-|[<-|[<-|[<-|[<-|[<-|[<-|[]]]]]]]]; discriminate.
Qed.



(** ** The custom query template *)

Lemma append_assoc (a b c : string) : (a +:+ b) +:+ c = a +:+ (b +:+ c).
Proof.
  induction a as [|x a IH]; [reflexivity|]. exact (f_equal (String x) IH).
Qed.

(** Plain text passes through the substitution. *)
Lemma substitute_from_plain (mapping : gmap string string) (text rest : string) :
  is_plain text = true →
  substitute_from mapping InText (text +:+ rest) =
  r ← substitute_from mapping InText rest; Ok (text +:+ r).
Proof.
  induction text as [|c text IH]; intros Hplain.
  - change ("" +:+ rest) with rest.
    destruct (substitute_from mapping InText rest); reflexivity.
  - simpl in Hplain. apply andb_true_iff in Hplain as [Hc Hplain].
    apply negb_true_iff in Hc.
    change (String c text +:+ rest) with (String c (text +:+ rest)).
    cbn [substitute_from]. rewrite Hc, (IH Hplain).
    destruct (substitute_from mapping InText rest); reflexivity.
Qed.

(** Inside [${], the rest of a name and the closing brace select the
    placeholder of the whole name. *)
Lemma substitute_from_braced (mapping : gmap string string) (name braced rest : string) :
  all_id_chars name = true →
  (if truthy braced then True else is_identifier name = true) →
  substitute_from mapping (InBraced braced) (name +:+ "}" +:+ rest) =
  v ← placeholder mapping (braced +:+ name);
  r ← substitute_from mapping InText rest;
  Ok (v +:+ r).
Proof.
  revert braced. induction name as [|c name IH]; intros braced Hchars Hstart.
  - destruct braced as [|b braced]; [discriminate Hstart|].
    replace (String b braced +:+ "") with (String b braced)
      by (clear; generalize (String b braced) as a; intros a;
          induction a as [|x a IHa]; [done|]; exact (f_equal (String x) IHa)).
    reflexivity.
  - simpl in Hchars. apply andb_true_iff in Hchars as [Hc Hchars].
    change (String c name +:+ "}" +:+ rest) with (String c (name +:+ "}" +:+ rest)).
    cbn [substitute_from].
    replace (if truthy braced then is_id_char c else is_id_start c) with true.
    + rewrite (IH (braced +:+ String c "") Hchars).
      * by rewrite append_assoc.
      * replace (truthy (braced +:+ String c "")) with true; [done|].
        by destruct braced.
    + destruct (truthy braced); [done|].
      simpl in Hstart. by apply andb_true_iff in Hstart as [-> _].
Qed.

(** [${name}] after plain text is replaced by the mapping's value for
    [name], and the substitution goes on after the closing brace. *)
Lemma Template_substitute_braced (mapping : gmap string string)
    (text name rest : string) :
  is_plain text = true →
  is_identifier name = true →
  Template_substitute (text +:+ "${" +:+ name +:+ "}" +:+ rest) mapping =
  v ← placeholder mapping name;
  r ← Template_substitute rest mapping;
  Ok (text +:+ v +:+ r).
Proof.
  intros Hplain Hname. unfold Template_substitute.
  rewrite substitute_from_plain by exact Hplain.
  change ("${" +:+ name +:+ "}" +:+ rest)
    with (String "$" (String "{" (name +:+ "}" +:+ rest))).
  cbn [substitute_from]. change (is_delimiter "$") with true.
  change (is_delimiter "{") with false. change (is_id_start "{") with false.
  change (is_open_brace "{") with true. cbv iota.
  rewrite substitute_from_braced.
  - change ("" +:+ name) with name.
    destruct (placeholder mapping name) as [v|]; [|reflexivity].
    rewrite !bind_Ok.
    destruct (substitute_from mapping InText rest) as [r|]; reflexivity.
  - destruct name as [|c name]; [discriminate Hname|].
    simpl in Hname. apply andb_true_iff in Hname as [Hc Hname].
    simpl. rewrite Hname. unfold is_id_char. by rewrite Hc.
  - exact Hname.
Qed.

Section Template.
Context `{PyLib}.

(** The mapping of the code is the mapping of the spec when no filter is
    named like the text placeholder. *)
Lemma substitutions_placeholders (q : string) (filters : option dict) :
  default ∅ filters !! "question" = None →
  substitutions q filters = placeholders q filters.
Proof.
  intros Hq. unfold substitutions, placeholders.
  symmetry. apply insert_union_singleton_r. by rewrite lookup_fmap, Hq.
Qed.

Lemma placeholders_lookup (q : string) (filters : option dict) :
  placeholders q filters !! "question" = Some q ∧
  ∀ key values, key ≠ "question" → default ∅ filters !! key = Some values →
                placeholders q filters !! key = Some (json_dumps values).
Proof.
  unfold placeholders. split; [apply lookup_insert_eq|].
  intros key values Hkey Hvalues.
  rewrite lookup_insert_ne by (apply not_eq_sym; exact Hkey).
  by rewrite lookup_fmap, Hvalues.
Qed.

(** A templated body is the parsed text with the size set. *)
Lemma templated_shape_Ok (mapping : gmap string string) (template : string)
    (top_k : Z) (body : dict) :
  templated_shape mapping template top_k = Ok body →
  ∃ custom_query_json parsed,
    Template_substitute template mapping = Ok custom_query_json ∧
    json_loads custom_query_json = Ok (VDict parsed) ∧
    body = <["size" := VStr (pretty top_k)]> parsed.
Proof.
  unfold templated_shape, setitem, as_dict.
  destruct (Template_substitute template mapping) as [text|] eqn:Htext;
    [|discriminate].
  rewrite bind_Ok.
  destruct (json_loads text) as [[| | | | | |parsed]|] eqn:Hparsed;
    simpl; try discriminate.
  intros Hbody. injection Hbody as <-. by exists text, parsed.
Qed.
End Template.

(** C4, as the code has it. For every [query] call with a query text and a
    custom query template (a non-empty string) in which no filter is named
    [question], the template's [question] placeholder stands for the raw
    query string and each filter key's placeholder for the JSON encoding of
    the key's value; the template with the placeholders replaced is parsed,
    its size is set to the decimal string of [top_k], and it is sent as the
    body of one search request, with the excluded fields the store is
    configured with. When the substitution or the parsing fails, or the
    parsed text is no JSON object, the call raises and sends nothing. The
    substitution keeps the text before a placeholder, puts the mapping's
    value in the place of [${name}], and goes on after it. *)
Theorem query_custom_template `{PyLib} (self : Store.t) (q : string)
    (filters : option dict) (top_k : Z) (template : string) (index : option string)
    (tr : list request) :
  truthy template = true →
  default ∅ filters !! "question" = None →
  (placeholders q filters !! "question" = Some q ∧
   ∀ key values, default ∅ filters !! key = Some values →
                 placeholders q filters !! key = Some (json_dumps values)) ∧
  run (query self (Some q) filters top_k (Some template) index) tr =
    match templated_shape (placeholders q filters) template top_k with
    | Ok body =>
        searched self (default (Store.index self) index)
                 (exclude_meta_data self body) None 0 tr
    | Raise e => (Raise e, tr)
    end ∧
  (∀ body, templated_shape (placeholders q filters) template top_k = Ok body →
     ∃ custom_query_json parsed,
       Template_substitute template (placeholders q filters) = Ok custom_query_json ∧
       json_loads custom_query_json = Ok (VDict parsed) ∧
       body = <["size" := VStr (pretty top_k)]> parsed) ∧
  (∀ text name rest,
     is_plain text = true → is_identifier name = true →
     Template_substitute (text +:+ "${" +:+ name +:+ "}" +:+ rest)
                         (placeholders q filters) =
     v ← placeholder (placeholders q filters) name;
     r ← Template_substitute rest (placeholders q filters);
     Ok (text +:+ v +:+ r)).
Proof.
  intros Htemplate Hquestion. split; [|split; [|split]];
    [| | |intros text name rest; apply Template_substitute_braced].
  - destruct (placeholders_lookup q filters) as [Hq Hkeys]. split; [exact Hq|].
    intros key values Hkey. apply Hkeys; [|exact Hkey].
    intros ->. rewrite Hquestion in Hkey. discriminate.
  - rewrite <- substitutions_placeholders by exact Hquestion.
    by apply query_templated.
  - intros body. apply templated_shape_Ok.
Qed.

(** The spec's example: [cats] for [${question}], [[2020]] for [${year}],
    and the size 10. *)
Lemma query_custom_template_witness :
  run (query (H := Reference.lib) (Example.store []) (Some "cats")
             (Some Example.year_list) 10 (Some Example.template) None) [] =
  (Ok [], [Search "document" (<["size" := VStr "10"]> Example.cats_2020) None]).
Proof.
  destruct (query_custom_template (H := Reference.lib) (Example.store []) "cats"
              (Some Example.year_list) 10 Example.template None [])
    as (_ & Hrun & _ & _); [reflexivity..|].
  rewrite Hrun. vm_compute. reflexivity.
Defined.

(** C4, as the claim states it, fails when a filter is named [question]:
    the filter's JSON encoding, not the raw query string, replaces the text
    placeholder. *)
Lemma query_custom_template_counterexample :
  let self := Example.store [] in
  let filters := Some Example.question_filter in
  let sent :=
    run (query (H := Reference.lib) self (Some "cats") filters 10
               (Some Example.match_template) None) [] in
  let claimed :=
    match templated_shape (H := Reference.lib) (placeholders (H := Reference.lib) "cats" filters)
                          Example.match_template 10 with
    | Ok body => searched self "document" (exclude_meta_data self body) None 0 []
    | Raise e => (Raise e, [])
    end in
  sent = (Ok [], [Search "document"
                    (<["size" := VStr "10"]> (Example.match_text "[2020]")) None]) ∧
  claimed = (Ok [], [Search "document"
                       (<["size" := VStr "10"]> (Example.match_text "cats")) None]) ∧
  sent ≠ claimed.
Proof.
  intros self filters sent claimed.
  assert (Hsent : sent = (Ok [], [Search "document"
            (<["size" := VStr "10"]> (Example.match_text "[2020]")) None])).
  { subst sent. rewrite query_templated by reflexivity. vm_compute. reflexivity. }
  assert (Hclaimed : claimed = (Ok [], [Search "document"
            (<["size" := VStr "10"]> (Example.match_text "cats")) None])).
  { subst claimed. vm_compute. reflexivity. }
  split; [exact Hsent|]. split; [exact Hclaimed|].
  rewrite Hsent, Hclaimed. intros Heq.
  apply (f_equal (λ p : result (list Document.t) * list request,
           Example.sent_text p.2)) in Heq.
  vm_compute in Heq. discriminate Heq.
Qed.

(** ** Converting hits *)

(** C9, as the code has it. For every engine hit the converted Document's
    meta always has the key [name], holding the value stored under the name
    field, or [None] when the hit stores none (or the name field is one of
    the reserved fields); under every other key it has exactly the hit's
    top-level stored fields other than the text field, the FAQ question
    field, the embedding field, [tags] and the name field. The identity is
    the hit's, and text, question, tags and embedding are the values stored
    under their configured fields, [None] when absent. *)
Theorem convert_hit_meta (self : Store.t) (hit : hit) (score_adjustment : Z) :
  let doc := _convert_es_hit_to_document self hit score_adjustment in
  (∃ meta, Document.meta doc = Some meta ∧
     meta !! "name" = Some (default VNone (stored_name self (_source hit))) ∧
     ∀ k, k ≠ "name" →
       meta !! k =
       if decide (Some k ∈ reserved_fields self ∨ k = Store.name_field self)
       then None else _source hit !! k) ∧
  Document.id doc = _id hit ∧
  Document.text doc = default VNone (_source hit !! Store.text_field self) ∧
  Document.question doc =
    default VNone (Store.faq_question_field self ≫= λ field, _source hit !! field) ∧
  Document.tags doc = default VNone (_source hit !! "tags") ∧
  Document.embedding doc =
    default VNone (Store.embedding_field self ≫= λ field, _source hit !! field).
Proof.
  intros doc. subst doc. unfold _convert_es_hit_to_document, pop_default.
  fold (reserved_fields self). cbv zeta. simpl.
  split;
    [|unfold get, get_opt;
      destruct (Store.faq_question_field self), (Store.embedding_field self);
      repeat split].
  - eexists. split; [reflexivity|]. split.
    + rewrite lookup_insert_eq. f_equal. unfold stored_name.
      rewrite map_lookup_filter. simpl.
      destruct (decide (Some (Store.name_field self) ∈ reserved_fields self)) as [Hin|Hout].
      * destruct (_source hit !! Store.name_field self); simpl; [|done].
        by rewrite option_guard_False by (intros Hn; by apply Hn).
      * destruct (_source hit !! Store.name_field self); simpl; [|done].
        by rewrite option_guard_True.
    + intros k Hk. rewrite lookup_insert_ne by (apply not_eq_sym; exact Hk).
      rewrite lookup_delete, map_lookup_filter. simpl.
      destruct (decide (Store.name_field self = k)) as [<-|Hname].
      * rewrite decide_True by (by right). done.
      * destruct (decide (Some k ∈ reserved_fields self)) as [Hin|Hout].
        -- rewrite decide_True by (by left).
           destruct (_source hit !! k); simpl; [|done].
           by rewrite option_guard_False by (intros Hn; by apply Hn).
        -- rewrite decide_False by (intros [?|?]; [by apply Hout|by apply Hname]).
           destruct (_source hit !! k); simpl; [|done].
           by rewrite option_guard_True.
Qed.

(** C9, as the claim states it, fails on a hit that stores no name: the
    meta mapping is not empty, it has a [name] entry without a value. *)
Lemma convert_hit_meta_counterexample :
  let self := Example.store [] in
  let doc := _convert_es_hit_to_document self Example.unnamed_hit 0 in
  Document.meta doc = Some {["name" := VNone]} ∧
  meta_spec self (_source Example.unnamed_hit) = ∅ ∧
  Document.meta doc ≠ Some (meta_spec self (_source Example.unnamed_hit)).
Proof.
  intros self doc.
  assert (Hmeta : Document.meta doc = Some {["name" := VNone]})
    by (vm_compute; reflexivity).
  assert (Hspec : meta_spec self (_source Example.unnamed_hit) = ∅)
    by (vm_compute; reflexivity).
  split; [exact Hmeta|]. split; [exact Hspec|].
  rewrite Hmeta, Hspec. intros Heq.
  discriminate (f_equal (λ meta : option dict, meta ≫= (.!! "name")) Heq).
Qed.

(** ** Refreshing the embeddings *)

Section Embeddings.
Context `{PyLib}.

Lemma run_get_all_documents (self : Store.t) (index : string) (tr : list request) :
  run (get_all_documents self (Some index) None) tr =
  (map (λ hit, _convert_es_hit_to_document self hit 0) <$>
     scan (Store.client self) index match_all_body,
   tr ++ [Scan index match_all_body]).
Proof.
  unfold get_all_documents. cbv zeta. rewrite run_bind.
  unfold get_all_documents_in_index. cbv zeta. rewrite run_lift_bind.
  cbn [if_truthy default]. rewrite run_send.
  destruct (scan _ _ _); reflexivity.
Qed.

(** A run of [update_embeddings] in which the scan and the embedding
    provider answer, with one vector per document. *)
Lemma update_embeddings_run (self : Store.t) (retriever : Retriever)
    (index : option string) (tr : list request) (embedding_field : string)
    (hits : list hit) (emb0 : list float) (embeddings : list (list float)) :
  let index' := default (Store.index self) index in
  let docs := map (λ hit, _convert_es_hit_to_document self hit 0) hits in
  if_truthy (Store.embedding_field self) = Some embedding_field →
  scan (Store.client self) index' match_all_body = Ok hits →
  embed_passages retriever (map Document.text docs) = Ok (emb0 :: embeddings) →
  length hits = length (emb0 :: embeddings) →
  run (update_embeddings self retriever index) tr =
  if Z.of_nat (length emb0) =? Store.embedding_dim self then
    let doc_updates :=
      zip_with (embedding_update index' embedding_field) docs (emb0 :: embeddings) in
    (bulk (Store.client self) doc_updates (Some 300) None,
     tr ++ [Scan index' match_all_body] ++ [Bulk doc_updates (Some 300) None])
  else
    (Raise (embedding_dim_mismatch (Z.of_nat (length emb0)) (Store.embedding_dim self)),
     tr ++ [Scan index' match_all_body]).
Proof.
  intros index' docs Hfield Hscan Hembed Hlen.
  unfold update_embeddings. fold index'. rewrite Hfield.
  rewrite run_bind, run_get_all_documents, Hscan. simpl fmap. cbv beta iota.
  fold docs. rewrite run_lift_bind, Hembed.
  replace (length docs =? length (emb0 :: embeddings))%nat with true
    by (symmetry; apply Nat.eqb_eq; subst docs; by rewrite length_map).
  cbv beta iota. simpl negb at 1. cbv iota.
  destruct (Z.of_nat (length emb0) =? Store.embedding_dim self); simpl negb; cbv iota.
  - rewrite run_send. cbv zeta. by rewrite <- (assoc_L (++)).
  - apply run_raise.
Qed.

Lemma embedding_dim_mismatch_names (model_dim documentstore_dim : Z) :
  ∃ msg, embedding_dim_mismatch model_dim documentstore_dim = RuntimeError msg ∧
         names msg model_dim ∧ names msg documentstore_dim.
Proof.
  eexists. split; [reflexivity|]. split.
  - eexists _, _. reflexivity.
  - exists ("Embedding dim. of model (" +:+ pretty model_dim +:+ ")" +:+
            " doesn't match embedding dim. in documentstore (").
    eexists. rewrite !append_assoc. reflexivity.
Qed.
End Embeddings.

(** C7. When the embedding provider returns one vector per document and
    the first vector's length is not the configured embedding dimension,
    [update_embeddings] raises a [RuntimeError] whose message names the
    provider's dimension and the configured one, and the only request it
    has sent is the scan of the index: no bulk update is submitted. *)
Theorem update_embeddings_dimension_mismatch `{PyLib} (self : Store.t)
    (retriever : Retriever) (index : option string) (tr : list request)
    (hits : list hit) (emb0 : list float) (embeddings : list (list float)) :
  let index' := default (Store.index self) index in
  let docs := map (λ hit, _convert_es_hit_to_document self hit 0) hits in
  is_Some (if_truthy (Store.embedding_field self)) →
  scan (Store.client self) index' match_all_body = Ok hits →
  embed_passages retriever (map Document.text docs) = Ok (emb0 :: embeddings) →
  length hits = length (emb0 :: embeddings) →
  Z.of_nat (length emb0) ≠ Store.embedding_dim self →
  ∃ msg,
    run (update_embeddings self retriever index) tr =
      (Raise (RuntimeError msg), tr ++ [Scan index' match_all_body]) ∧
    names msg (Z.of_nat (length emb0)) ∧
    names msg (Store.embedding_dim self).
Proof.
  intros index' docs [embedding_field Hfield] Hscan Hembed Hlen Hdim.
  destruct (embedding_dim_mismatch_names (Z.of_nat (length emb0))
              (Store.embedding_dim self)) as (msg & Hmsg & Hmodel & Hstore).
  exists msg. split; [|by split].
  rewrite (update_embeddings_run self retriever index tr embedding_field hits
             emb0 embeddings Hfield Hscan Hembed Hlen).
  apply Z.eqb_neq in Hdim. rewrite Hdim, Hmsg. reflexivity.
Qed.

(** The spec's example: a store configured with the dimension 128 and a
    provider of vectors of length 64. *)
Lemma update_embeddings_dimension_mismatch_witness :
  let self := Example.store_with 128 "label" [Example.scanned_hit] in
  ∃ msg,
    run (update_embeddings (H := Reference.lib) self (Example.retriever 64) None) [] =
      (Raise (RuntimeError msg), [] ++ [Scan "document" match_all_body]) ∧
    names msg (Z.of_nat (length (repeat 0%float 64))) ∧
    names msg 128.
Proof.
  intros self.
  apply (update_embeddings_dimension_mismatch (H := Reference.lib) self
           (Example.retriever 64) None [] [Example.scanned_hit]
           (repeat 0%float 64) []).
  - by eexists.
  - reflexivity.
  - reflexivity.
  - reflexivity.
  - vm_compute. discriminate.
Defined.

(** ** Bulk writes *)

(** C6. The bulk request of [update_embeddings] has the request timeout but
    not the refresh flag that the bulk requests of [write_documents] and
    [write_labels] carry: on a store of one document, with a provider of
    the configured dimension, the update is submitted with no refresh
    argument. *)
Lemma update_embeddings_bulk_evaluation :
  let self := Example.store_with 2 "label" [Example.scanned_hit] in
  let doc := _convert_es_hit_to_document self Example.scanned_hit 0 in
  run (update_embeddings (H := Reference.lib) self (Example.retriever 2) None) [] =
    (Ok tt,
     [Scan "document" match_all_body;
      Bulk [embedding_update "document" "embedding" doc [0%float; 0%float]]
           (Some 300) None]) ∧
  (∃ records,
     snd (run (write_documents (H := Reference.lib) (H0 := Reference.model) self
                 [inr Example.cats_doc] None) []) =
     [Bulk records (Some 300) (Some "wait_for")]) ∧
  (∃ records,
     snd (run (write_labels (H0 := Reference.model) self [inr Example.label] Omitted) []) =
     [IndicesExists "label"; Bulk records (Some 300) (Some "wait_for")]).
Proof.
  intros self doc. split; [|split].
  - rewrite (update_embeddings_run (H := Reference.lib) self (Example.retriever 2)
               None [] "embedding" [Example.scanned_hit] [0%float; 0%float] []);
      reflexivity.
  - eexists. vm_compute. reflexivity.
  - eexists. vm_compute. reflexivity.
Qed.

Section Labels.
Context `{BaseModel}.

Lemma _label_index (index : string) (label : Label.t) :
  _label (Some index) label !! "_index" = Some (VStr index).
Proof.
  unfold _label. rewrite lookup_union_r.
  - by simplify_map_eq.
  - unfold Label.to_dict. by simplify_map_eq.
Qed.

(** [write_labels] with a named index: the index is made to exist, then
    the labels go out in one bulk request that waits for the refresh. *)
Lemma write_labels_named (self : Store.t) (labels : list Label.t) (index : string)
    (tr : list request) :
  truthy index = true →
  run (write_labels self (inr <$> labels) (Given (Some index))) tr =
  let records := map (_label (Some index)) labels in
  let bulk_request := Bulk records (Some 300) (Some "wait_for") in
  let answer := bulk (Store.client self) records (Some 300) (Some "wait_for") in
  match indices_exists (Store.client self) index with
  | Ok true => (answer, tr ++ [IndicesExists index] ++ [bulk_request])
  | Ok false =>
      match indices_create (Store.client self) index 400 label_mapping with
      | Ok _ =>
          (answer, tr ++ [IndicesExists index] ++
                         [IndicesCreate index 400 label_mapping] ++ [bulk_request])
      | Raise e =>
          (Raise e, tr ++ [IndicesExists index] ++
                          [IndicesCreate index 400 label_mapping])
      end
  | Raise e => (Raise e, tr ++ [IndicesExists index])
  end.
Proof.
  intros Hindex. unfold write_labels. cbv zeta.
  unfold if_truthy. rewrite Hindex.
  rewrite !run_bind, run_send.
  destruct (indices_exists (Store.client self) index) as [[]|e]; simpl negb; cbv iota.
  - rewrite run_ret, run_lift_bind, for_each_typed, run_send.
    by rewrite <- (assoc_L (++)).
  - unfold _create_label_index. cbv zeta. rewrite run_send.
    destruct (indices_create _ _ _ _) as [[]|e].
    + rewrite run_lift_bind, for_each_typed, run_send.
      by rewrite <- !(assoc_L (++)).
    + by rewrite <- !(assoc_L (++)).
  - reflexivity.
Qed.
End Labels.

(** A store that [__init__] has built holds the label index it was
    configured with, and the last request of its construction creates that
    index. *)
Lemma __init___label_index (client : Engine) (index label_index : string)
    (search_fields : string + list string) (text_field name_field : string)
    (embedding_field : option string) (embedding_dim : Z)
    (custom_mapping : option dict) (excluded_meta_data : option (list string))
    (faq_question_field : option string) (create_index : bool)
    (tr tr' : list request) (self : Store.t) :
  run (__init__ client index label_index search_fields text_field name_field
         embedding_field embedding_dim custom_mapping excluded_meta_data
         faq_question_field create_index) tr = (Ok self, tr') →
  Store.client self = client ∧
  Store.label_index self = label_index ∧
  last tr' = Some (IndicesCreate label_index 400 label_mapping).
Proof.
  unfold __init__. cbv zeta. rewrite run_bind.
  match goal with |- context [run ?m tr] => destruct (run m tr) as [[[]|e] tr1] end;
    [|intros Hrun; discriminate Hrun].
  rewrite run_bind. unfold _create_label_index. cbv zeta. rewrite run_send.
  cbn [Store.client].
  destruct (indices_create client label_index 400 label_mapping) as [[]|e];
    [|intros Hrun; discriminate Hrun].
  rewrite run_ret. intros [= <- <-]. simpl. by rewrite last_snoc.
Qed.



(** ** Construction and index creation *)

(** X2. [_create_document_index] sends one creation request that ignores the
    status 400 (the index exists already). Its mapping is the custom
    mapping whenever the store has a non-empty one, the embedding settings
    notwithstanding; otherwise its properties map the embedding field, when
    one is configured, as a dense vector of the configured dimension, the
    text field and the name field as text, and no other field. The
    embedding field wins when it has the name of the text or name field. *)
Theorem create_document_index_mapping (self : Store.t) (index_name : string)
    (tr : list request) :
  ∃ mapping,
    run (_create_document_index self index_name) tr =
      (indices_create (Store.client self) index_name 400 mapping,
       tr ++ [IndicesCreate index_name 400 mapping]) ∧
    match if_truthy (Store.custom_mapping self) with
    | Some custom_mapping => mapping = custom_mapping
    | None =>
        ∃ properties,
          mapping = {["mappings" := VDict {["properties" := VDict properties]}]} ∧
          ∀ field, properties !! field = field_mapping self field
    end.
Proof.
  exists (index_mapping self). split; [apply run_create_document_index|].
  unfold index_mapping.
  destruct (if_truthy (Store.custom_mapping self)) as [custom_mapping|]; [done|].
  eexists. split; [reflexivity|].
  intros field. unfold field_mapping.
  destruct (if_truthy (Store.embedding_field self)) as [ef|].
  - destruct (decide (Some ef = Some field)) as [[= ->]|Hne].
    + apply lookup_insert_eq.
    + rewrite lookup_insert_ne by congruence.
      destruct (decide (field = Store.text_field self ∨ field = Store.name_field self))
        as [[->| ->]|Hno].
      * apply lookup_insert_eq.
      * destruct (decide (Store.text_field self = Store.name_field self)) as [->|Hd].
        -- apply lookup_insert_eq.
        -- rewrite lookup_insert_ne by done. apply lookup_insert_eq.
      * rewrite !lookup_insert_ne by (intros <-; tauto). apply lookup_empty.
  - destruct (decide (None = Some field)) as [|_]; [discriminate|].
    destruct (decide (field = Store.text_field self ∨ field = Store.name_field self))
      as [[->| ->]|Hno].
    + apply lookup_insert_eq.
    + destruct (decide (Store.text_field self = Store.name_field self)) as [->|Hd].
      * apply lookup_insert_eq.
      * rewrite lookup_insert_ne by done. apply lookup_insert_eq.
    + rewrite !lookup_insert_ne by (intros <-; tauto). apply lookup_empty.
Qed.

(** X1. Construction stores the configuration, a single search field as a
    list of one, and then creates the indices: the document index first, and
    only when [create_index] is on, then the label index in every case,
    each with a request that ignores the status 400. When the creation of
    the document index raises, the label index is not attempted; when the
    creation of the label index raises, no store is returned. *)
Theorem init_creates_indices (client : Engine) (index label_index : string)
    (search_fields : string + list string) (text_field name_field : string)
    (embedding_field : option string) (embedding_dim : Z)
    (custom_mapping : option dict) (excluded_meta_data : option (list string))
    (faq_question_field : option string) (create_index : bool) (tr : list request) :
  let self := {|
    Store.client := client;
    Store.search_fields := match search_fields with inl s => [s] | inr l => l end;
    Store.text_field := text_field;
    Store.name_field := name_field;
    Store.embedding_field := embedding_field;
    Store.embedding_dim := embedding_dim;
    Store.excluded_meta_data := excluded_meta_data;
    Store.faq_question_field := faq_question_field;
    Store.custom_mapping := custom_mapping;
    Store.index := index;
    Store.label_index := label_index |} in
  let documents := IndicesCreate index 400 (index_mapping self) in
  let labels := IndicesCreate label_index 400 label_mapping in
  run (__init__ client index label_index search_fields text_field name_field
         embedding_field embedding_dim custom_mapping excluded_meta_data
         faq_question_field create_index) tr =
  if create_index then
    match indices_create client index 400 (index_mapping self) with
    | Ok _ =>
        ((λ _, self) <$> indices_create client label_index 400 label_mapping,
         tr ++ [documents; labels])
    | Raise e => (Raise e, tr ++ [documents])
    end
  else
    ((λ _, self) <$> indices_create client label_index 400 label_mapping,
     tr ++ [labels]).
Proof.
  intros self documents labels. unfold __init__. fold self.
  rewrite run_bind. destruct create_index.
  - rewrite run_create_document_index. cbn [Store.client self].
    destruct (indices_create client index 400 (index_mapping self)) as [[]|e];
      [|reflexivity].
    rewrite run_bind. unfold _create_label_index. rewrite run_send.
    cbn [Store.client self]. rewrite <- app_assoc.
    destruct (indices_create client label_index 400 label_mapping) as [[]|e];
      reflexivity.
  - rewrite run_ret, run_bind. unfold _create_label_index. rewrite run_send.
    cbn [Store.client self].
    destruct (indices_create client label_index 400 label_mapping) as [[]|e];
      reflexivity.
Qed.

(** ** Reading documents and labels *)

(** X3. [get_document_by_id] sends one search for the id in the given index,
    or in the index of the store, and returns the document of the first
    hit with its score as it is; when the engine finds nothing it returns
    [None] and raises nothing. The body has no [_source] entry: the
    excluded fields of the store are not left out here. *)
Theorem get_document_by_id_first_hit (self : Store.t) (id : string)
    (index : option string) (tr : list request) :
  let index' := default (Store.index self) index in
  run (get_document_by_id self id index) tr =
  (match search (Store.client self) index' (ids_query id) None with
   | Ok [] => Ok None
   | Ok (hit :: _) => Ok (Some (_convert_es_hit_to_document self hit 0))
   | Raise e => Raise e
   end,
   tr ++ [Search index' (ids_query id) None]) ∧
  ids_query id !! "_source" = None.
Proof.
  intros index'. split; [|done].
  unfold get_document_by_id. rewrite run_bind, run_send. fold index'.
  fold (ids_query id).
  destruct (search (Store.client self) index' (ids_query id) None) as [[|hit hits]|e];
    reflexivity.
Qed.

Lemma run_get_all_documents_in_index (self : Store.t) (index : string)
    (filters : option dict) (tr : list request) :
  run (get_all_documents_in_index self index filters) tr =
  (scan (Store.client self) index (match_all_shape filters),
   tr ++ [Scan index (match_all_shape filters)]).
Proof.
  unfold get_all_documents_in_index.
  rewrite run_lift_bind.
  change (terms <$> ?l) with (map terms l).
  rewrite match_all_body_shape. apply run_send.
Qed.


(** X5. [get_all_labels] with no index argument scans the index [label],
    whatever label index the store was configured with, with the same
    filter clauses as for documents, and parses the source of every hit
    with [Label.from_dict] in the order of the hits; the first source that
    does not parse raises. *)
Theorem get_all_labels_default_index `{BaseModel} (self : Store.t)
    (filters : option dict) (tr : list request) :
  run (get_all_labels self Omitted filters) tr =
  (scan (Store.client self) "label" (match_all_shape filters) ≫=
     for_each (λ hit, Label_from_dict (_source hit)),
   tr ++ [Scan "label" (match_all_shape filters)]).
Proof.
  unfold get_all_labels. rewrite run_bind, run_get_all_documents_in_index.
  destruct (scan _ _ _); reflexivity.
Qed.

(** ** Writing documents and labels *)

(** X6. [write_documents] on typed documents never raises while it builds the
    records. With no index (or an empty name) it sends the one bulk request
    and neither checks nor creates the index of the store; with an index it
    checks the existence first, creates a missing index with the document
    mapping, and sends nothing more when the check or the creation raises.
    The bulk request is sent for the empty list too, carries the timeout 300
    and waits for the refresh, and every record of a document whose meta
    mapping has no [_index] entry names the target index. *)
Theorem write_documents_requests `{PyLib} `{BaseModel} (self : Store.t)
    (documents : list Document.t) (index : option string) (tr : list request) :
  let index' := default (Store.index self) index in
  let records := map (record_of index') documents in
  let bulk_request := Bulk records (Some 300) (Some "wait_for") in
  let answer := bulk (Store.client self) records (Some 300) (Some "wait_for") in
  run (write_documents self (inr <$> documents) index) tr =
    match if_truthy index with
    | None => (answer, tr ++ [bulk_request])
    | Some index =>
        match indices_exists (Store.client self) index with
        | Ok true => (answer, tr ++ [IndicesExists index; bulk_request])
        | Ok false =>
            match indices_create (Store.client self) index 400 (index_mapping self) with
            | Ok _ =>
                (answer, tr ++ [IndicesExists index;
                                IndicesCreate index 400 (index_mapping self);
                                bulk_request])
            | Raise e =>
                (Raise e, tr ++ [IndicesExists index;
                                 IndicesCreate index 400 (index_mapping self)])
            end
        | Raise e => (Raise e, tr ++ [IndicesExists index])
        end
    end ∧
  Forall (λ doc, (∀ meta, Document.meta doc = Some meta → meta !! "_index" = None) →
                 record_of index' doc !! "_index" = Some (VStr index')) documents.
Proof.
  intros index' records bulk_request answer. split.
  - apply run_write_documents.
  - apply Forall_forall. intros doc _. apply record_of_index.
Qed.

Lemma sends_no_bulk_refl (tr : list request) : sends_no_bulk tr tr.
Proof. by intros actions request_timeout refresh. Qed.

Lemma sends_no_bulk_exists (tr tr' : list request) (index : string) :
  sends_no_bulk tr tr' → sends_no_bulk tr (tr' ++ [IndicesExists index]).
Proof.
  intros Htr actions request_timeout refresh Hin.
  apply elem_of_app in Hin as [Hin|Hin]; [by apply Htr|].
  apply list_elem_of_singleton in Hin. discriminate Hin.
Qed.

Lemma sends_no_bulk_create (tr tr' : list request) (index : string) (ignore : Z)
    (body : dict) :
  sends_no_bulk tr tr' → sends_no_bulk tr (tr' ++ [IndicesCreate index ignore body]).
Proof.
  intros Htr actions request_timeout refresh Hin.
  apply elem_of_app in Hin as [Hin|Hin]; [by apply Htr|].
  apply list_elem_of_singleton in Hin. discriminate Hin.
Qed.

(** X7. The inputs of [write_documents] and [write_labels] are converted
    before anything is written: when one mapping of the list does not parse,
    the call raises and no bulk request is sent, not even for the inputs
    before it. With no index to check, the exception is the parser's and
    nothing at all is sent. *)
Theorem write_conversion_error `{PyLib} `{BaseModel} (self : Store.t) (tr : list request) :
  (∀ (documents : list (dict + Document.t)) (index : option string) (e : exn),
     for_each (λ d, match d with inl d => Document_from_dict d | inr d => Ok d end)
              documents = Raise e →
     ∃ e' tr', run (write_documents self documents index) tr = (Raise e', tr') ∧
               sends_no_bulk tr tr' ∧
               (if_truthy index = None → e' = e ∧ tr' = tr)) ∧
  (∀ (labels : list (dict + Label.t)) (index : arg (option string)) (e : exn),
     for_each (λ l, match l with inl l => Label_from_dict l | inr l => Ok l end)
              labels = Raise e →
     ∃ e' tr', run (write_labels self labels index) tr = (Raise e', tr') ∧
               sends_no_bulk tr tr').
Proof.
  split.
  - intros documents index e He. unfold write_documents. rewrite run_bind.
    destruct (if_truthy index) as [name|].
    + rewrite run_bind, run_send.
      destruct (indices_exists (Store.client self) name) as [[]|e0];
        simpl negb; cbv iota.
      * rewrite run_ret, run_lift_bind, He. eexists _, _.
        split; [reflexivity|]. split; [|done].
        apply sends_no_bulk_exists, sends_no_bulk_refl.
      * rewrite run_create_document_index.
        destruct (indices_create _ _ _ _) as [[]|e1].
        -- rewrite run_lift_bind, He. eexists _, _.
           split; [reflexivity|]. split; [|done].
           apply sends_no_bulk_create, sends_no_bulk_exists, sends_no_bulk_refl.
        -- eexists _, _. split; [reflexivity|]. split; [|done].
           apply sends_no_bulk_create, sends_no_bulk_exists, sends_no_bulk_refl.
      * eexists _, _. split; [reflexivity|]. split; [|done].
        apply sends_no_bulk_exists, sends_no_bulk_refl.
    + rewrite run_ret, run_lift_bind, He. eexists _, _.
      split; [reflexivity|]. split; [apply sends_no_bulk_refl|done].
  - intros labels index e He. unfold write_labels. cbv zeta. rewrite run_bind.
    destruct (if_truthy _) as [name|].
    + rewrite run_bind, run_send.
      destruct (indices_exists (Store.client self) name) as [[]|e0];
        simpl negb; cbv iota.
      * rewrite run_ret, run_lift_bind, He. eexists _, _.
        split; [reflexivity|].
        apply sends_no_bulk_exists, sends_no_bulk_refl.
      * unfold _create_label_index. cbv zeta. rewrite run_send.
        destruct (indices_create _ _ _ _) as [[]|e1].
        -- rewrite run_lift_bind, He. eexists _, _.
           split; [reflexivity|].
           apply sends_no_bulk_create, sends_no_bulk_exists, sends_no_bulk_refl.
        -- eexists _, _. split; [reflexivity|].
           apply sends_no_bulk_create, sends_no_bulk_exists, sends_no_bulk_refl.
      * eexists _, _. split; [reflexivity|].
        apply sends_no_bulk_exists, sends_no_bulk_refl.
    + rewrite run_ret, run_lift_bind, He. eexists _, _.
      split; [reflexivity|apply sends_no_bulk_refl].
Qed.

(** A list whose second input has no text, for a parser that insists on
    one: the first document is not written either. *)
Lemma write_conversion_error_witness :
  ∃ e' tr',
    run (write_documents (H := Reference.lib) (H0 := Sample.strict_model)
           (Example.store []) [inr Example.cats_doc; inl ∅] None) [] = (Raise e', tr') ∧
    sends_no_bulk [] tr' ∧
    (if_truthy (None : option string) = None → e' = KeyError "text" ∧ tr' = []).
Proof.
  destruct (write_conversion_error (H := Reference.lib) (H0 := Sample.strict_model)
              (Example.store []) []) as [Hdocuments _].
  exact (Hdocuments [inr Example.cats_doc; inl ∅] None (KeyError "text") eq_refl).
Defined.


(** ** Writing and reading back *)

Section RoundTrip.
Context `{PyLib}.

Lemma guard_set_value (v : value) :
  (guard (is_None v = false);; Some v) = set_value v.
Proof.
  unfold set_value. destruct (is_None v) eqn:Hv.
  - by rewrite option_guard_False.
  - by rewrite option_guard_True.
Qed.

Lemma header_chain (index : string) (doc : Document.t) :
  delete "query_score" (
    <["_id" := VStr (Document.id doc)]> (
      delete "id" (
        Document.to_dict doc ∪
        (<["_op_type" := VStr "create"]> (<["_index" := VStr index]> ∅))))) =
  (<["text" := Document.text doc]> (
   <["question" := Document.question doc]> (
   <["meta" := from_option VDict VNone (Document.meta doc)]> (
   <["tags" := Document.tags doc]> (
   <["embedding" := Document.embedding doc]> (
   <["_op_type" := VStr "create"]> (
   <["_index" := VStr index]> (
   <["_id" := VStr (Document.id doc)]> ∅))))))) : dict).
Proof.
  unfold Document.to_dict.
  generalize (Document.text doc) (Document.question doc)
    (from_option VFloat VNone (Document.query_score doc))
    (from_option VDict VNone (Document.meta doc)) (Document.tags doc)
    (Document.embedding doc) (VStr (Document.id doc)) (VStr index).
  intros. vm_compute. reflexivity.
Qed.

Lemma top_level_lookup (index : string) (doc : Document.t) (k : string) :
  top_level index doc !! k =
  if decide (k = "_op_type") then Some (VStr "create")
  else if decide (k = "_index") then Some (VStr index)
  else if decide (k = "_id") then Some (VStr (Document.id doc))
  else if decide (k = "text") then set_value (Document.text doc)
  else if decide (k = "question") then set_value (Document.question doc)
  else if decide (k = "meta") then VDict <$> Document.meta doc
  else if decide (k = "tags") then set_value (Document.tags doc)
  else if decide (k = "embedding") then set_value (Document.embedding doc)
  else None.
Proof.
  unfold top_level. rewrite map_lookup_filter, header_chain.
  repeat case_decide; subst; simplify_map_eq; try done;
    try apply guard_set_value.
  destruct (Document.meta doc); reflexivity.
Qed.

Lemma stored_source_lookup (index : string) (doc : Document.t) (k : string) :
  (∀ key, key ∈ attribute_keys → default ∅ (Document.meta doc) !! key = None) →
  stored_source (record_of index doc) !! k =
  if decide (k = "text") then set_value (Document.text doc)
  else if decide (k = "question") then set_value (Document.question doc)
  else if decide (k = "embedding") then set_value (Document.embedding doc)
  else if decide (k = "tags") then set_value (Document.tags doc)
  else default ∅ (Document.meta doc) !! k.
Proof.
  intros Hm.
  assert (Hkey : ∀ key, key ∈ attribute_keys →
                 default ∅ (Document.meta doc) !! key = None) by exact Hm.
  assert (Hrecord : record_of index doc !! k =
                    if decide (k = "meta") then None
                    else match default ∅ (Document.meta doc) !! k with
                         | Some v => Some v
                         | None => top_level index doc !! k
                         end).
  { unfold record_of. destruct (Document.meta doc) as [meta|] eqn:Hdoc; simpl.
    - rewrite lookup_delete. case_decide as Hk; [by rewrite decide_True|].
      rewrite decide_False by (by apply not_eq_sym).
      rewrite lookup_union. destruct (meta !! k), (top_level index doc !! k); done.
    - rewrite lookup_empty. case_decide as Hk; [|done].
      subst k. rewrite top_level_lookup. simpl. by rewrite Hdoc. }
  unfold stored_source. rewrite !lookup_delete, Hrecord, top_level_lookup.
  pose proof (Hkey "text") as Htext. pose proof (Hkey "question") as Hquestion.
  pose proof (Hkey "embedding") as Hembedding. pose proof (Hkey "tags") as Htags.
  pose proof (Hkey "meta") as Hmeta. pose proof (Hkey "_op_type") as Hop.
  pose proof (Hkey "_index") as Hindex. pose proof (Hkey "_id") as Hid.
  repeat case_decide; subst; try done;
    repeat match goal with
    | H : ?key ∈ attribute_keys → _ |- _ =>
        specialize (H ltac:(apply list_elem_of_In; simpl; tauto))
    end;
    try (by rewrite ?Htext, ?Hquestion, ?Hembedding, ?Htags, ?Hmeta, ?Hop, ?Hindex, ?Hid).
  all: by destruct (default ∅ (Document.meta doc) !! k).
Qed.
End RoundTrip.

Lemma default_set_value (v : value) : default VNone (set_value v) = v.
Proof. by destruct v. Qed.

(** X9. A document that was written is read back as it was. When the text
    field of the store is [text], the question and embedding fields are
    [question] and [embedding] (or are not configured, for a document that
    has none), no key of the meta mapping is the name of an attribute or of
    a field of the bulk action, and the hit holds the identity of the
    document and the fields of its record other than [_op_type], [_index]
    and [_id], then the converted hit has the identity, text, question, tags
    and embedding of the document, and its meta mapping is the one of the
    document with the name field moved to the key [name] ([None] when the
    document has no name). *)
Theorem write_read_round_trip `{PyLib} (self : Store.t) (index : string)
    (doc : Document.t) (record : dict) (hit : hit) (score_adjustment : Z) :
  Store.text_field self = "text" →
  (Store.faq_question_field self = Some "question" ∨
   Store.faq_question_field self = None ∧ Document.question doc = VNone) →
  (Store.embedding_field self = Some "embedding" ∨
   Store.embedding_field self = None ∧ Document.embedding doc = VNone) →
  (∀ key, key ∈ attribute_keys → default ∅ (Document.meta doc) !! key = None) →
  _doc index doc = Ok record →
  _id hit = Document.id doc →
  _source hit = stored_source record →
  let doc' := _convert_es_hit_to_document self hit score_adjustment in
  let meta := default ∅ (Document.meta doc) in
  Document.id doc' = Document.id doc ∧
  Document.text doc' = Document.text doc ∧
  Document.question doc' = Document.question doc ∧
  Document.tags doc' = Document.tags doc ∧
  Document.embedding doc' = Document.embedding doc ∧
  Document.meta doc' =
    Some (<["name" := default VNone (meta !! Store.name_field self)]> (
          delete (Store.name_field self) meta)).
Proof.
  intros Htext Hfaq Hemb Hmeta Hrecord Hid Hsource doc' meta.
  rewrite _doc_eq in Hrecord. injection Hrecord as Hrecord.
  fold (record_of index doc) in Hrecord. subst record.
  assert (Hlookup := λ k, stored_source_lookup index doc k Hmeta).
  rewrite <- Hsource in Hlookup. fold meta in Hlookup.
  subst doc'. unfold _convert_es_hit_to_document, pop_default. cbv zeta.
  cbn [Document.id Document.text Document.question Document.tags
       Document.embedding Document.meta].
  split; [done|]. split; [|split; [|split; [|split]]].
  - unfold get. rewrite Htext, Hlookup. simpl. apply default_set_value.
  - destruct Hfaq as [-> |[-> ->]]; [|done].
    unfold get_opt, get. rewrite Hlookup. simpl. apply default_set_value.
  - unfold get. rewrite Hlookup. simpl. apply default_set_value.
  - destruct Hemb as [-> |[-> ->]]; [|done].
    unfold get_opt, get. rewrite Hlookup. simpl. apply default_set_value.
  - assert (Hfilter :
      filter (λ kv : string * value,
                Some kv.1 ∉ [Some (Store.text_field self); Store.faq_question_field self;
                             Store.embedding_field self; Some "tags"])
             (_source hit) = meta).
    { apply map_eq. intros k. rewrite map_lookup_filter, Hlookup. simpl.
      assert (Hk := λ key Hin, Hmeta key Hin : meta !! key = None).
      pose proof (Hk "text") as Hmtext. pose proof (Hk "question") as Hmquestion.
      pose proof (Hk "embedding") as Hmembedding. pose proof (Hk "tags") as Hmtags.
      rewrite Htext.
      destruct (decide (k = "text")) as [->|Hn1].
      { rewrite Hmtext by (apply list_elem_of_In; simpl; tauto).
        destruct (set_value (Document.text doc)); simpl; [|done].
        first [done|by rewrite option_guard_False
                         by (intros Hn; apply Hn, list_elem_of_In; simpl; tauto)]. }
      destruct (decide (k = "question")) as [->|Hn2].
      { rewrite Hmquestion by (apply list_elem_of_In; simpl; tauto).
        destruct Hfaq as [-> |[-> ->]]; [|done].
        destruct (set_value (Document.question doc)); simpl; [|done].
        first [done|by rewrite option_guard_False
                         by (intros Hn; apply Hn, list_elem_of_In; simpl; tauto)]. }
      destruct (decide (k = "embedding")) as [->|Hn3].
      { rewrite Hmembedding by (apply list_elem_of_In; simpl; tauto).
        destruct Hemb as [-> |[-> ->]]; [|done].
        destruct (set_value (Document.embedding doc)); simpl; [|done].
        first [done|by rewrite option_guard_False
                         by (intros Hn; apply Hn, list_elem_of_In; simpl; tauto)]. }
      destruct (decide (k = "tags")) as [->|Hn4].
      { rewrite Hmtags by (apply list_elem_of_In; simpl; tauto).
        destruct (set_value (Document.tags doc)); simpl; [|done].
        first [done|by rewrite option_guard_False
                         by (intros Hn; apply Hn, list_elem_of_In; simpl; tauto)]. }
      destruct (meta !! k) as [v|]; simpl; [|done].
      rewrite option_guard_True; [done|].
      intros Hin. apply list_elem_of_In in Hin. simpl in Hin.
      destruct Hfaq as [Hf|[Hf _]], Hemb as [He|[He _]];
        rewrite Hf, He in Hin; intuition congruence. }
    rewrite Hfilter. reflexivity.
Qed.

Lemma attribute_keys_cats_doc (key : string) :
  key ∈ attribute_keys → default ∅ (Document.meta Example.cats_doc) !! key = None.
Proof.
  intros Hin. apply list_elem_of_In in Hin. simpl in Hin.
  repeat destruct Hin as [<-|Hin]; try reflexivity. destruct Hin.
Qed.

(** The document [cats_doc], written by a store with the default field
    names and read back. *)
Lemma write_read_round_trip_witness :
  let record := record_of "document" Example.cats_doc in
  let doc' := _convert_es_hit_to_document (Example.store [])
                (Sample.stored_hit "doc-1" record) 0 in
  Document.id doc' = "doc-1" ∧
  Document.text doc' = VStr "cats purr" ∧
  Document.question doc' = VNone ∧
  Document.tags doc' = VNone ∧
  Document.embedding doc' = VNone ∧
  Document.meta doc' =
    Some (<["name" := VStr "cats.txt"]> (delete "name"
            (<["name" := VStr "cats.txt"]> {["year" := VInt 2020]}))).
Proof.
  intros record doc'.
  apply (write_read_round_trip (H := Reference.lib) (Example.store []) "document"
           Example.cats_doc record (Sample.stored_hit "doc-1" record) 0).
  - reflexivity.
  - right. split; reflexivity.
  - left. reflexivity.
  - exact attribute_keys_cats_doc.
  - apply _doc_eq.
  - reflexivity.
  - reflexivity.
Defined.

(** X10. A store with no FAQ question field does not read a question back:
    the question of a written document is stored under [question], and the
    converted hit has no question and holds the stored one in its meta
    mapping. *)
Theorem question_read_back_as_meta `{PyLib} (self : Store.t) (index : string)
    (doc : Document.t) (record : dict) (hit : hit) (score_adjustment : Z) :
  Store.faq_question_field self = None →
  Store.text_field self ≠ "question" →
  Store.embedding_field self ≠ Some "question" →
  Store.name_field self ≠ "question" →
  Document.question doc ≠ VNone →
  (∀ key, key ∈ attribute_keys → default ∅ (Document.meta doc) !! key = None) →
  _doc index doc = Ok record →
  _source hit = stored_source record →
  let doc' := _convert_es_hit_to_document self hit score_adjustment in
  Document.question doc' = VNone ∧
  ∃ meta, Document.meta doc' = Some meta ∧
          meta !! "question" = Some (Document.question doc).
Proof.
  intros Hfaq Htext Hemb Hname Hquestion Hmeta Hrecord Hsource doc'.
  rewrite _doc_eq in Hrecord. injection Hrecord as Hrecord.
  fold (record_of index doc) in Hrecord. subst record.
  assert (Hlookup := stored_source_lookup index doc "question" Hmeta).
  rewrite <- Hsource in Hlookup. simpl in Hlookup.
  subst doc'. unfold _convert_es_hit_to_document, pop_default. cbv zeta.
  cbn [Document.question Document.meta]. rewrite Hfaq.
  split; [done|]. eexists. split; [reflexivity|].
  rewrite lookup_insert_ne by done.
  rewrite lookup_delete_ne by done.
  apply map_lookup_filter_Some. split.
  - rewrite Hlookup. unfold set_value. by destruct (Document.question doc).
  - simpl. intros Hin. apply list_elem_of_In in Hin. simpl in Hin.
    intuition congruence.
Qed.

Lemma attribute_keys_faq_doc (key : string) :
  key ∈ attribute_keys → default ∅ (Document.meta Sample.faq_doc) !! key = None.
Proof.
  intros Hin. apply list_elem_of_In in Hin. simpl in Hin.
  repeat destruct Hin as [<-|Hin]; try reflexivity. destruct Hin.
Qed.

(** A FAQ document written and read by a store with the default
    configuration. *)
Lemma question_read_back_as_meta_witness :
  let record := record_of "document" Sample.faq_doc in
  let doc' := _convert_es_hit_to_document (Example.store [])
                (Sample.stored_hit "faq-1" record) 0 in
  Document.question doc' = VNone ∧
  ∃ meta, Document.meta doc' = Some meta ∧
          meta !! "question" = Some (VStr "do cats purr?").
Proof.
  intros record doc'.
  apply (question_read_back_as_meta (H := Reference.lib) (Example.store []) "document"
           Sample.faq_doc record (Sample.stored_hit "faq-1" record) 0).
  - reflexivity.
  - discriminate.
  - discriminate.
  - discriminate.
  - discriminate.
  - exact attribute_keys_faq_doc.
  - apply _doc_eq.
  - reflexivity.
Defined.

(** ** Queries *)

(** X11. In the default shape (a query text and no template) filters with a
    value that is no list are rejected: the call raises the filter format
    error naming a key whose value is no list, and sends nothing. *)
Theorem query_rejects_non_list_filter `{PyLib} (self : Store.t) (q : string) (fs : dict)
    (top_k : Z) (custom_query index : option string) (tr : list request)
    (key : string) (values : value) :
  if_truthy custom_query = None →
  fs !! key = Some values → is_list values = false →
  ∃ key' values', fs !! key' = Some values' ∧ is_list values' = false ∧
    run (query self (Some q) (Some fs) top_k custom_query index) tr =
    (Raise (wrong_filter_format key'), tr).
Proof.
  intros Hc Hkey Hnl. apply query_keyword_rejects; [done|]. by exists key, values.
Qed.

(** The filters [year_scalar], whose only value is a number. *)
Lemma query_rejects_non_list_filter_witness :
  ∃ key values,
    Example.year_scalar !! key = Some values ∧ is_list values = false ∧
    run (query (H := Reference.lib) (Example.store []) (Some "cats")
           (Some Example.year_scalar) 10 None None) [] =
    (Raise (wrong_filter_format key), []).
Proof.
  apply (query_rejects_non_list_filter (H := Reference.lib) (Example.store []) "cats"
           Example.year_scalar 10 None None [] "year" (VInt 2020)); reflexivity.
Defined.

Lemma append_empty_r (s : string) : s +:+ "" = s.
Proof. induction s as [|c s IH]; [done|]. exact (f_equal (String c) IH). Qed.

Lemma Template_substitute_plain (mapping : gmap string string) (template : string) :
  is_plain template = true → Template_substitute template mapping = Ok template.
Proof.
  intros Hp. unfold Template_substitute.
  rewrite <- (append_empty_r template) at 1.
  rewrite (substitute_from_plain mapping template "" Hp). simpl.
  by rewrite append_empty_r.
Qed.

(** X12. A custom query template without a placeholder is sent as it is
    written: the body is the parsed template with the size set, whatever
    the query text and the filters are. *)
Theorem query_plain_template `{PyLib} (self : Store.t) (q : string)
    (filters : option dict) (top_k : Z) (template : string) (index : option string)
    (tr : list request) :
  truthy template = true →
  is_plain template = true →
  run (query self (Some q) filters top_k (Some template) index) tr =
  match json_loads template ≫= λ body, setitem body "size" (VStr (pretty top_k)) with
  | Ok body =>
      searched self (default (Store.index self) index)
               (exclude_meta_data self body) None 0 tr
  | Raise e => (Raise e, tr)
  end.
Proof.
  intros Ht Hp. rewrite query_templated by done.
  unfold templated_shape. rewrite Template_substitute_plain by done. reflexivity.
Qed.

(** A match-all template, called with a text and filters. *)
Lemma query_plain_template_witness :
  run (query (H := Reference.lib) (Example.store []) (Some "cats")
         (Some Example.year_list) 10 (Some Sample.match_all_template) None) [] =
  (Ok [], [Search "document"
             (<["size" := VStr "10"]> {["query" := VDict {["match_all" := VDict ∅]}]})
             None]).
Proof.
  rewrite (query_plain_template (H := Reference.lib) (Example.store []) "cats"
             (Some Example.year_list) 10 Sample.match_all_template None []
             eq_refl eq_refl).
  vm_compute. reflexivity.
Defined.

Lemma bind_Ok_inv {A B : Type} (m : result A) (f : A → result B) (b : B) :
  m ≫= f = Ok b → ∃ a, m = Ok a ∧ f a = Ok b.
Proof. destruct m as [a|e]; [|discriminate]. intros Hf. by exists a. Qed.

Lemma bind_Ok_id {A : Type} (m : result A) : (a ← m; Ok a) = m.
Proof. by destruct m. Qed.

(** A part of a template that substitutes on its own substitutes the same
    way before a delimiter. *)
Lemma substitute_from_delimiter (mapping : gmap string string) (prefix rest : string)
    (st : scan_state) (out : string) :
  substitute_from mapping st prefix = Ok out →
  substitute_from mapping st (prefix +:+ "$" +:+ rest) =
  r ← substitute_from mapping AfterDelimiter rest; Ok (out +:+ r).
Proof.
  revert st out. induction prefix as [|c prefix IH]; intros st out Hout.
  - destruct st as [| |named|braced]; simpl in Hout; try discriminate Hout.
    + injection Hout as <-. simpl. by rewrite bind_Ok_id.
    + change ("" +:+ "$" +:+ rest) with (String "$" rest).
      cbn [substitute_from]. change (is_id_char "$") with false.
      change (is_delimiter "$") with true. cbv iota. rewrite Hout. reflexivity.
  - change (String c prefix +:+ "$" +:+ rest) with (String c (prefix +:+ "$" +:+ rest)).
    destruct st as [| |named|braced]; cbn [substitute_from] in Hout |- *.
    + destruct (is_delimiter c); [by apply IH|].
      apply bind_Ok_inv in Hout as (out' & Hout' & [= <-]).
      rewrite (IH _ _ Hout').
      destruct (substitute_from mapping AfterDelimiter rest); reflexivity.
    + destruct (is_delimiter c).
      { apply bind_Ok_inv in Hout as (out' & Hout' & [= <-]).
        rewrite (IH _ _ Hout').
        destruct (substitute_from mapping AfterDelimiter rest); reflexivity. }
      destruct (is_id_start c); [by apply IH|].
      destruct (is_open_brace c); [by apply IH|discriminate Hout].
    + destruct (is_id_char c); [by apply IH|].
      apply bind_Ok_inv in Hout as (v & Hv & Hout). rewrite Hv. rewrite bind_Ok.
      apply bind_Ok_inv in Hout as (out' & Hout' & [= <-]).
      destruct (is_delimiter c).
      * rewrite (IH _ _ Hout').
        destruct (substitute_from mapping AfterDelimiter rest) as [r|e]; [|reflexivity].
        rewrite !bind_Ok. by rewrite append_assoc.
      * apply bind_Ok_inv in Hout' as (out'' & Hout'' & [= <-]).
        rewrite (IH _ _ Hout'').
        destruct (substitute_from mapping AfterDelimiter rest) as [r|e]; [|reflexivity].
        rewrite !bind_Ok. by rewrite (append_assoc v (String c out'') r).
    + destruct (if truthy braced then is_id_char c else is_id_start c); [by apply IH|].
      destruct (truthy braced && is_close_brace c); [|discriminate Hout].
      apply bind_Ok_inv in Hout as (v & Hv & Hout). rewrite Hv. rewrite bind_Ok.
      apply bind_Ok_inv in Hout as (out' & Hout' & [= <-]).
      rewrite (IH _ _ Hout').
      destruct (substitute_from mapping AfterDelimiter rest) as [r|e]; [|reflexivity].
      rewrite !bind_Ok. by rewrite append_assoc.
Qed.

(** A braced placeholder after a part of the template that substitutes. *)
Lemma Template_substitute_after (mapping : gmap string string)
    (prefix name rest out : string) :
  Template_substitute prefix mapping = Ok out →
  is_identifier name = true →
  Template_substitute (prefix +:+ "${" +:+ name +:+ "}" +:+ rest) mapping =
  v ← placeholder mapping name;
  r ← Template_substitute rest mapping;
  Ok (out +:+ v +:+ r).
Proof.
  intros Hout Hname. unfold Template_substitute in *.
  change (prefix +:+ "${" +:+ name +:+ "}" +:+ rest)
    with (prefix +:+ "$" +:+ String "{" (name +:+ "}" +:+ rest)).
  rewrite (substitute_from_delimiter _ _ _ _ _ Hout).
  cbn [substitute_from]. change (is_delimiter "{") with false.
  change (is_id_start "{") with false. change (is_open_brace "{") with true.
  cbv iota. rewrite substitute_from_braced.
  - change ("" +:+ name) with name.
    destruct (placeholder mapping name); simpl; [|done].
    destruct (substitute_from mapping InText rest); reflexivity.
  - destruct name as [|c name]; [discriminate Hname|].
    simpl in Hname. apply andb_true_iff in Hname as [Hc Hname]. simpl.
    rewrite Hname, andb_true_r. revert Hc. unfold is_id_char. by intros ->.
  - exact Hname.
Qed.

(** X13. When the part of a custom query template before a placeholder
    [${name}] substitutes, and [name] is neither [question] nor the key of
    a filter, [query] raises [KeyError] for [name] and sends nothing: the
    first placeholder of the template that has no value decides, whatever
    placeholders and escapes stand before it. *)
Theorem query_template_missing_filter `{PyLib} (self : Store.t) (q : string)
    (filters : option dict) (top_k : Z) (prefix name rest out : string)
    (index : option string) (tr : list request) :
  Template_substitute prefix (substitutions q filters) = Ok out →
  is_identifier name = true →
  name ≠ "question" →
  default ∅ filters !! name = None →
  run (query self (Some q) filters top_k
         (Some (prefix +:+ "${" +:+ name +:+ "}" +:+ rest)) index) tr =
  (Raise (KeyError name), tr).
Proof.
  intros Hprefix Hid Hq Hname. rewrite query_templated.
  - unfold templated_shape. rewrite (Template_substitute_after _ _ _ _ _ Hprefix Hid).
    unfold placeholder, substitutions.
    replace (((json_dumps <$> default ∅ filters) ∪ {["question" := q]}) !! name)
      with (@None string); [reflexivity|].
    symmetry. apply lookup_union_None. split.
    + by rewrite lookup_fmap, Hname.
    + by apply lookup_singleton_ne, not_eq_sym.
  - by destruct prefix.
Qed.

(** The template of the spec, with its [question] placeholder before the
    placeholder [year], called with no filters. *)
Lemma query_template_missing_filter_witness :
  run (query (H := Reference.lib) (Example.store []) (Some "cats") None 10
         (Some Example.template) None) []
  = (Raise (KeyError "year"), []).
Proof.
  apply (query_template_missing_filter (H := Reference.lib) (Example.store []) "cats"
           None 10
           ("{" +:+ dq +:+ "query" +:+ dq +:+ ": {" +:+ dq +:+ "bool" +:+ dq +:+ ": {" +:+
            dq +:+ "must" +:+ dq +:+ ": {" +:+ dq +:+ "match" +:+ dq +:+ ": {" +:+
            dq +:+ "text" +:+ dq +:+ ": " +:+ dq +:+ "${question}" +:+ dq +:+ "}}, " +:+
            dq +:+ "filter" +:+ dq +:+ ": {" +:+ dq +:+ "terms" +:+ dq +:+ ": {" +:+
            dq +:+ "year" +:+ dq +:+ ": ")
           "year" "}}}}}"
           ("{" +:+ dq +:+ "query" +:+ dq +:+ ": {" +:+ dq +:+ "bool" +:+ dq +:+ ": {" +:+
            dq +:+ "must" +:+ dq +:+ ": {" +:+ dq +:+ "match" +:+ dq +:+ ": {" +:+
            dq +:+ "text" +:+ dq +:+ ": " +:+ dq +:+ "cats" +:+ dq +:+ "}}, " +:+
            dq +:+ "filter" +:+ dq +:+ ": {" +:+ dq +:+ "terms" +:+ dq +:+ ": {" +:+
            dq +:+ "year" +:+ dq +:+ ": ")
           None []);
    [vm_compute; reflexivity|reflexivity|discriminate|reflexivity].
Defined.

Lemma query_cases_excluded `{PyLib} (self : Store.t) (q : option string)
    (filters : option dict) (top_k : Z) (custom_query index : option string)
    (tr : list request) :
  (∃ e, run (query self q filters top_k custom_query index) tr = (Raise e, tr)) ∨
  (∃ body, run (query self q filters top_k custom_query index) tr =
           searched self (default (Store.index self) index)
                    (exclude_meta_data self body) None 0 tr).
Proof.
  unfold query. rewrite run_lift_bind.
  match goal with |- context [match ?r with Ok _ => _ | Raise _ => _ end] =>
    destruct r as [body|e] end.
  - right. exists body. apply run_search.
  - left. by exists e.
Qed.

Lemma query_by_embedding_cases_excluded (self : Store.t) (query_emb : list float)
    (filters : option dict) (top_k : Z) (index : option string) (tr : list request) :
  (∃ e, run (query_by_embedding self query_emb filters top_k index) tr = (Raise e, tr)) ∨
  (∃ body, run (query_by_embedding self query_emb filters top_k index) tr =
           searched self (default (Store.index self) index)
                    (exclude_meta_data self body) (Some 300) (-1) tr).
Proof.
  unfold query_by_embedding.
  destruct (if_truthy (Store.embedding_field self)) as [embedding_field|].
  - rewrite run_lift_bind.
    match goal with |- context [match ?r with Ok _ => _ | Raise _ => _ end] =>
      destruct r as [body|e] end.
    + right. exists body. apply run_search.
    + left. by exists e.
  - left. eexists. apply run_raise.
Qed.

(** X14. In a store with excluded fields, a call of [query] or of
    [query_by_embedding] either raises before it sends anything, and
    leaves the trace as it found it, or sends exactly one search request
    whose body has the [_source] entry that excludes those fields, over
    whatever the body (a custom template included) had under that key, and
    returns the engine's answer, an exception of the engine included. *)
Theorem searches_exclude_meta_data `{PyLib} (self : Store.t) (excluded : list string) :
  if_truthy (Store.excluded_meta_data self) = Some excluded →
  (∀ q filters top_k custom_query index tr,
     (∃ e, run (query self q filters top_k custom_query index) tr = (Raise e, tr)) ∨
     (∃ body, body !! "_source" = Some (excludes excluded) ∧
              run (query self q filters top_k custom_query index) tr =
              searched self (default (Store.index self) index) body None 0 tr)) ∧
  (∀ query_emb filters top_k index tr,
     (∃ e, run (query_by_embedding self query_emb filters top_k index) tr =
           (Raise e, tr)) ∨
     (∃ body, body !! "_source" = Some (excludes excluded) ∧
              run (query_by_embedding self query_emb filters top_k index) tr =
              searched self (default (Store.index self) index) body (Some 300) (-1) tr)).
Proof.
  intros Hex.
  assert (Hbody : ∀ body, exclude_meta_data self body !! "_source" = Some (excludes excluded)).
  { intros body. unfold exclude_meta_data. rewrite Hex. apply lookup_insert_eq. }
  split.
  - intros q filters top_k custom_query index tr.
    destruct (query_cases_excluded self q filters top_k custom_query index tr)
      as [[e He]|[body Hb]].
    + left. by exists e.
    + right. exists (exclude_meta_data self body). split; [apply Hbody|exact Hb].
  - intros query_emb filters top_k index tr.
    destruct (query_by_embedding_cases_excluded self query_emb filters top_k index tr)
      as [[e He]|[body Hb]].
    + left. by exists e.
    + right. exists (exclude_meta_data self body). split; [apply Hbody|exact Hb].
Qed.

(** A store that excludes the embedding field: the keyword search is sent
    with the exclusion. *)
Lemma searches_exclude_meta_data_witness :
  ∃ body, body !! "_source" = Some (excludes ["embedding"]) ∧
          run (query (H := Reference.lib) (Sample.excluding_store []) (Some "cats") None 10
                 None None) [] =
          (Ok [], [Search "document" body None]).
Proof.
  destruct (searches_exclude_meta_data (H := Reference.lib) (Sample.excluding_store [])
              ["embedding"] eq_refl) as [Hquery _].
  destruct (Hquery (Some "cats") None 10 None None []) as [[e He]|[body [Hbody Hrun]]].
  - exfalso. apply (f_equal (λ r : result (list Document.t) * list request, length r.2)) in He.
    vm_compute in He. discriminate He.
  - exists body. split; [exact Hbody|]. rewrite Hrun. reflexivity.
Defined.

Lemma truthy_dict_true (fs : dict) : truthy fs = true ↔ fs ≠ ∅.
Proof. unfold truthy, truthy_dict. apply bool_decide_eq_true. Qed.

(** X15. With an embedding field, [query_by_embedding] raises [KeyError] for
    [bool] and sends nothing whenever the filters are not empty; with no
    filters it sends one search with the timeout 300 whose body holds the
    size as an integer and the script score of the cosine similarity to the
    query vector plus one, with the excluded fields of the store, and takes
    one off every score. *)
Theorem query_by_embedding_request (self : Store.t) (query_emb : list float)
    (filters : option dict) (top_k : Z) (index : option string) (tr : list request)
    (embedding_field : string) :
  if_truthy (Store.embedding_field self) = Some embedding_field →
  run (query_by_embedding self query_emb filters top_k index) tr =
  if truthy filters then (Raise (KeyError "bool"), tr)
  else searched self (default (Store.index self) index)
         (exclude_meta_data self (similarity_shape embedding_field query_emb top_k))
         (Some 300) (-1) tr.
Proof.
  intros Hef. destruct filters as [fs|].
  - change (truthy (Some fs)) with (truthy fs).
    destruct (truthy fs) eqn:Hfs.
    + apply query_by_embedding_filters_KeyError; [by rewrite Hef|].
      by apply truthy_dict_true.
    + unfold query_by_embedding. rewrite Hef, run_lift_bind.
      simpl if_truthy. rewrite Hfs. apply run_search.
  - unfold query_by_embedding. rewrite Hef, run_lift_bind. apply run_search.
Qed.

(** The same vector with the filters [year_list] and with none. *)
Lemma query_by_embedding_request_witness :
  run (query_by_embedding (Example.store []) Example.query_emb
         (Some Example.year_list) 10 None) [] = (Raise (KeyError "bool"), []) ∧
  run (query_by_embedding (Example.store []) Example.query_emb None 10 None) [] =
    (Ok [], [Search "document" (similarity_shape "embedding" Example.query_emb 10)
               (Some 300)]).
Proof.
  split.
  - apply (query_by_embedding_request (Example.store []) Example.query_emb
             (Some Example.year_list) 10 None [] "embedding"). reflexivity.
  - apply (query_by_embedding_request (Example.store []) Example.query_emb
             None 10 None [] "embedding"). reflexivity.
Defined.

(** X16. In a store with no embedding field (none, or an empty name),
    [query_by_embedding] and [update_embeddings] raise a [RuntimeError]
    before they send anything, whatever their arguments are. *)
Theorem embedding_field_required `{PyLib} (self : Store.t) :
  if_truthy (Store.embedding_field self) = None →
  (∀ query_emb filters top_k index tr,
     ∃ msg, run (query_by_embedding self query_emb filters top_k index) tr =
            (Raise (RuntimeError msg), tr)) ∧
  (∀ retriever index tr,
     ∃ msg, run (update_embeddings self retriever index) tr =
            (Raise (RuntimeError msg), tr)).
Proof.
  intros Hef. split; intros.
  - unfold query_by_embedding. rewrite Hef. eexists. apply run_raise.
  - unfold update_embeddings. rewrite Hef. eexists. apply run_raise.
Qed.

(** A store built with the defaults of the constructor. *)
Lemma embedding_field_required_witness :
  (∃ msg, run (query_by_embedding (Sample.plain_store []) Example.query_emb None 10 None) []
          = (Raise (RuntimeError msg), [])) ∧
  (∃ msg, run (update_embeddings (H := Reference.lib) (Sample.plain_store [])
                 (Example.retriever 768) None) []
          = (Raise (RuntimeError msg), [])).
Proof.
  destruct (embedding_field_required (H := Reference.lib) (Sample.plain_store [])
              eq_refl) as [Hquery Hupdate].
  split.
  - exact (Hquery Example.query_emb None 10 None []).
  - exact (Hupdate (Example.retriever 768) None []).
Defined.

(** ** Refreshing the embeddings *)

(** X17. When the provider returns one vector per document and the first
    vector has the configured dimension, [update_embeddings] sends the scan
    and then one bulk request with the timeout 300 that holds one update
    per document, in the order of the scan: an update names the operation
    [update], the index and the identity of the hit, and holds under [doc]
    the embedding field with the vector of the same position, and nothing
    else. Only the first vector is measured. *)
Theorem update_embeddings_updates `{PyLib} (self : Store.t) (retriever : Retriever)
    (index : option string) (tr : list request) (embedding_field : string)
    (hits : list hit) (emb0 : list float) (embeddings : list (list float)) :
  let index' := default (Store.index self) index in
  let docs := map (λ hit, _convert_es_hit_to_document self hit 0) hits in
  if_truthy (Store.embedding_field self) = Some embedding_field →
  scan (Store.client self) index' match_all_body = Ok hits →
  embed_passages retriever (map Document.text docs) = Ok (emb0 :: embeddings) →
  length hits = length (emb0 :: embeddings) →
  Z.of_nat (length emb0) = Store.embedding_dim self →
  ∃ updates,
    run (update_embeddings self retriever index) tr =
      (bulk (Store.client self) updates (Some 300) None,
       tr ++ [Scan index' match_all_body; Bulk updates (Some 300) None]) ∧
    length updates = length hits ∧
    ∀ i hit emb,
      hits !! i = Some hit → (emb0 :: embeddings) !! i = Some emb →
      ∃ update,
        updates !! i = Some update ∧
        update !! "_op_type" = Some (VStr "update") ∧
        update !! "_index" = Some (VStr index') ∧
        update !! "_id" = Some (VStr (_id hit)) ∧
        update !! "doc" = Some (VDict {[embedding_field := VList (VFloat <$> emb)]}) ∧
        ∀ k, k ∉ ["_op_type"; "_index"; "_id"; "doc"] → update !! k = None.
Proof.
  intros index' docs Hfield Hscan Hembed Hlen Hdim.
  exists (zip_with (embedding_update index' embedding_field) docs (emb0 :: embeddings)).
  split; [|split].
  - rewrite (update_embeddings_run self retriever index tr embedding_field hits
               emb0 embeddings Hfield Hscan Hembed Hlen).
    apply Z.eqb_eq in Hdim. rewrite Hdim. reflexivity.
  - rewrite length_zip_with. subst docs. rewrite length_map. lia.
  - intros i hit emb Hhit Hemb.
    exists (embedding_update index' embedding_field
              (_convert_es_hit_to_document self hit 0) emb).
    split.
    + rewrite lookup_zip_with. subst docs.
      rewrite list_lookup_fmap, Hhit. simpl. rewrite Hemb. reflexivity.
    + unfold embedding_update. cbn [Document.id _convert_es_hit_to_document].
      repeat (split; [by simplify_map_eq|]).
      intros k Hk. rewrite !lookup_insert_ne; [apply lookup_empty|..];
        intros <-; apply Hk; apply list_elem_of_In; simpl; tauto.
Qed.

(** One document and a provider of vectors of the configured length 2. *)
Lemma update_embeddings_updates_witness :
  let self := Example.store_with 2 "label" [Example.scanned_hit] in
  ∃ updates,
    run (update_embeddings (H := Reference.lib) self (Example.retriever 2) None) [] =
      (Ok tt, [] ++ [Scan "document" match_all_body; Bulk updates (Some 300) None]) ∧
    length updates = 1%nat ∧
    ∀ i hit emb,
      [Example.scanned_hit] !! i = Some hit →
      [repeat 0%float 2] !! i = Some emb →
      ∃ update,
        updates !! i = Some update ∧
        update !! "_op_type" = Some (VStr "update") ∧
        update !! "_index" = Some (VStr "document") ∧
        update !! "_id" = Some (VStr (_id hit)) ∧
        update !! "doc" = Some (VDict {["embedding" := VList (VFloat <$> emb)]}) ∧
        ∀ k, k ∉ ["_op_type"; "_index"; "_id"; "doc"] → update !! k = None.
Proof.
  intros self.
  apply (update_embeddings_updates (H := Reference.lib) self (Example.retriever 2) None
           [] "embedding" [Example.scanned_hit] (repeat 0%float 2) []);
    reflexivity.
Defined.

(** X18. When the provider returns another number of vectors than there are
    documents, [update_embeddings] raises [AssertionError]; on an empty
    index, for which the provider returns no vector, it raises [IndexError].
    In both cases the scan is the only request it has sent. *)
Theorem update_embeddings_count_mismatch `{PyLib} (self : Store.t)
    (retriever : Retriever) (index : option string) (tr : list request)
    (hits : list hit) (embeddings : list (list float)) :
  let index' := default (Store.index self) index in
  let docs := map (λ hit, _convert_es_hit_to_document self hit 0) hits in
  is_Some (if_truthy (Store.embedding_field self)) →
  scan (Store.client self) index' match_all_body = Ok hits →
  embed_passages retriever (map Document.text docs) = Ok embeddings →
  (length hits ≠ length embeddings →
   run (update_embeddings self retriever index) tr =
   (Raise AssertionError, tr ++ [Scan index' match_all_body])) ∧
  (hits = [] → embeddings = [] →
   run (update_embeddings self retriever index) tr =
   (Raise IndexError, tr ++ [Scan index' match_all_body])).
Proof.
  intros index' docs [embedding_field Hfield] Hscan Hembed.
  assert (Hrun : run (update_embeddings self retriever index) tr =
    if negb (length docs =? length embeddings)%nat
    then (Raise AssertionError, tr ++ [Scan index' match_all_body])
    else match embeddings with
         | [] => (Raise IndexError, tr ++ [Scan index' match_all_body])
         | emb0 :: _ => run (update_embeddings self retriever index) tr
         end).
  { unfold update_embeddings at 1. fold index'. rewrite Hfield.
    rewrite run_bind, run_get_all_documents, Hscan. simpl fmap. cbv beta iota.
    fold docs. rewrite run_lift_bind, Hembed.
    destruct (negb (length docs =? length embeddings)%nat) eqn:Hlen.
    - apply run_raise.
    - destruct embeddings as [|emb0 embeddings]; [apply run_raise|].
      unfold update_embeddings. fold index'. rewrite Hfield.
      rewrite run_bind, run_get_all_documents, Hscan. simpl fmap. cbv beta iota.
      fold docs. rewrite run_lift_bind, Hembed. rewrite Hlen. reflexivity. }
  split.
  - intros Hlen. rewrite Hrun.
    replace (length docs =? length embeddings)%nat with false; [reflexivity|].
    symmetry. apply Nat.eqb_neq. subst docs. by rewrite length_map.
  - intros -> ->. rewrite Hrun. reflexivity.
Qed.

(** A provider that returns no vector, for an index of one document and
    for an empty index. *)
Lemma update_embeddings_count_mismatch_witness :
  (length [Example.scanned_hit] ≠ length ([] : list (list float)) →
   run (update_embeddings (H := Reference.lib) (Example.store [Example.scanned_hit])
          (Sample.fixed_retriever []) None) [] =
   (Raise AssertionError, [] ++ [Scan "document" match_all_body])) ∧
  (([] : list hit) = [] → ([] : list (list float)) = [] →
   run (update_embeddings (H := Reference.lib) (Example.store [])
          (Sample.fixed_retriever []) None) [] =
   (Raise IndexError, [] ++ [Scan "document" match_all_body])).
Proof.
  split.
  - apply (update_embeddings_count_mismatch (H := Reference.lib)
             (Example.store [Example.scanned_hit]) (Sample.fixed_retriever []) None []
             [Example.scanned_hit] []); [by eexists|reflexivity|reflexivity].
  - apply (update_embeddings_count_mismatch (H := Reference.lib)
             (Example.store []) (Sample.fixed_retriever []) None [] [] []);
      [by eexists|reflexivity|reflexivity].
Defined.

(** ** Statistics *)

Lemma foldl_max_spec (x : Z) (l : list Z) :
  foldl Z.max x l ∈ x :: l ∧ Forall (λ y, y ≤ foldl Z.max x l) (x :: l).
Proof.
  revert x. induction l as [|y l IH]; intros x; simpl.
  - split; [by left|]. by apply Forall_singleton.
  - destruct (IH (Z.max x y)) as [Hin Hall].
    apply Forall_cons_1 in Hall as [Hxy Hall]. split.
    + apply elem_of_cons in Hin as [Hin|Hin]; [|by do 2 right].
      rewrite Hin. destruct (Z.max_spec x y) as [[_ ->]|[_ ->]];
        [right; by left|by left].
    + repeat apply Forall_cons_2; [lia|lia|done].
Qed.

Lemma foldl_min_spec (x : Z) (l : list Z) :
  foldl Z.min x l ∈ x :: l ∧ Forall (λ y, foldl Z.min x l ≤ y) (x :: l).
Proof.
  revert x. induction l as [|y l IH]; intros x; simpl.
  - split; [by left|]. by apply Forall_singleton.
  - destruct (IH (Z.min x y)) as [Hin Hall].
    apply Forall_cons_1 in Hall as [Hxy Hall]. split.
    + apply elem_of_cons in Hin as [Hin|Hin]; [|by do 2 right].
      rewrite Hin. destruct (Z.min_spec x y) as [[_ ->]|[_ ->]];
        [by left|right; by left].
    + repeat apply Forall_cons_2; [lia|lia|done].
Qed.

Lemma for_each_len_texts (self : Store.t) (hits : list hit) (texts : list string) :
  Forall2 (λ hit s, _source hit !! Store.text_field self = Some (VStr s)) hits texts →
  for_each (λ d, len (Document.text d))
           (map (λ hit, _convert_es_hit_to_document self hit 0) hits)
  = Ok (text_lengths texts).
Proof.
  induction 1 as [|hit s hits texts Hs _ IH]; [reflexivity|].
  cbn [map for_each]. rewrite IH.
  change (Document.text (_convert_es_hit_to_document self hit 0))
    with (get (_source hit) (Store.text_field self)).
  unfold get. rewrite Hs. reflexivity.
Qed.

Lemma for_each_len_missing (self : Store.t) (before after : list hit) (hit : hit)
    (texts : list string) :
  Forall2 (λ hit s, _source hit !! Store.text_field self = Some (VStr s)) before texts →
  _source hit !! Store.text_field self = None →
  for_each (λ d, len (Document.text d))
           (map (λ hit, _convert_es_hit_to_document self hit 0) (before ++ hit :: after))
  = Raise (TypeError "object of type 'NoneType' has no len()").
Proof.
  intros Hbefore Hhit.
  induction Hbefore as [|hit' s before texts Hs _ IH].
  - cbn [app map for_each].
    change (Document.text (_convert_es_hit_to_document self hit 0))
      with (get (_source hit) (Store.text_field self)).
    unfold get. rewrite Hhit. reflexivity.
  - cbn [app map for_each]. rewrite IH.
    change (Document.text (_convert_es_hit_to_document self hit' 0))
      with (get (_source hit') (Store.text_field self)).
    unfold get. rewrite Hs. reflexivity.
Qed.

(** X19. On an index that is not empty and whose documents all have a text,
    [describe_documents] scans the index once and returns the number of
    documents under [count], the mean and the median of the lengths of the
    texts as numpy computes them, and under [chars_max] and [chars_min] the
    lengths of two of the texts between which every length lies. *)
Theorem describe_documents_statistics `{NumPy} (self : Store.t)
    (index : option string) (tr : list request) (hits : list hit)
    (texts : list string) :
  let index' := default (Store.index self) index in
  let l := text_lengths texts in
  scan (Store.client self) index' match_all_body = Ok hits →
  Forall2 (λ hit s, _source hit !! Store.text_field self = Some (VStr s)) hits texts →
  hits ≠ [] →
  ∃ chars_max chars_min,
    run (describe_documents self index) tr =
      (Ok (<["count" := VInt (Z.of_nat (length hits))]> (
           <["chars_mean" := VFloat (np_mean l)]> (
           <["chars_max" := VInt chars_max]> (
           <["chars_min" := VInt chars_min]> (
           <["chars_median" := VFloat (np_median l)]> ∅))))),
       tr ++ [Scan index' match_all_body]) ∧
    chars_max ∈ l ∧ chars_min ∈ l ∧
    Forall (λ n, chars_min ≤ n ≤ chars_max) l.
Proof.
  intros index' l Hscan Htexts Hne.
  destruct texts as [|s texts].
  { apply Forall2_nil_inv_r in Htexts. by destruct Hne. }
  set (x := Z.of_nat (String.length s)).
  set (l' := text_lengths texts).
  exists (foldl Z.max x l'), (foldl Z.min x l').
  destruct (foldl_max_spec x l') as [Hmax_in Hmax].
  destruct (foldl_min_spec x l') as [Hmin_in Hmin].
  split; [|split; [exact Hmax_in|split; [exact Hmin_in|]]].
  - unfold describe_documents. fold index'.
    rewrite run_bind, run_get_all_documents, Hscan. simpl fmap. cbv beta iota.
    rewrite run_lift_bind, (for_each_len_texts self hits (s :: texts) Htexts).
    rewrite run_lift. rewrite length_map. reflexivity.
  - apply Forall_forall. intros n Hn.
    rewrite Forall_forall in Hmax, Hmin. split; [by apply Hmin|by apply Hmax].
Qed.

(** An index of one document, whose text has nine characters. *)
Lemma describe_documents_statistics_witness :
  ∃ chars_max chars_min,
    run (describe_documents (H2 := Sample.numpy) (Example.store [Example.scanned_hit])
           None) [] =
      (Ok (<["count" := VInt 1]> (
           <["chars_mean" := VFloat (Sample.mean [9])]> (
           <["chars_max" := VInt chars_max]> (
           <["chars_min" := VInt chars_min]> (
           <["chars_median" := VFloat (Sample.median [9])]> ∅))))),
       [] ++ [Scan "document" match_all_body]) ∧
    chars_max ∈ [9] ∧ chars_min ∈ [9] ∧
    Forall (λ n, chars_min ≤ n ≤ chars_max) [9].
Proof.
  apply (describe_documents_statistics (H := Sample.numpy)
           (Example.store [Example.scanned_hit]) None [] [Example.scanned_hit]
           ["cats purr"]).
  - reflexivity.
  - repeat constructor.
  - discriminate.
Defined.

(** X20. [describe_documents] raises [ValueError] on an empty index (the
    maximum of no lengths), and the [TypeError] of the length of [None]
    when a document of the index has no text and the documents before it
    have one; the scan is the only request it has sent. *)
Theorem describe_documents_errors `{NumPy} (self : Store.t)
    (index : option string) (tr : list request) (hits : list hit) :
  let index' := default (Store.index self) index in
  scan (Store.client self) index' match_all_body = Ok hits →
  (hits = [] →
   run (describe_documents self index) tr =
   (Raise (ValueError "max() arg is an empty sequence"),
    tr ++ [Scan index' match_all_body])) ∧
  (∀ before hit after texts,
     hits = before ++ hit :: after →
     Forall2 (λ hit s, _source hit !! Store.text_field self = Some (VStr s))
             before texts →
     _source hit !! Store.text_field self = None →
     run (describe_documents self index) tr =
     (Raise (TypeError "object of type 'NoneType' has no len()"),
      tr ++ [Scan index' match_all_body])).
Proof.
  intros index' Hscan. split.
  - intros ->. unfold describe_documents. fold index'.
    rewrite run_bind, run_get_all_documents, Hscan. reflexivity.
  - intros before hit after texts -> Hbefore Hhit.
    unfold describe_documents. fold index'.
    rewrite run_bind, run_get_all_documents, Hscan. simpl fmap. cbv beta iota.
    rewrite run_lift_bind, (for_each_len_missing self before after hit texts Hbefore Hhit).
    reflexivity.
Qed.

(** An empty index, and an index whose second document has a name and no
    text. *)
Lemma describe_documents_errors_witness :
  run (describe_documents (H2 := Sample.numpy) (Example.store []) None) [] =
    (Raise (ValueError "max() arg is an empty sequence"),
     [] ++ [Scan "document" match_all_body]) ∧
  run (describe_documents (H2 := Sample.numpy)
         (Example.store [Example.scanned_hit; Sample.textless_hit]) None) [] =
    (Raise (TypeError "object of type 'NoneType' has no len()"),
     [] ++ [Scan "document" match_all_body]).
Proof.
  split.
  - destruct (describe_documents_errors (H := Sample.numpy) (Example.store []) None []
                [] eq_refl) as [Hempty _].
    exact (Hempty eq_refl).
  - destruct (describe_documents_errors (H := Sample.numpy)
                (Example.store [Example.scanned_hit; Sample.textless_hit]) None []
                [Example.scanned_hit; Sample.textless_hit] eq_refl) as [_ Hmissing].
    apply (Hmissing [Example.scanned_hit] Sample.textless_hit [] ["cats purr"]).
    + reflexivity.
    + repeat constructor.
    + reflexivity.
Defined.

(** ** Evaluation data *)

(** X21. [add_eval_data] with no index arguments, on a file that is read
    into documents and labels, writes the documents to the index
    [eval_document] and then the labels to the index [label], whatever the
    indices of the store are: each index is checked first and created when
    it is missing, with the document mapping and the label mapping. When
    the file cannot be read nothing is sent; when a check, a creation or
    the bulk request of the documents raises, nothing is sent after it. *)
Theorem add_eval_data_requests `{PyLib} `{BaseModel} `{IndexingUtils} (self : Store.t)
    (filename : string) (tr : list request) :
  (∀ e, eval_data_from_file filename = Raise e →
        run (add_eval_data self filename Omitted Omitted) tr = (Raise e, tr)) ∧
  (∀ documents labels,
     eval_data_from_file filename = Ok (inr <$> documents, inr <$> labels) →
     let doc_records := map (record_of "eval_document") documents in
     let label_records := map (_label (Some "label")) labels in
     let doc_bulk := Bulk doc_records (Some 300) (Some "wait_for") in
     let label_bulk := Bulk label_records (Some 300) (Some "wait_for") in
     run (add_eval_data self filename Omitted Omitted) tr =
     match made_to_exist (Store.client self) "eval_document" (index_mapping self) with
     | (Raise e, checked) => (Raise e, tr ++ checked)
     | (Ok _, checked) =>
         match bulk (Store.client self) doc_records (Some 300) (Some "wait_for") with
         | Raise e => (Raise e, tr ++ checked ++ [doc_bulk])
         | Ok _ =>
             match made_to_exist (Store.client self) "label" label_mapping with
             | (Raise e, checked') => (Raise e, tr ++ checked ++ [doc_bulk] ++ checked')
             | (Ok _, checked') =>
                 (bulk (Store.client self) label_records (Some 300) (Some "wait_for"),
                  tr ++ checked ++ [doc_bulk] ++ checked' ++ [label_bulk])
             end
         end
     end).
Proof.
  split.
  - intros e He. unfold add_eval_data. by rewrite run_lift_bind, He.
  - intros documents labels Hdata doc_records label_records doc_bulk label_bulk.
    unfold add_eval_data. rewrite run_lift_bind, Hdata. cbv beta iota zeta.
    rewrite run_bind.
    rewrite (run_write_documents self documents (Some "eval_document") tr).
    cbn [if_truthy truthy truthy_string default].
    change (id "eval_document") with "eval_document".
    fold doc_records. fold doc_bulk. unfold made_to_exist.
    assert (Hlabels : ∀ tr1, run (write_labels self (inr <$> labels) (Given (Some "label"))) tr1 =
      match match indices_exists (Store.client self) "label" with
            | Ok true => (Ok tt, [IndicesExists "label"])
            | Ok false =>
                (indices_create (Store.client self) "label" 400 label_mapping,
                 [IndicesExists "label"; IndicesCreate "label" 400 label_mapping])
            | Raise e => (Raise e, [IndicesExists "label"])
            end with
      | (Raise e, checked') => (Raise e, tr1 ++ checked')
      | (Ok _, checked') =>
          (bulk (Store.client self) label_records (Some 300) (Some "wait_for"),
           tr1 ++ checked' ++ [label_bulk])
      end).
    { intros tr1. rewrite write_labels_named by reflexivity. cbv zeta.
      fold label_records. fold label_bulk.
      destruct (indices_exists (Store.client self) "label") as [[]|e]; [reflexivity| |reflexivity].
      destruct (indices_create (Store.client self) "label" 400 label_mapping) as [[]|e];
        reflexivity. }
    destruct (indices_exists (Store.client self) "eval_document") as [[]|e].
    + destruct (bulk (Store.client self) doc_records (Some 300) (Some "wait_for"))
        as [[]|e]; [|reflexivity].
      rewrite Hlabels.
      destruct (match indices_exists (Store.client self) "label" with
                | Ok true => _ | Ok false => _ | Raise e => _ end) as [[[]|e] checked'];
        by rewrite <- ?(assoc_L (++)).
    + destruct (indices_create (Store.client self) "eval_document" 400 (index_mapping self))
        as [[]|e]; [|reflexivity].
      destruct (bulk (Store.client self) doc_records (Some 300) (Some "wait_for"))
        as [[]|e]; [|reflexivity].
      rewrite Hlabels.
      destruct (match indices_exists (Store.client self) "label" with
                | Ok true => _ | Ok false => _ | Raise e => _ end) as [[[]|e] checked'];
        by rewrite <- ?(assoc_L (++)).
    + reflexivity.
Qed.

(** A file with one document and one label, on an engine that has no
    index yet: six requests. *)
Lemma add_eval_data_requests_witness :
  run (add_eval_data (H := Reference.lib) (H0 := Reference.model) (H1 := Sample.utils)
         Sample.fresh_store "dev-v2.0.json" Omitted Omitted) [] =
  (Ok tt,
   [IndicesExists "eval_document";
    IndicesCreate "eval_document" 400 (index_mapping Sample.fresh_store);
    Bulk [record_of "eval_document" Example.cats_doc] (Some 300) (Some "wait_for");
    IndicesExists "label";
    IndicesCreate "label" 400 label_mapping;
    Bulk [_label (Some "label") Example.label] (Some 300) (Some "wait_for")]).
Proof.
  destruct (add_eval_data_requests (H := Reference.lib) (H0 := Reference.model)
              (H1 := Sample.utils) Sample.fresh_store "dev-v2.0.json" [])
    as [_ Hrun].
  exact (Hrun [Example.cats_doc] [Example.label] eq_refl).
Defined.

(** ** The other operations of the client *)

Lemma run_calls_bind {A B : Type} (m : MC A) (f : A → MC B) (tr : list call) :
  run_calls (m ≫= f) tr =
  match run_calls m tr with
  | (Ok a, tr') => run_calls (f a) tr'
  | (Raise e, tr') => (Raise e, tr')
  end.
Proof. reflexivity. Qed.

(** X22. The methods that take no index, or are given none, act on the
    document index of the store: [get_document_count] counts it,
    [get_label_count] is [get_document_count] and with no index counts the
    document index too, not the label index, and [update_document_meta]
    sends its partial update, waiting for the refresh, to the document
    index. A count answer without [count] raises [KeyError]. *)
Theorem document_index_by_default (self : Store.t) (client : Client.t) (tr : list call) :
  (∀ index,
     run_calls (get_document_count self client index) tr =
     (Client.count client (default (Store.index self) index) ≫=
        λ result, getitem result "count",
      tr ++ [Count (default (Store.index self) index)])) ∧
  (∀ index,
     run_calls (get_label_count self client index) tr =
     run_calls (get_document_count self client index) tr) ∧
  snd (run_calls (get_label_count self client None) tr) =
    tr ++ [Count (Store.index self)] ∧
  (∀ id meta,
     run_calls (update_document_meta self client id meta) tr =
     (Client.update client (Store.index self) "_doc" id {["doc" := VDict meta]} "wait_for",
      tr ++ [Update (Store.index self) "_doc" id {["doc" := VDict meta]} "wait_for"])).
Proof.
  assert (Hrun : ∀ index, run_calls (get_document_count self client index) tr =
    (Client.count client (default (Store.index self) index) ≫=
       λ result, getitem result "count",
     tr ++ [Count (default (Store.index self) index)])).
  { intros index. unfold get_document_count. rewrite run_calls_bind.
    unfold invoke at 1. cbn [run_calls].
    destruct (Client.count client _) as [result|e]; [|reflexivity].
    rewrite run_calls_bind. unfold lift_calls. cbn [run_calls].
    simpl. destruct (getitem result "count"); reflexivity. }
  split; [exact Hrun|]. split; [reflexivity|]. split.
  - unfold get_label_count. rewrite Hrun. reflexivity.
  - reflexivity.
Qed.


(** X24. [delete_all_documents] sends one delete-by-query request that
    matches every document of the index and ignores the status 404, and
    then pauses for one second; when the request raises, the exception goes
    up without the pause. *)
Theorem delete_all_documents_calls (self : Store.t) (client : Client.t)
    (index : string) (tr : list call) :
  let request := DeleteByQuery index match_all_query [404] in
  run_calls (delete_all_documents self client index) tr =
  match Client.delete_by_query client index match_all_query [404] with
  | Ok _ => (Ok tt, tr ++ [request; Sleep 1])
  | Raise e => (Raise e, tr ++ [request])
  end.
Proof.
  intros request. unfold delete_all_documents. rewrite run_calls_bind.
  unfold invoke at 1. cbn [run_calls]. fold match_all_query.
  destruct (Client.delete_by_query client index match_all_query [404]) as [[]|e];
    [|reflexivity].
  unfold sleep, invoke. cbn [run_calls]. by rewrite <- (assoc_L (++)).
Qed.
